(** * Placement-tracking backend: cascade deletion and dashboard counters

    A shallow embedding of
      - [src/services/student_deletion.py]  (delete_student_cascade),
      - [src/utils/system_stats.py]         (increment_stat, decrement_stat,
                                             get_system_stats, set_stat,
                                             initialize_system_stats),
      - [src/app.py]                        (get_dashboard_summary),
      - [src/routes/students.py]            (delete_student),
      - [src/utils/auth_decorators.py]      (admin_required),
    over an explicit model of the document store they talk to.

    Conventions.  Python [int] is [Z]; counts of loop iterations are [nat].
    A document read with [to_dict()] is a record whose fields are [option]s:
    [None] is an absent key, and [d.get(k, v)] is [default v (k d)].  The
    fields have the types of the data model: counters and years are
    integers ([current_year = 2026], [int(doc.id)]), statuses and names are
    strings, [finalSelection] is a boolean.
    Collections are finite maps from document identifiers to documents;
    sub-collections are keyed by the whole path, and a [stream()] yields
    the documents in the order of the map.
    The store is the driver's: point reads, deletes, updates with
    increments and server timestamps, merges, and batches that commit all
    or nothing.  An update reads the keys [companyWise.<id>.placed] of a
    year update as field paths, split at every dot.  Its numbers are
    unbounded integers here, the field names of [systemStats/dashboard]
    are literal keys, and its own ceiling on the size of a batch is not
    enforced: the log of a run shows the batches that were sent.  Where a
    statement would depend on one of these three, it carries the matching
    hypothesis ([int64], [simple_field_name], [cascade_bound]). *)

From stdpp Require Import gmap strings list fin_maps pretty.
From Stdlib Require Import ZArith Lia Ascii.

Local Open Scope Z_scope.

(** ** Documents *)

(** One entry of a student's [companyStatus] map. *)
Record CompanyInfo := {
  ci_year : option Z;            (* company_info.get('year') *)
  ci_finalSelection : bool       (* company_info.get('finalSelection', False) *)
}.

(** [students/{id}].  [companyStatus] is a Python dict: keys are unique and
    [.items()] walks them in a fixed order, so it is an association list. *)
Record Student := {
  st_name : option string;
  st_currentStatus : option string;
  st_totalOffers : option Z;
  st_companyStatus : list (string * CompanyInfo)
}.

(** [companies/{companyYearId}]. *)
Record Company := {
  co_companyName : option string;
  co_year : option Z;
  co_status : option string;
  co_totalApplied : option Z;
  co_totalPlaced : option Z;
  co_updatedAt : option Z
}.

(** A value inside a year's [companyWise] map: the map is a dict of dicts,
    and an update through a field path may nest it further. *)
Unset Elimination Schemes.
Inductive doc_value :=
  | DInt (z : Z)
  | DStr (s : string)
  | DMap (m : gmap string doc_value).
Set Elimination Schemes.

(** The dict [{'companyName': ..., 'placed': ..., 'status': ...}]. *)
Definition company_wise_entry (name : string) (placed : Z) (status : string) : doc_value :=
  DMap (<["companyName"%string := DStr name]>
        (<["placed"%string := DInt placed]>
         {[ "status"%string := DStr status ]})).

(** [entry.get('placed')] where it is a number. *)
Definition placed_of (entry : option doc_value) : option Z :=
  match entry with
  | Some (DMap m) =>
      match m !! "placed"%string with
      | Some (DInt z) => Some z
      | _ => None
      end
  | _ => None
  end.

(** [years/{year}].  An absent [companyWise] field and an empty map are
    the same map here. *)
Record Year := {
  yr_year : option Z;
  yr_totalStudentsParticipated : option Z;
  yr_totalCompanies : option Z;
  yr_totalPlaced : option Z;
  yr_companyWise : gmap string doc_value;
  yr_updatedAt : option Z
}.

(** [companies/{c}/rounds/{r}/data/{d}]: a row of one student. *)
Record RoundData := { rd_studentId : option string }.

(** [companies/{c}/rounds/{r}]. *)
Record Round := { rn_roundNumber : option Z }.

(** [companies/{c}/placements/{studentId}]. *)
Record Placement := { pl_studentId : option string }.

(** Field values of [systemStats/dashboard], whose keys are chosen at run
    time by the callers of [increment_stat]. *)
Inductive field_value :=
  | VInt (z : Z)
  | VTime (t : Z)        (* a datetime *)
  | VNone.               (* Python None *)

Global Instance field_value_eq_dec : EqDecision field_value.
Proof. solve_decision. Defined.

(** ** The store *)

Record Db := {
  students : gmap string Student;
  companies : gmap string Company;
  placements : gmap (string * string) Placement;
  rounds : gmap (string * string) Round;
  round_data : gmap (string * string * string) RoundData;
  years : gmap string Year;
  dashboard : option (gmap string field_value)     (* systemStats/dashboard *)
}.

(** References to the documents that the modelled code deletes. *)
Inductive doc_ref :=
  | students_doc (student_id : string)
  | placements_doc (company_year_id student_id : string)
  | round_data_doc (company_year_id round_id data_id : string).

(** [firestore.Increment(n)] or a plain value, as the right-hand side of a
    field in an update of [systemStats/dashboard]. *)
Inductive field_write :=
  | Increment (n : Z)
  | Plain (v : field_value).

(** The dict handed to [batch.update(company_ref, ...)]:
    ['totalApplied'] and ['updatedAt': SERVER_TIMESTAMP] are always there,
    ['totalPlaced'] only for a placed student. *)
Record CompanyUpdate := {
  cu_totalApplied : Z;
  cu_totalPlaced : option Z
}.

(** The dict handed to [batch.update(year_ref, ...)]: the increment of
    ['totalStudentsParticipated'], ['updatedAt': SERVER_TIMESTAMP], the
    increments under the keys [f'companyWise.{company_year_id}.placed'],
    kept under these very strings, and the optional increment of
    ['totalPlaced']. *)
Record YearUpdate := {
  yu_totalStudentsParticipated : Z;
  yu_companyWise_placed : gmap string Z;
  yu_totalPlaced : option Z
}.

(** [f'companyWise.{company_year_id}.placed'] *)
Definition placed_key (company_year_id : string) : string :=
  "companyWise." +:+ company_year_id +:+ ".placed".

(** One write operation, queued in a batch or sent on its own. *)
Inductive write_op :=
  | OpDelete (r : doc_ref)
  | OpUpdateCompany (company_year_id : string) (u : CompanyUpdate)
  | OpUpdateYear (year_id : string) (u : YearUpdate)
  | OpUpdateStats (u : gmap string field_write)
  | OpSetStats (merge : bool) (d : gmap string field_value).

(** The store's numeric increment: a field that is absent is taken as 0. *)
Definition incr (n : Z) (field : option Z) : option Z :=
  Some (default 0 field + n).

Definition apply_company_update (ts : Z) (u : CompanyUpdate) (c : Company) : Company :=
  {| co_companyName := co_companyName c;
     co_year := co_year c;
     co_status := co_status c;
     co_totalApplied := incr (cu_totalApplied u) (co_totalApplied c);
     co_totalPlaced :=
       match cu_totalPlaced u with
       | Some n => incr n (co_totalPlaced c)
       | None => co_totalPlaced c
       end;
     co_updatedAt := Some ts |}.

(** [update] reads a string key as a field path: it splits it at every
    dot. *)
Fixpoint split_on (sep : ascii) (s : string) : list string :=
  match s with
  | EmptyString => [EmptyString]
  | String c s' =>
      if decide (c = sep) then EmptyString :: split_on sep s'
      else match split_on sep s' with
           | [] => [String c EmptyString]
           | segment :: segments => String c segment :: segments
           end
  end.

(** The store's increment at a path below a value: the maps on the way are
    created when they are missing, a value on the way that is no map is
    replaced by one, and at the end a number is added to, anything else
    replaced by the operand. *)
Fixpoint incr_at (path : list string) (n : Z) (v : option doc_value) : doc_value :=
  match path with
  | [] =>
      match v with
      | Some (DInt c) => DInt (c + n)
      | _ => DInt n
      end
  | segment :: path' =>
      let m := match v with Some (DMap m) => m | _ => ∅ end in
      DMap (<[segment := incr_at path' n (m !! segment)]> m)
  end.

(** One increment of a year update on the [companyWise] map: the key is
    split, and what follows the segment ['companyWise'] is the path inside
    the map.  The keys of a year update all begin with ['companyWise.']; a
    key that addresses another field leaves the map as it is. *)
Definition incr_company_wise (key : string) (n : Z) (company_wise : gmap string doc_value) :
    gmap string doc_value :=
  match split_on "."%char key with
  | "companyWise"%string :: segment :: path =>
      <[segment := incr_at path n (company_wise !! segment)]> company_wise
  | _ => company_wise
  end.

(** [update(year_ref, year_update)]: the two counters, the time stamp and
    the increments under the dotted keys, one after the other. *)
Definition apply_year_update (ts : Z) (u : YearUpdate) (y : Year) : Year :=
  {| yr_year := yr_year y;
     yr_totalStudentsParticipated :=
       incr (yu_totalStudentsParticipated u) (yr_totalStudentsParticipated y);
     yr_totalCompanies := yr_totalCompanies y;
     yr_totalPlaced :=
       match yu_totalPlaced u with
       | Some n => incr n (yr_totalPlaced y)
       | None => yr_totalPlaced y
       end;
     yr_companyWise :=
       map_fold incr_company_wise (yr_companyWise y) (yu_companyWise_placed u);
     yr_updatedAt := Some ts |}.

(** A field of [systemStats/dashboard] under an update: an increment of a
    field that is absent or not a number stores the operand. *)
Definition apply_field_write (old : option field_value) (w : option field_write) : option field_value :=
  match w with
  | None => old
  | Some (Plain v) => Some v
  | Some (Increment n) =>
      match old with
      | Some (VInt c) => Some (VInt (c + n))
      | _ => Some (VInt n)
      end
  end.

Definition set_students (f : gmap string Student → gmap string Student) (d : Db) : Db :=
  {| students := f (students d); companies := companies d;
     placements := placements d; rounds := rounds d;
     round_data := round_data d; years := years d; dashboard := dashboard d |}.

Definition set_companies (f : gmap string Company → gmap string Company) (d : Db) : Db :=
  {| students := students d; companies := f (companies d);
     placements := placements d; rounds := rounds d;
     round_data := round_data d; years := years d; dashboard := dashboard d |}.

Definition set_placements
    (f : gmap (string * string) Placement → gmap (string * string) Placement) (d : Db) : Db :=
  {| students := students d; companies := companies d;
     placements := f (placements d); rounds := rounds d;
     round_data := round_data d; years := years d; dashboard := dashboard d |}.

Definition set_round_data
    (f : gmap (string * string * string) RoundData → gmap (string * string * string) RoundData)
    (d : Db) : Db :=
  {| students := students d; companies := companies d;
     placements := placements d; rounds := rounds d;
     round_data := f (round_data d); years := years d; dashboard := dashboard d |}.

Definition set_years (f : gmap string Year → gmap string Year) (d : Db) : Db :=
  {| students := students d; companies := companies d;
     placements := placements d; rounds := rounds d;
     round_data := round_data d; years := f (years d); dashboard := dashboard d |}.

Definition set_dashboard (x : option (gmap string field_value)) (d : Db) : Db :=
  {| students := students d; companies := companies d;
     placements := placements d; rounds := rounds d;
     round_data := round_data d; years := years d; dashboard := x |}.

(** Deleting a document that is absent succeeds and changes nothing. *)
Definition apply_delete (r : doc_ref) (d : Db) : Db :=
  match r with
  | students_doc s => set_students (delete s) d
  | placements_doc c s => set_placements (delete (c, s)) d
  | round_data_doc c r x => set_round_data (delete (c, r, x)) d
  end.

(** The effect of one write at server time [ts]; [None] when the store
    refuses it: an update needs its document to exist. *)
Definition apply_op (ts : Z) (op : write_op) (d : Db) : option Db :=
  match op with
  | OpDelete r => Some (apply_delete r d)
  | OpUpdateCompany c u =>
      match companies d !! c with
      | Some doc => Some (set_companies <[c := apply_company_update ts u doc]> d)
      | None => None
      end
  | OpUpdateYear y u =>
      match years d !! y with
      | Some doc => Some (set_years <[y := apply_year_update ts u doc]> d)
      | None => None
      end
  | OpUpdateStats u =>
      match dashboard d with
      | Some doc => Some (set_dashboard (Some (merge apply_field_write doc u)) d)
      | None => None
      end
  | OpSetStats true v =>
      Some (set_dashboard (Some (v ∪ default ∅ (dashboard d))) d)
  | OpSetStats false v =>
      Some (set_dashboard (Some v) d)
  end.

(** The writes of one request, in order, all or nothing. *)
Fixpoint apply_ops (ts : Z) (ops : list write_op) (d : Db) : option Db :=
  match ops with
  | [] => Some d
  | op :: ops' =>
      match apply_op ts op d with
      | Some d' => apply_ops ts ops' d'
      | None => None
      end
  end.

(** The store together with what an observer of the store sees: the server
    clock, one tick per accepted request, and the log of accepted write
    requests (a committed batch, or a single [update]/[set]). *)
Record World := {
  db : Db;
  clock : Z;
  commits : list (list write_op)
}.

(** [batch.commit()], and a single write as a batch of one. *)
Definition commit (batch : list write_op) (w : World) : option World :=
  match apply_ops (clock w) batch (db w) with
  | Some d => Some {| db := d; clock := clock w + 1; commits := commits w ++ [batch] |}
  | None => None
  end.

(** ** Control flow: state and exceptions *)

Inductive exn :=
  | ValueError (student_id : string)   (* "Student ... not found" *)
  | StoreError                         (* a write request the store refused *)
  | TypeError.                         (* arithmetic on a value that is no number *)

Inductive outcome (A : Type) :=
  | Returned (a : A) (w : World)
  | Raised (e : exn) (w : World).
Arguments Returned {A} a w.
Arguments Raised {A} e w.

Definition M (A : Type) : Type := World → outcome A.

Definition ret {A} (a : A) : M A := λ w, Returned a w.

Definition bind {A B} (k : A → M B) (m : M A) : M B :=
  λ w, match m w with
       | Returned a w' => k a w'
       | Raised e w' => Raised e w'
       end.

(** [x ← m; k] is stdpp's notation for [bind (λ x, k) m]. *)
Global Instance M_bind : MBind M := @bind.

Definition raise {A} (e : exn) : M A := λ w, Raised e w.

Definition read {A} (f : Db → A) : M A := λ w, Returned (f (db w)) w.

Definition do_commit (ops : list write_op) : M unit :=
  λ w, match commit ops w with
       | Some w' => Returned tt w'
       | None => Raised StoreError w
       end.

(** [try: m except Exception: h]. *)
Definition catch {A} (m : M A) (h : M A) : M A :=
  λ w, match m w with
       | Returned a w' => Returned a w'
       | Raised _ w' => h w'
       end.

Definition world_of {A} (o : outcome A) : World :=
  match o with Returned _ w => w | Raised _ w => w end.

(** ** Cascade deletion ([src/services/student_deletion.py]) *)

(** The [stats] dict of [delete_student_cascade]. *)
Record CascadeStats := {
  companiesAffected : nat;
  roundsDeleted : nat;
  placementsDeleted : nat;
  yearsAffected : gset Z;
  totalOffers : Z
}.

(** The local variables that the loops of [delete_student_cascade] update. *)
Record Locals := {
  batch : list write_op;
  operation_count : nat;
  stats : CascadeStats
}.

(** [batch.delete(ref)] / [batch.update(ref, data)] followed by
    [operation_count += 1]. *)
Definition enqueue (op : write_op) (l : Locals) : Locals :=
  {| batch := batch l ++ [op];
     operation_count := S (operation_count l);
     stats := stats l |}.

Definition with_stats (f : CascadeStats → CascadeStats) (l : Locals) : Locals :=
  {| batch := batch l; operation_count := operation_count l; stats := f (stats l) |}.

Definition count_company (s : CascadeStats) : CascadeStats :=
  {| companiesAffected := S (companiesAffected s); roundsDeleted := roundsDeleted s;
     placementsDeleted := placementsDeleted s; yearsAffected := yearsAffected s;
     totalOffers := totalOffers s |}.

Definition count_round (s : CascadeStats) : CascadeStats :=
  {| companiesAffected := companiesAffected s; roundsDeleted := S (roundsDeleted s);
     placementsDeleted := placementsDeleted s; yearsAffected := yearsAffected s;
     totalOffers := totalOffers s |}.

Definition count_placement (s : CascadeStats) : CascadeStats :=
  {| companiesAffected := companiesAffected s; roundsDeleted := roundsDeleted s;
     placementsDeleted := S (placementsDeleted s); yearsAffected := yearsAffected s;
     totalOffers := totalOffers s |}.

Definition add_year (y : Z) (s : CascadeStats) : CascadeStats :=
  {| companiesAffected := companiesAffected s; roundsDeleted := roundsDeleted s;
     placementsDeleted := placementsDeleted s; yearsAffected := {[ y ]} ∪ yearsAffected s;
     totalOffers := totalOffers s |}.

(** The ceiling tested by both [if operation_count >= 500]. *)
Definition BATCH_LIMIT : nat := 500.

(** [if operation_count >= 500: batch.commit(); batch = db.batch();
    operation_count = 0]. *)
Definition commit_if_full (l : Locals) : M Locals :=
  if (BATCH_LIMIT <=? operation_count l)%nat then
    _ ← do_commit (batch l);
    ret {| batch := []; operation_count := 0; stats := stats l |}
  else ret l.

(** [rounds_ref.stream()]: the identifiers of the rounds of a company. *)
Definition rounds_stream (c : string) (d : Db) : list string :=
  omap (λ kv, if decide (kv.1.1 = c) then Some kv.1.2 else None)
       (map_to_list (rounds d)).

(** [collection('data').where('studentId', '==', student_id).limit(1).stream()]
    under one round. *)
Definition data_query (c r student_id : string) (d : Db) : list doc_ref :=
  take 1
    (omap (λ kv, if decide (kv.1.1.1 = c ∧ kv.1.1.2 = r
                            ∧ rd_studentId kv.2 = Some student_id)
                 then Some (round_data_doc c r kv.1.2) else None)
          (map_to_list (round_data d))).

(** [for data_doc in data_query.stream(): ...] *)
Fixpoint data_loop (docs : list doc_ref) (l : Locals) : M Locals :=
  match docs with
  | [] => ret l
  | ref :: docs' =>
      l' ← commit_if_full (with_stats count_round (enqueue (OpDelete ref) l));
      data_loop docs' l'
  end.

(** [for round_doc in rounds: ...] *)
Fixpoint rounds_loop (student_id c : string) (rs : list string) (l : Locals) : M Locals :=
  match rs with
  | [] => ret l
  | r :: rs' =>
      docs ← read (data_query c r student_id);
      l' ← data_loop docs l;
      rounds_loop student_id c rs' l'
  end.

(** Python truthiness of [company_info.get('year')]. *)
Definition truthy (year : option Z) : bool :=
  match year with
  | Some y => negb (y =? 0)
  | None => false
  end.

(** The body of [for company_year_id, company_info in company_status.items()]. *)
Definition company_step (student_id : string) (entry : string * CompanyInfo)
    (l : Locals) : M Locals :=
  let company_year_id := entry.1 in
  let company_info := entry.2 in
  let l := with_stats count_company l in
  let year := ci_year company_info in
  let l := if truthy year then with_stats (add_year (default 0 year)) l else l in
  let was_placed := ci_finalSelection company_info in
  let l :=
    if was_placed
    then with_stats count_placement
           (enqueue (OpDelete (placements_doc company_year_id student_id)) l)
    else l in
  rs ← read (rounds_stream company_year_id);
  l ← rounds_loop student_id company_year_id rs l;
  let update_data :=
    {| cu_totalApplied := -1;
       cu_totalPlaced := if was_placed then Some (-1) else None |} in
  commit_if_full (enqueue (OpUpdateCompany company_year_id update_data) l).

Fixpoint company_loop (student_id : string) (items : list (string * CompanyInfo))
    (l : Locals) : M Locals :=
  match items with
  | [] => ret l
  | entry :: items' =>
      l' ← company_step student_id entry l;
      company_loop student_id items' l'
  end.

(** The inner loop of step 3: it counts the placed entries of [year] and
    adds their ['companyWise.<id>.placed'] keys to [year_update]. *)
Fixpoint year_scan (year : Z) (items : list (string * CompanyInfo))
    (acc : nat * gmap string Z) : nat * gmap string Z :=
  match items with
  | [] => acc
  | entry :: items' =>
      if bool_decide (ci_year entry.2 = Some year) && ci_finalSelection entry.2
      then year_scan year items' (S acc.1, <[placed_key entry.1 := -1]> acc.2)
      else year_scan year items' acc
  end.

Definition year_update_of (year : Z) (items : list (string * CompanyInfo)) : YearUpdate :=
  let r := year_scan year items (0%nat, ∅) in
  {| yu_totalStudentsParticipated := -1;
     yu_companyWise_placed := r.2;
     yu_totalPlaced := if (0 <? r.1)%nat then Some (- Z.of_nat r.1) else None |}.

(** [for year in stats['yearsAffected']: ...]; the document is
    [years/str(year)]. *)
Fixpoint year_loop (ys : list Z) (items : list (string * CompanyInfo)) (l : Locals) : Locals :=
  match ys with
  | [] => l
  | year :: ys' =>
      year_loop ys' items (enqueue (OpUpdateYear (pretty year) (year_update_of year items)) l)
  end.

(** The returned dict. *)
Unset Elimination Schemes.
Inductive json :=
  | JStr (s : string)
  | JInt (z : Z)
  | JObj (fields : list (string * json)).
Set Elimination Schemes.

Definition build_result (student_id : string) (student_data : Student)
    (s : CascadeStats) : json :=
  JObj [ ("message", JStr "Student deleted successfully");
         ("studentId", JStr student_id);
         ("studentName", JStr (default "Unknown" (st_name student_data)));
         ("cascadingUpdates",
           JObj [ ("companiesAffected", JInt (Z.of_nat (companiesAffected s)));
                  ("roundsDeleted", JInt (Z.of_nat (roundsDeleted s)));
                  ("placementsDeleted", JInt (Z.of_nat (placementsDeleted s)));
                  ("yearsAffected", JInt (Z.of_nat (size (yearsAffected s)))) ]) ]%string.

Definition initial_stats : CascadeStats :=
  {| companiesAffected := 0; roundsDeleted := 0; placementsDeleted := 0;
     yearsAffected := ∅; totalOffers := 0 |}.

Definition set_totalOffers (n : Z) (s : CascadeStats) : CascadeStats :=
  {| companiesAffected := companiesAffected s; roundsDeleted := roundsDeleted s;
     placementsDeleted := placementsDeleted s; yearsAffected := yearsAffected s;
     totalOffers := n |}.

(** Steps 1 to 4 of the source, up to and with "Commit remaining
    operations"; it returns the tracking dict. *)
Definition cascade_main (student_id : string) (student_data : Student) : M CascadeStats :=
  let total_offers := default 0 (st_totalOffers student_data) in
  let company_status := st_companyStatus student_data in
  let stats0 := set_totalOffers total_offers initial_stats in
  let l := {| batch := []; operation_count := 0; stats := stats0 |} in
  l ← company_loop student_id company_status l;
  let l := year_loop (elements (yearsAffected (stats l))) company_status l in
  let l := enqueue (OpDelete (students_doc student_id)) l in
  _ ← (if (0 <? operation_count l)%nat then do_commit (batch l) else ret tt);
  ret (stats l).

Definition delete_student_cascade (student_id : string) : M json :=
  student_doc ← read (λ d, students d !! student_id);
  match student_doc with
  | None => raise (ValueError student_id)
  | Some student_data =>
      s ← cascade_main student_id student_data;
      (* 5. Delete student document: a second batch of one delete *)
      _ ← do_commit [OpDelete (students_doc student_id)];
      ret (build_result student_id student_data s)
  end.

(** ** Dashboard counters ([src/utils/system_stats.py]) *)

(** [stats_ref.update(data)] and [stats_ref.set(data, merge=...)]: single
    write requests on [systemStats/dashboard].  A field name is taken as
    one top-level key and a number as an unbounded integer: what the driver
    does with a name that has a dot (a field path, for [update]) or with an
    integer outside 64 bits is not part of it, and a statement that would
    depend on it carries [simple_field_name] and [int64] as hypotheses. *)
Definition stats_update (data : gmap string field_write) : M unit :=
  do_commit [OpUpdateStats data].

Definition stats_set (merge : bool) (data : gmap string field_value) : M unit :=
  do_commit [OpSetStats merge data].

(** [current_value + value]: defined on numbers only. *)
Definition py_add (v : field_value) (n : Z) : M Z :=
  match v with
  | VInt c => ret (c + n)
  | _ => raise TypeError
  end.

(** [increment_stat(field, value)], run when [datetime.utcnow()] is [now].
    A dict display with the key ['lastUpdated'] written last is an insertion
    of that key into the singleton, so that it wins when [field] is
    ['lastUpdated'] itself. *)
Definition increment_stat (field : string) (value : Z) (now : Z) : M unit :=
  catch
    (if value <? 0 then
       stats_doc ← read dashboard;
       match stats_doc with
       | Some doc =>
           let current_value := default (VInt 0) (doc !! field) in
           sum ← py_add current_value value;
           let new_value := Z.max 0 sum in
           if bool_decide (VInt new_value = current_value)
              && bool_decide (current_value = VInt 0)
           then ret tt
           else stats_update (<["lastUpdated" := Plain (VTime now)]>
                                {[ field := Plain (VInt new_value) ]})
       | None =>
           stats_set true (<["lastUpdated" := VTime now]> {[ field := VInt 0 ]})
       end
     else
       stats_update (<["lastUpdated" := Plain (VTime now)]>
                       {[ field := Increment value ]}))
    (let initial_value := if value <? 0 then 0 else value in
     stats_set true (<["lastUpdated" := VTime now]> {[ field := VInt initial_value ]})).

Definition decrement_stat (field : string) (value : Z) (now : Z) : M unit :=
  increment_stat field (- value) now.

(** The dict returned by [get_system_stats] when the record is absent. *)
Definition default_stats : gmap string field_value :=
  <["lastUpdated" := VNone]>
  (<["totalOffers" := VInt 0]>
  (<["totalNotPlaced" := VInt 0]>
  (<["totalPlaced" := VInt 0]>
  (<["totalStudents" := VInt 0]>
  (<["runningCompanies" := VInt 0]>
  (<["completedCompanies" := VInt 0]>
  (<["totalCompanies" := VInt 0]>
  {[ "totalYears" := VInt 0 ]}))))))).

Definition get_system_stats : M (gmap string field_value) :=
  stats_doc ← read dashboard;
  match stats_doc with
  | Some doc => ret doc
  | None => ret default_stats
  end.

Definition set_stat (field : string) (value : Z) (now : Z) : M unit :=
  stats_set true (<["lastUpdated" := VTime now]> {[ field := VInt value ]}).

(** [sum(1 for c in companies if c.to_dict().get('status') == status)]. *)
Fixpoint sum_status (status : string) (cs : list (string * Company)) : Z :=
  match cs with
  | [] => 0
  | c :: cs' =>
      (if bool_decide (co_status c.2 = Some status) then 1 else 0) + sum_status status cs'
  end.

(** The loop [for student in students] with its three accumulators
    [(placed_count, not_placed_count, total_offers)]. *)
Fixpoint students_scan (l : list (string * Student)) (acc : Z * Z * Z) : Z * Z * Z :=
  match l with
  | [] => acc
  | student :: l' =>
      let student_data := student.2 in
      let status := default "not_placed"%string (st_currentStatus student_data) in
      let offers := default 0 (st_totalOffers student_data) in
      let '(placed_count, not_placed_count, total_offers) := acc in
      let acc' :=
        if bool_decide (status = "placed"%string)
        then (placed_count + 1, not_placed_count, total_offers + offers)
        else (placed_count, not_placed_count + 1, total_offers + offers) in
      students_scan l' acc'
  end.

Record InitResult := {
  ir_success : bool;
  ir_message : string;
  ir_stats : gmap string field_value
}.

(** [initialize_system_stats()]; the two calls of [datetime.utcnow()] give
    [now_updated] and [now_initialized]. *)
Definition initialize_system_stats (now_updated now_initialized : Z) : M InitResult :=
  years_list ← read (λ d, map_to_list (years d));
  let years_count := Z.of_nat (length years_list) in
  companies_list ← read (λ d, map_to_list (companies d));
  let total_companies := Z.of_nat (length companies_list) in
  let completed_companies := sum_status "completed" companies_list in
  let running_companies := sum_status "running" companies_list in
  students_list ← read (λ d, map_to_list (students d));
  let total_students := Z.of_nat (length students_list) in
  let '(placed_count, not_placed_count, total_offers) :=
    students_scan students_list (0, 0, 0) in
  let stats_data : gmap string field_value :=
    <["initializedAt" := VTime now_initialized]>
    (<["lastUpdated" := VTime now_updated]>
    (<["totalOffers" := VInt total_offers]>
    (<["totalNotPlaced" := VInt not_placed_count]>
    (<["totalPlaced" := VInt placed_count]>
    (<["totalStudents" := VInt total_students]>
    (<["runningCompanies" := VInt running_companies]>
    (<["completedCompanies" := VInt completed_companies]>
    (<["totalCompanies" := VInt total_companies]>
    {[ "totalYears" := VInt years_count ]})))))))) in
  _ ← stats_set false stats_data;
  ret {| ir_success := true;
         ir_message := "System stats initialized";
         ir_stats := stats_data |}.

(** ** Dashboard summary ([src/app.py], get_dashboard_summary) *)

(** [current_year = 2026] *)
Definition current_year : Z := 2026.

(** The dict [latest_year]: ['year'] followed by the fields of the year
    document, which win over it, or the synthesized empty shape. *)
Record LatestYear := {
  ly_year : Z;
  ly_totalStudentsParticipated : option Z;
  ly_totalCompanies : option Z;
  ly_totalPlaced : option Z;
  ly_companyWise : gmap string doc_value;
  ly_updatedAt : option Z
}.

Definition latest_year_of (year_doc : option Year) : LatestYear :=
  match year_doc with
  | Some y =>
      {| ly_year := default current_year (yr_year y);
         ly_totalStudentsParticipated := yr_totalStudentsParticipated y;
         ly_totalCompanies := yr_totalCompanies y;
         ly_totalPlaced := yr_totalPlaced y;
         ly_companyWise := yr_companyWise y;
         ly_updatedAt := yr_updatedAt y |}
  | None =>
      {| ly_year := current_year;
         ly_totalStudentsParticipated := None;
         ly_totalCompanies := Some 0;
         ly_totalPlaced := Some 0;
         ly_companyWise := ∅;
         ly_updatedAt := None |}
  end.

(** [db.collection('companies').where('year', '==', current_year).stream()] *)
Definition companies_of_year (year : Z) (d : Db) : list (string * Company) :=
  filter (λ kv, co_year kv.2 = Some year) (map_to_list (companies d)).

(** The loop that fills [company_wise]. *)
Fixpoint build_company_wise (docs : list (string * Company))
    (company_wise : gmap string doc_value) : gmap string doc_value :=
  match docs with
  | [] => company_wise
  | doc :: docs' =>
      build_company_wise docs'
        (<[doc.1 := company_wise_entry (default "Unknown"%string (co_companyName doc.2))
                                       (default 0 (co_totalPlaced doc.2))
                                       (default "unknown"%string (co_status doc.2))]>
           company_wise)
  end.

Definition with_companyWise (m : gmap string doc_value) (l : LatestYear) : LatestYear :=
  {| ly_year := ly_year l;
     ly_totalStudentsParticipated := ly_totalStudentsParticipated l;
     ly_totalCompanies := ly_totalCompanies l;
     ly_totalPlaced := ly_totalPlaced l;
     ly_companyWise := m;
     ly_updatedAt := ly_updatedAt l |}.

Record Summary := {
  counts_years : field_value;
  counts_companies : field_value;
  counts_students : field_value;
  stats_totalCompanies : field_value;
  stats_completedCompanies : field_value;
  stats_runningCompanies : field_value;
  stats_totalPlaced : field_value;
  latestYear : LatestYear;
  recentCompanies : list (string * Company);
  firestore_reads : nat         (* g.firestore_reads, from 0 *)
}.

(** [str(current_year)], the key of [year_ref]. *)
Definition year_ref_key : string := pretty current_year.

Section Dashboard.

(** The store's ordered and limited query on the [companies] collection,
    [order_by('updatedAt', DESCENDING).limit(5)], is a primitive of the
    driver; its answer is taken as given. *)
Variable recent_companies_query : gmap string Company → list (string * Company).

Definition get_dashboard_summary : M Summary :=
  stats ← get_system_stats;
  year_doc ← read (λ d, years d !! year_ref_key);
  let latest_year := latest_year_of year_doc in
  '(latest_year, rebuilt) ←
    (if bool_decide (ly_companyWise latest_year = ∅) then
       companies_docs ← read (companies_of_year current_year);
       ret (with_companyWise (build_company_wise companies_docs ∅) latest_year,
            length companies_docs)
     else ret (latest_year, 0%nat));
  recent_companies_docs ← read (λ d, recent_companies_query (companies d));
  ret {| counts_years := default (VInt 0) (stats !! "totalYears");
         counts_companies := default (VInt 0) (stats !! "totalCompanies");
         counts_students := default (VInt 0) (stats !! "totalStudents");
         stats_totalCompanies := default (VInt 0) (stats !! "totalCompanies");
         stats_completedCompanies := default (VInt 0) (stats !! "completedCompanies");
         stats_runningCompanies := default (VInt 0) (stats !! "runningCompanies");
         stats_totalPlaced := default (VInt 0) (stats !! "totalPlaced");
         latestYear := latest_year;
         recentCompanies := recent_companies_docs;
         firestore_reads := (1 + 1 + rebuilt + length recent_companies_docs)%nat |}.

End Dashboard.

(** ** Vocabulary of the statements *)

(** Key lookup in a returned dict. *)
Fixpoint assoc (k : string) (fields : list (string * json)) : option json :=
  match fields with
  | [] => None
  | kv :: fields' => if decide (kv.1 = k) then Some kv.2 else assoc k fields'
  end.

Definition json_field (k : string) (j : json) : option json :=
  match j with
  | JObj fields => assoc k fields
  | _ => None
  end.

(** Every integer field of the dashboard record is at least 0. *)
Definition nonneg_value (v : field_value) : Prop :=
  match v with
  | VInt z => 0 ≤ z
  | _ => True
  end.

Global Instance nonneg_value_dec (v : field_value) : Decision (nonneg_value v).
Proof. destruct v; simpl; apply _. Defined.

Definition counters_nonneg (record : option (gmap string field_value)) : Prop :=
  match record with
  | Some doc => map_Forall (λ _, nonneg_value) doc
  | None => True
  end.

Global Instance counters_nonneg_dec (record : option (gmap string field_value)) :
  Decision (counters_nonneg record).
Proof. destruct record; simpl; apply _. Defined.

(** The counter stored under [field], [None] when there is no record or no
    such field. *)
Definition stored (field : string) (w : World) : option field_value :=
  dashboard (db w) ≫= λ doc, doc !! field.

(** Classification of the queued operations. *)
Definition is_placement_delete (op : write_op) : bool :=
  match op with OpDelete (placements_doc _ _) => true | _ => false end.

Definition is_round_data_delete (op : write_op) : bool :=
  match op with OpDelete (round_data_doc _ _ _) => true | _ => false end.

(** The entries of a [companyStatus] map with [finalSelection] true. *)
Definition placed_entries (items : list (string * CompanyInfo)) : list (string * CompanyInfo) :=
  filter (λ e, ci_finalSelection e.2 = true) items.

(** Those of them that belong to [year]. *)
Definition placed_in_year (year : Z) (items : list (string * CompanyInfo)) :
    list (string * CompanyInfo) :=
  filter (λ e, ci_year e.2 = Some year ∧ ci_finalSelection e.2 = true) items.

(** Numeric reading of a counter field: absent counts as 0. *)
Definition num (field : option Z) : Z := default 0 field.

(** The [placed] counter of one company inside a year's [companyWise]. *)
Definition company_wise_placed (c : string) (y : Year) : Z :=
  num (placed_of (yr_companyWise y !! c)).

(** An identifier without a dot: one segment of a field path. *)
Fixpoint has_dot (s : string) : bool :=
  match s with
  | EmptyString => false
  | String c s' => bool_decide (c = "."%char) || has_dot s'
  end.

Definition undotted (s : string) : Prop := has_dot s = false.

(** A year update whose keys are those of identifiers without a dot. *)
Definition plain_update (u : YearUpdate) : Prop :=
  ∀ key, is_Some (yu_companyWise_placed u !! key) →
         ∃ c, undotted c ∧ key = placed_key c.

Definition plain_op (op : write_op) : Prop :=
  match op with
  | OpUpdateYear _ u => plain_update u
  | _ => True
  end.

(** ** Sample data *)

Definition acme : Company :=
  {| co_companyName := Some "acme"%string; co_year := Some 2025;
     co_status := Some "running"%string;
     co_totalApplied := Some 10; co_totalPlaced := Some 3; co_updatedAt := None |}.

Definition year_2025 : Year :=
  {| yr_year := None; yr_totalStudentsParticipated := Some 7;
     yr_totalCompanies := Some 1; yr_totalPlaced := Some 3;
     yr_companyWise := {[ "acme-2025"%string := company_wise_entry "acme" 3 "running" ]};
     yr_updatedAt := None |}.

(** The student of the scenario of the specification: one company, placed. *)
Definition student_S : Student :=
  {| st_name := Some "Ann"%string; st_currentStatus := Some "placed"%string;
     st_totalOffers := Some 1;
     st_companyStatus :=
       [("acme-2025"%string, {| ci_year := Some 2025; ci_finalSelection := true |})] |}.

Definition acme_db : Db :=
  {| students := {[ "S"%string := student_S ]};
     companies := {[ "acme-2025"%string := acme ]};
     placements := {[ ("acme-2025", "S")%string := {| pl_studentId := Some "S"%string |} ]};
     rounds := {[ ("acme-2025", "r1")%string := {| rn_roundNumber := Some 1 |} ]};
     round_data :=
       {[ ("acme-2025", "r1", "d1")%string := {| rd_studentId := Some "S"%string |} ]};
     years := {[ "2025"%string := year_2025 ]};
     dashboard := None |}.

Definition acme_world : World := {| db := acme_db; clock := 100; commits := [] |}.

(** The scenario with a company whose identifier has a dot. *)
Definition dotted_student : Student :=
  {| st_name := Some "Ann"%string; st_currentStatus := Some "placed"%string;
     st_totalOffers := Some 1;
     st_companyStatus :=
       [("a.b"%string, {| ci_year := Some 2025; ci_finalSelection := true |})] |}.

Definition dotted_world : World :=
  {| db :=
       {| students := {[ "S"%string := dotted_student ]};
          companies := {[ "a.b"%string := acme ]};
          placements := {[ ("a.b", "S")%string := {| pl_studentId := Some "S"%string |} ]};
          rounds := ∅; round_data := ∅;
          years :=
            {[ "2025"%string :=
                 {| yr_year := None; yr_totalStudentsParticipated := Some 7;
                    yr_totalCompanies := Some 1; yr_totalPlaced := Some 3;
                    yr_companyWise :=
                      {[ "a.b"%string := company_wise_entry "a.b" 3 "running" ]};
                    yr_updatedAt := None |} ]};
          dashboard := None |};
     clock := 100; commits := [] |}.

(** A dashboard record whose [totalPlaced] is 0, stamped at time 1. *)
Definition zero_stats_world : World :=
  {| db := set_dashboard
             (Some (<["lastUpdated"%string := VTime 1]> {[ "totalPlaced"%string := VInt 0 ]}))
             acme_db;
     clock := 100; commits := [] |}.

(** A write of a dashboard field that cannot store a negative integer. *)
Definition nonneg_write (fw : field_write) : Prop :=
  match fw with
  | Increment n => 0 ≤ n
  | Plain v => nonneg_value v
  end.

(** ** The full scan of the specification

    The counters as the specification words them, computed on the
    collections themselves and not by the loops of
    [initialize_system_stats]: numbers of documents, numbers of documents
    with a given status, and the sum of the students' [totalOffers]. *)

Record Recount := {
  rc_totalYears : nat;
  rc_totalCompanies : nat;
  rc_completedCompanies : nat;
  rc_runningCompanies : nat;
  rc_totalStudents : nat;
  rc_totalPlaced : nat;
  rc_totalNotPlaced : nat;
  rc_totalOffers : Z
}.

Definition has_status (status : string) (doc : string * Company) : Prop :=
  co_status doc.2 = Some status.

Definition is_placed (doc : string * Student) : Prop :=
  st_currentStatus doc.2 = Some "placed"%string.

Global Instance has_status_dec (status : string) (doc : string * Company) :
  Decision (has_status status doc).
Proof. unfold has_status. apply _. Defined.

Global Instance is_placed_dec (doc : string * Student) : Decision (is_placed doc).
Proof. unfold is_placed. apply _. Defined.

Definition full_scan (d : Db) : Recount :=
  {| rc_totalYears := size (years d);
     rc_totalCompanies := size (companies d);
     rc_completedCompanies := size (filter (has_status "completed") (companies d));
     rc_runningCompanies := size (filter (has_status "running") (companies d));
     rc_totalStudents := size (students d);
     rc_totalPlaced := size (filter is_placed (students d));
     rc_totalNotPlaced := size (filter (λ doc, ¬ is_placed doc) (students d));
     rc_totalOffers :=
       map_fold (λ _ s total, num (st_totalOffers s) + total) 0 (students d) |}.

(** ** Sample data for the batch ceiling *)

(** [n] companies ["c1" .. "cn"] of year 2025 where the student was placed. *)
Fixpoint placed_items (n : nat) : list (string * CompanyInfo) :=
  match n with
  | O => []
  | S n' =>
      (("c" +:+ pretty (Z.of_nat n))%string,
       {| ci_year := Some 2025; ci_finalSelection := true |}) :: placed_items n'
  end.

(** One company without placement, then 250 with. *)
Definition oversize_items : list (string * CompanyInfo) :=
  ("u"%string, {| ci_year := Some 2025; ci_finalSelection := false |}) :: placed_items 250.

Definition db_of_items (items : list (string * CompanyInfo)) (ys : gmap string Year) : Db :=
  {| students :=
       {[ "S"%string := {| st_name := Some "Ann"%string; st_currentStatus := None;
                           st_totalOffers := Some 250; st_companyStatus := items |} ]};
     companies := list_to_map ((λ e, (e.1, acme)) <$> items);
     placements := ∅; rounds := ∅; round_data := ∅;
     years := ys;
     dashboard := None |}.

Definition oversize_world : World :=
  {| db := db_of_items oversize_items {[ "2025"%string := year_2025 ]};
     clock := 0; commits := [] |}.

(** [n] companies without placement, each of its own year [n]. *)
Fixpoint yearly_items (n : nat) : list (string * CompanyInfo) :=
  match n with
  | O => []
  | S n' =>
      (("c" +:+ pretty (Z.of_nat n))%string,
       {| ci_year := Some (Z.of_nat n); ci_finalSelection := false |}) :: yearly_items n'
  end.

Definition many_years_world : World :=
  {| db := db_of_items (yearly_items 499)
             (list_to_map ((λ e, (pretty (num (ci_year e.2)), year_2025)) <$> yearly_items 499));
     clock := 0; commits := [] |}.

(** ** Sample data for the dashboard *)

(** A document of key ["2026"] that carries a [year] field of its own. *)
Definition relabelled_world : World :=
  {| db := set_years
             (<["2026"%string :=
                  {| yr_year := Some 1999; yr_totalStudentsParticipated := Some 7;
                     yr_totalCompanies := Some 1; yr_totalPlaced := Some 42;
                     yr_companyWise :=
                       {[ "acme-2025"%string := company_wise_entry "acme" 3 "running" ]};
                     yr_updatedAt := None |}]>) acme_db;
     clock := 100; commits := [] |}.

(** The world [w] with its [years] collection replaced by [others], except
    for the entry of key ["2026"], which stays as [w] has it. *)
Definition with_other_years (others : gmap string Year) (w : World) : World :=
  {| db := set_years
             (λ ys, match ys !! "2026"%string with
                    | Some y => <["2026"%string := y]> others
                    | None => delete "2026"%string others
                    end) (db w);
     clock := clock w; commits := commits w |}.

(** The sizes of the write requests in the log of a run that returned. *)
Definition committed_sizes {A} (o : outcome A) : option (list nat) :=
  match o with
  | Returned _ w => Some (length <$> commits w)
  | Raised _ _ => None
  end.

(** The summary as a function of the four things [get_dashboard_summary]
    reads: the recent companies, the dashboard record, one year document and
    the companies of the current year. *)
Definition summary_of (recent : list (string * Company))
    (stats : gmap string field_value) (year_doc : option Year)
    (of_year : list (string * Company)) : Summary :=
  let latest_year := latest_year_of year_doc in
  let rebuild := bool_decide (ly_companyWise latest_year = ∅) in
  {| counts_years := default (VInt 0) (stats !! "totalYears");
     counts_companies := default (VInt 0) (stats !! "totalCompanies");
     counts_students := default (VInt 0) (stats !! "totalStudents");
     stats_totalCompanies := default (VInt 0) (stats !! "totalCompanies");
     stats_completedCompanies := default (VInt 0) (stats !! "completedCompanies");
     stats_runningCompanies := default (VInt 0) (stats !! "runningCompanies");
     stats_totalPlaced := default (VInt 0) (stats !! "totalPlaced");
     latestYear :=
       if rebuild then with_companyWise (build_company_wise of_year ∅) latest_year
       else latest_year;
     recentCompanies := recent;
     firestore_reads :=
       (1 + 1 + (if rebuild then length of_year else 0) + length recent)%nat |}.

(** ** Traces of the cascade *)

(** [steps d ops d']: the store goes from [d] to [d'] by the writes [ops],
    in order, each accepted at some server time. *)
Inductive steps : Db → list write_op → Db → Prop :=
  | steps_nil d : steps d [] d
  | steps_cons ts op d d1 ops d2 :
      apply_op ts op d = Some d1 → steps d1 ops d2 → steps d (op :: ops) d2.

(** From world [w] with queue [b] to world [w'] with queue [b'] while
    queueing [ops]: the batches committed on the way are [new]; what they
    hold followed by what is still queued is what was queued followed by
    [ops]. *)
Definition progress (w : World) (b : list write_op) (ops : list write_op)
    (w' : World) (b' : list write_op) : Prop :=
  ∃ new, commits w' = commits w ++ new
         ∧ steps (db w) (concat new) (db w')
         ∧ concat new ++ b' = b ++ ops.

(** The operations of the cascade other than the deletions of round data,
    which depend on what the queries find. *)
Definition keeps (op : write_op) : Prop := is_round_data_delete op = false.

Global Instance keeps_dec (op : write_op) : Decision (keeps op).
Proof. unfold keeps. apply _. Defined.

Definition company_update_of (info : CompanyInfo) : CompanyUpdate :=
  {| cu_totalApplied := -1;
     cu_totalPlaced := if ci_finalSelection info then Some (-1) else None |}.

Definition company_ops (student_id : string) (entry : string * CompanyInfo) : list write_op :=
  (if ci_finalSelection entry.2
   then [OpDelete (placements_doc entry.1 student_id)] else [])
  ++ [OpUpdateCompany entry.1 (company_update_of entry.2)].

Definition year_op (items : list (string * CompanyInfo)) (year : Z) : write_op :=
  OpUpdateYear (pretty year) (year_update_of year items).

Definition cascade_ops (student_id : string) (items : list (string * CompanyInfo))
    (ys : list Z) : list write_op :=
  flat_map (company_ops student_id) items
  ++ (year_op items <$> ys)
  ++ [OpDelete (students_doc student_id)].

(** Sum of an integer measure over a list. *)
Fixpoint sumZ {A} (f : A → Z) (l : list A) : Z :=
  match l with
  | [] => 0
  | x :: l' => f x + sumZ f l'
  end.

(** What one operation adds to the counters of company [c]. *)
Definition applied_delta (c : string) (op : write_op) : Z :=
  match op with
  | OpUpdateCompany c' u => if decide (c' = c) then cu_totalApplied u else 0
  | _ => 0
  end.

Definition placed_delta (c : string) (op : write_op) : Z :=
  match op with
  | OpUpdateCompany c' u => if decide (c' = c) then num (cu_totalPlaced u) else 0
  | _ => 0
  end.

(** What one operation adds to the counters of the year document [y]. *)
Definition participated_delta (y : string) (op : write_op) : Z :=
  match op with
  | OpUpdateYear y' u => if decide (y' = y) then yu_totalStudentsParticipated u else 0
  | _ => 0
  end.

Definition year_placed_delta (y : string) (op : write_op) : Z :=
  match op with
  | OpUpdateYear y' u => if decide (y' = y) then num (yu_totalPlaced u) else 0
  | _ => 0
  end.

Definition company_wise_delta (y c : string) (op : write_op) : Z :=
  match op with
  | OpUpdateYear y' u =>
      if decide (y' = y) then num (yu_companyWise_placed u !! placed_key c) else 0
  | _ => 0
  end.

(** The years that the cascade collects: those of the entries whose [year]
    is truthy. *)
Definition affected (items : list (string * CompanyInfo)) (y : Z) : Prop :=
  ∃ entry, entry ∈ items ∧ ci_year entry.2 = Some y ∧ y ≠ 0.

(** Two tracking dicts that differ at most in [roundsDeleted]. *)
Definition same_counts (s s' : CascadeStats) : Prop :=
  companiesAffected s' = companiesAffected s
  ∧ placementsDeleted s' = placementsDeleted s
  ∧ yearsAffected s' = yearsAffected s
  ∧ totalOffers s' = totalOffers s.

Definition is_round_data_ref (r : doc_ref) : Prop :=
  match r with round_data_doc _ _ _ => True | _ => False end.

(** The tracking dict after the entries [items], round data apart. *)
Fixpoint counts_after (items : list (string * CompanyInfo)) (s : CascadeStats) : CascadeStats :=
  match items with
  | [] => s
  | entry :: items' =>
      let s := count_company s in
      let s := if truthy (ci_year entry.2)
               then add_year (default 0 (ci_year entry.2)) s else s in
      let s := if ci_finalSelection entry.2 then count_placement s else s in
      counts_after items' s
  end.

(** The document that an operation deletes from [students], resp. from the
    [placements] sub-collections. *)
Definition student_target (op : write_op) : option string :=
  match op with OpDelete (students_doc s) => Some s | _ => None end.

Definition placement_target (op : write_op) : option (string * string) :=
  match op with OpDelete (placements_doc c s) => Some (c, s) | _ => None end.

(** 1 for the operations that satisfy [p], to count them with [sumZ]. *)
Definition indicator (p : write_op → bool) (op : write_op) : Z :=
  if p op then 1 else 0.

(** ** Vocabulary: the counter maintainer *)

(** A simple field name of the store: letters, digits and underscores, the
    first of them no digit.  Such a name is one segment of a field path, so
    that [update] and [set] address the same top-level field by it. *)
Definition is_digit (c : ascii) : bool :=
  ((48 <=? nat_of_ascii c) && (nat_of_ascii c <=? 57))%nat.

Definition is_name_char (c : ascii) : bool :=
  ((65 <=? nat_of_ascii c) && (nat_of_ascii c <=? 90)
   || (97 <=? nat_of_ascii c) && (nat_of_ascii c <=? 122)
   || (nat_of_ascii c =? 95))%nat
  || is_digit c.

Fixpoint all_name_chars (s : string) : bool :=
  match s with
  | EmptyString => true
  | String c s' => is_name_char c && all_name_chars s'
  end.

Definition simple_field_name (s : string) : Prop :=
  match s with
  | EmptyString => False
  | String c s' => is_digit c = false ∧ all_name_chars s = true
  end.

(** The integers that the store holds. *)
Definition int64 (z : Z) : Prop := - 2 ^ 63 ≤ z < 2 ^ 63.

(** A world that differs from [w] in [systemStats/dashboard] at most. *)
Definition only_dashboard_changed (w w' : World) : Prop :=
  db w' = set_dashboard (dashboard (db w')) (db w).

(** What a call of [increment_stat] may do, whatever its path. *)
Definition stat_call_effect (field : string) (now : Z) (w w' : World) : Prop :=
  only_dashboard_changed w w'
  ∧ (∀ k, k ≠ field → k ≠ "lastUpdated"%string → stored k w' = stored k w)
  ∧ (w' = w
     ∨ ∃ op, commits w' = commits w ++ [[op]]
             ∧ stored "lastUpdated" w' = Some (VTime now)).

(** ** Vocabulary: the rebuilt record *)

(** The record that [initialize_system_stats] writes, as a function of the
    store it scans. *)
Definition rebuilt_record (d : Db) (now_updated now_initialized : Z) :
    gmap string field_value :=
  let scan := students_scan (map_to_list (students d)) (0, 0, 0) in
  <["initializedAt"%string := VTime now_initialized]>
  (<["lastUpdated"%string := VTime now_updated]>
  (<["totalOffers"%string := VInt scan.2]>
  (<["totalNotPlaced"%string := VInt scan.1.2]>
  (<["totalPlaced"%string := VInt scan.1.1]>
  (<["totalStudents"%string := VInt (Z.of_nat (length (map_to_list (students d))))]>
  (<["runningCompanies"%string := VInt (sum_status "running" (map_to_list (companies d)))]>
  (<["completedCompanies"%string :=
       VInt (sum_status "completed" (map_to_list (companies d)))]>
  (<["totalCompanies"%string := VInt (Z.of_nat (length (map_to_list (companies d))))]>
  {[ "totalYears"%string := VInt (Z.of_nat (length (map_to_list (years d)))) ]})))))))).

(** The ten keys of the rebuilt record. *)
Definition rebuilt_fields : list string :=
  [ "totalYears"; "totalCompanies"; "completedCompanies"; "runningCompanies";
    "totalStudents"; "totalPlaced"; "totalNotPlaced"; "totalOffers";
    "lastUpdated"; "initializedAt" ]%string.

(** ** Vocabulary: the dashboard summary *)

(** The [companyWise] entry that the repair branch projects from a company. *)
Definition projected_entry (co : Company) : doc_value :=
  company_wise_entry (default "Unknown"%string (co_companyName co))
                     (default 0 (co_totalPlaced co))
                     (default "unknown"%string (co_status co)).

(** ** Vocabulary: the operations of a cascade *)

(** The operations that steps 1 and 2 of the cascade may queue for the
    student [sid], started on the store [d0]: deletions of this student's
    placements, deletions of rows that [d0] holds under this student's
    identifier, and company updates. *)
Definition company_phase_op (d0 : Db) (sid : string) (op : write_op) : Prop :=
  match op with
  | OpDelete (round_data_doc c r x) =>
      ∃ row, round_data d0 !! (c, r, x) = Some row ∧ rd_studentId row = Some sid
  | OpDelete (placements_doc _ s) => s = sid
  | OpUpdateCompany _ _ => True
  | _ => False
  end.

(** Those of the whole cascade: the year updates and the deletion of the
    student document come on top. *)
Definition cascade_op (d0 : Db) (sid : string) (op : write_op) : Prop :=
  company_phase_op d0 sid op
  ∨ (∃ y u, op = OpUpdateYear y u)
  ∨ op = OpDelete (students_doc sid).

(** The rows of round data of [w] are rows of [d0]. *)
Definition rows_within (d0 : Db) (w : World) : Prop :=
  ∀ k row, round_data (db w) !! k = Some row → round_data d0 !! k = Some row.

(** What a piece of the cascade, run from [w], leaves behind whether it
    returns or raises: batches [new] added to the log, all of their
    operations applied, each of them satisfying [Q]; a result comes with a
    queue whose operations satisfy [Q], and an exception is the store's. *)
Definition run_inv {A} (Q : write_op → Prop) (queue : A → list write_op)
    (w : World) (o : outcome A) : Prop :=
  ∃ new, commits (world_of o) = commits w ++ new
         ∧ steps (db w) (concat new) (db (world_of o))
         ∧ Forall Q (concat new)
         ∧ match o with
           | Returned a _ => Forall Q (queue a)
           | Raised e _ => e = StoreError
           end.

Definition round_data_target (op : write_op) : option (string * string * string) :=
  match op with OpDelete (round_data_doc c r x) => Some (c, r, x) | _ => None end.

(** The locals with which the company loop starts. *)
Definition initial_locals (sd : Student) : Locals :=
  {| batch := []; operation_count := 0;
     stats := set_totalOffers (default 0 (st_totalOffers sd)) initial_stats |}.

(** The last batch of steps 1 to 4, from the locals that the company loop
    returns. *)
Definition final_batch (sid : string) (sd : Student) (l : Locals) : list write_op :=
  batch l
  ++ (year_op (st_companyStatus sd) <$> elements (yearsAffected (stats l)))
  ++ [OpDelete (students_doc sid)].

(** The fields of a company that no operation writes. *)
Definition company_identity (x : Company) : option string * option Z * option string :=
  (co_companyName x, co_year x, co_status x).



(** ** Vocabulary: batch sizes and counts *)

(** A batch committed by one of the two tests against the ceiling. *)
Definition full_batch (b : list write_op) : Prop :=
  length b = 500%nat ∨ length b = 501%nat.

Definition round_data_deletes (ops : list write_op) : nat :=
  length (filter (λ op, is_round_data_delete op = true) ops).

(** From [(w, l)] to [(w', l')]: the batches committed on the way are full,
    the counter is the length of the queue, which is at most [bound], and
    [roundsDeleted] has grown by the number of deletions of round data
    queued on the way. *)
Definition accounted (bound : nat) (w : World) (l : Locals) (w' : World) (l' : Locals) :
    Prop :=
  ∃ new ops,
    commits w' = commits w ++ new
    ∧ Forall full_batch new
    ∧ concat new ++ batch l' = batch l ++ ops
    ∧ operation_count l' = length (batch l')
    ∧ (length (batch l') ≤ bound)%nat
    ∧ roundsDeleted (stats l')
      = (roundsDeleted (stats l) + round_data_deletes ops)%nat.


(** The row [k] is gone from the store, or its deletion is queued. *)
Definition settled (k : string * string * string) (w : World) (l : Locals) : Prop :=
  round_data (db w) !! k = None
  ∨ OpDelete (round_data_doc k.1.1 k.1.2 k.2) ∈ batch l.

(** ** The route [DELETE /api/students/<student_id>] ([src/routes/students.py]) *)








(** ** Further sample data *)

(** A dashboard record as a rebuild leaves it, cut down to two fields:
    [initializedAt] holds a time stamp and no number. *)
Definition stamped_world : World :=
  {| db := set_dashboard
             (Some (<["initializedAt"%string := VTime 1]>
                      {[ "totalPlaced"%string := VInt 0 ]}))
             acme_db;
     clock := 100; commits := [] |}.

(** The year document of key ["2026"] with the roll-up of one company. *)
Definition steady_world : World :=
  {| db := set_years (<["2026"%string := year_2025]>) acme_db;
     clock := 100; commits := [] |}.


(** A student as [create_student] stores it, with no company yet. *)
Definition new_student : Student :=
  {| st_name := Some "Bob"%string; st_currentStatus := Some "not_placed"%string;
     st_totalOffers := Some 0; st_companyStatus := [] |}.

Definition new_student_world : World :=
  {| db := set_students (<["N"%string := new_student]>) acme_db;
     clock := 100; commits := [] |}.

(** * Properties *)

(** ** Tactics for running the monad *)

Lemma bind_unfold {A B} (m : M A) (k : A → M B) (w : World) :
  (m ≫= k) w = match m w with
               | Returned a w' => k a w'
               | Raised e w' => Raised e w'
               end.
Proof. reflexivity. Qed.

Lemma bind_returned {A B} (m : M A) (k : A → M B) (w w' : World) (b : B) :
  (m ≫= k) w = Returned b w' →
  ∃ a w1, m w = Returned a w1 ∧ k a w1 = Returned b w'.
Proof.
  rewrite bind_unfold. destruct (m w) as [a w1|e w1]; [eauto | discriminate].
Qed.

Lemma do_commit_returned (ops : list write_op) (w w' : World) (u : unit) :
  do_commit ops w = Returned u w' → commit ops w = Some w'.
Proof.
  unfold do_commit. destruct (commit ops w); intros H; inversion H; reflexivity.
Qed.

Lemma commit_inv (ops : list write_op) (w w' : World) :
  commit ops w = Some w' →
  apply_ops (clock w) ops (db w) = Some (db w')
  ∧ commits w' = commits w ++ [ops]
  ∧ clock w' = clock w + 1.
Proof.
  unfold commit. destruct (apply_ops (clock w) ops (db w)); intros H; inversion H.
  simpl. auto.
Qed.

(** ** C5: a student that does not exist *)

(** C5 — NotFound atomicity: when [student_id] names no Student document,
    [delete_student_cascade] raises the not-found error and the world it
    leaves is the world it was given: same documents, same clock, and no
    write request added to the log. *)
Theorem cascade_not_found_no_write (student_id : string) (w : World) :
  students (db w) !! student_id = None →
  delete_student_cascade student_id w = Raised (ValueError student_id) w.
Proof.
  intros Hnone. unfold delete_student_cascade.
  rewrite bind_unfold. unfold read. rewrite Hnone. reflexivity.
Qed.

Lemma cascade_not_found_no_write_witness :
  students (db acme_world) !! "nobody"%string = None
  ∧ delete_student_cascade "nobody" acme_world = Raised (ValueError "nobody") acme_world.
Proof. split; [reflexivity | apply cascade_not_found_no_write; reflexivity]. Defined.

(** ** The counter maintainer

    What the two write requests on [systemStats/dashboard] do. *)

Lemma stats_set_run (merge : bool) (data : gmap string field_value) (w : World) :
  stats_set merge data w =
    Returned tt
      {| db := set_dashboard
                 (Some (if merge then data ∪ default ∅ (dashboard (db w)) else data)) (db w);
         clock := clock w + 1;
         commits := commits w ++ [[OpSetStats merge data]] |}.
Proof. destruct merge; reflexivity. Qed.

Lemma stats_update_run (data : gmap string field_write) (w : World) :
  stats_update data w =
    match dashboard (db w) with
    | Some doc =>
        Returned tt
          {| db := set_dashboard (Some (merge apply_field_write doc data)) (db w);
             clock := clock w + 1;
             commits := commits w ++ [[OpUpdateStats data]] |}
    | None => Raised StoreError w
    end.
Proof.
  unfold stats_update, do_commit, commit. simpl.
  destruct (dashboard (db w)); reflexivity.
Qed.

Lemma stamped_lookup {V} (field : string) (x t : V) :
  field ≠ "lastUpdated"%string →
  (<["lastUpdated"%string := t]> ({[ field := x ]} : gmap string V)) !! field = Some x.
Proof.
  intros Hne. rewrite lookup_insert_ne by congruence. apply lookup_singleton_eq.
Qed.

(** C7 — Creation on first increment: when there is no dashboard record and
    [field] is a counter (not the stamp [lastUpdated]), [increment_stat]
    creates the record with exactly [field] and [lastUpdated]; the counter is
    [v] when [v >= 0] and 0 when [v < 0], never a negative value. *)
Theorem increment_creates_record (field : string) (v now : Z) (w : World) :
  dashboard (db w) = None →
  field ≠ "lastUpdated"%string →
  ∃ w', increment_stat field v now w = Returned tt w'
        ∧ dashboard (db w')
          = Some (<["lastUpdated"%string := VTime now]> {[ field := VInt (Z.max 0 v) ]})
        ∧ (0 ≤ v → stored field w' = Some (VInt v))
        ∧ (v < 0 → stored field w' = Some (VInt 0)).
Proof.
  intros Habsent Hfield.
  unfold increment_stat, catch.
  destruct (Z.ltb_spec v 0) as [Hneg|Hpos].
  - rewrite bind_unfold. unfold read. rewrite Habsent, stats_set_run.
    eexists. split; [reflexivity|]. unfold stored. simpl. rewrite Habsent. simpl.
    rewrite (right_id_L ∅ (∪)). rewrite Z.max_l by lia.
    repeat split; intros; try lia. by rewrite stamped_lookup.
  - rewrite stats_update_run, Habsent, stats_set_run.
    eexists. split; [reflexivity|]. unfold stored. simpl. rewrite Habsent. simpl.
    rewrite (right_id_L ∅ (∪)). rewrite Z.max_r by lia.
    repeat split; intros; try lia. by rewrite stamped_lookup.
Qed.

Lemma increment_creates_record_witness :
  ∃ w', increment_stat "totalStudents" (-4) 7 acme_world = Returned tt w'
        ∧ stored "totalStudents" w' = Some (VInt 0).
Proof.
  destruct (increment_creates_record "totalStudents" (-4) 7 acme_world)
    as (w' & Hrun & _ & _ & Hneg); [reflexivity | discriminate |].
  exists w'. split; [exact Hrun | apply Hneg; lia].
Defined.

(** The six paths through [increment_stat]. *)
Section IncrementStatCases.
Variables (field : string) (amount now : Z) (w : World).

Lemma increment_stat_decr_absent :
  amount < 0 → dashboard (db w) = None →
  increment_stat field amount now w
  = stats_set true (<["lastUpdated"%string := VTime now]> {[ field := VInt 0 ]}) w.
Proof.
  intros Hneg Hdoc. unfold increment_stat, catch.
  destruct (Z.ltb_spec amount 0); [|lia].
  rewrite bind_unfold. unfold read. rewrite Hdoc. by rewrite stats_set_run.
Qed.

Lemma increment_stat_decr_skip (doc : gmap string field_value) :
  amount < 0 → dashboard (db w) = Some doc →
  default (VInt 0) (doc !! field) = VInt 0 →
  increment_stat field amount now w = Returned tt w.
Proof.
  intros Hneg Hdoc Hcur. unfold increment_stat, catch.
  destruct (Z.ltb_spec amount 0); [|lia].
  rewrite bind_unfold. unfold read. rewrite Hdoc, Hcur.
  rewrite bind_unfold. unfold py_add, ret.
  rewrite Z.max_l by lia. reflexivity.
Qed.

Lemma increment_stat_decr_write (doc : gmap string field_value) (c : Z) :
  amount < 0 → dashboard (db w) = Some doc →
  default (VInt 0) (doc !! field) = VInt c → c ≠ 0 →
  increment_stat field amount now w
  = stats_update (<["lastUpdated"%string := Plain (VTime now)]>
                    {[ field := Plain (VInt (Z.max 0 (c + amount))) ]}) w.
Proof.
  intros Hneg Hdoc Hcur Hc. unfold increment_stat, catch.
  destruct (Z.ltb_spec amount 0); [|lia].
  rewrite bind_unfold. unfold read. rewrite Hdoc, Hcur.
  rewrite bind_unfold. unfold py_add, ret.
  rewrite (bool_decide_eq_false_2 (VInt c = VInt 0)) by congruence.
  rewrite andb_false_r. rewrite stats_update_run, Hdoc. reflexivity.
Qed.

Lemma increment_stat_decr_type_error (doc : gmap string field_value) :
  amount < 0 → dashboard (db w) = Some doc →
  (∀ c, default (VInt 0) (doc !! field) ≠ VInt c) →
  increment_stat field amount now w
  = stats_set true (<["lastUpdated"%string := VTime now]> {[ field := VInt 0 ]}) w.
Proof.
  intros Hneg Hdoc Hcur. unfold increment_stat, catch.
  destruct (Z.ltb_spec amount 0); [|lia].
  rewrite bind_unfold. unfold read. rewrite Hdoc.
  rewrite bind_unfold. unfold py_add.
  destruct (default (VInt 0) (doc !! field)) as [c| |]; [by destruct (Hcur c)| |];
    reflexivity.
Qed.

Lemma increment_stat_incr_existing (doc : gmap string field_value) :
  0 ≤ amount → dashboard (db w) = Some doc →
  increment_stat field amount now w
  = stats_update (<["lastUpdated"%string := Plain (VTime now)]>
                    {[ field := Increment amount ]}) w.
Proof.
  intros Hpos Hdoc. unfold increment_stat, catch.
  destruct (Z.ltb_spec amount 0); [lia|].
  rewrite stats_update_run, Hdoc. reflexivity.
Qed.

Lemma increment_stat_incr_absent :
  0 ≤ amount → dashboard (db w) = None →
  increment_stat field amount now w
  = stats_set true (<["lastUpdated"%string := VTime now]> {[ field := VInt amount ]}) w.
Proof.
  intros Hpos Hdoc. unfold increment_stat, catch.
  destruct (Z.ltb_spec amount 0); [lia|].
  rewrite stats_update_run, Hdoc. reflexivity.
Qed.

End IncrementStatCases.

(** On a record that exists but has no [field] yet: an increment stores
    its amount, and a decrement writes nothing, the field still reading 0. *)
Lemma increment_unset_field (field : string) (v now : Z) (w : World)
    (doc : gmap string field_value) :
  dashboard (db w) = Some doc →
  doc !! field = None →
  field ≠ "lastUpdated"%string →
  (0 ≤ v → ∃ w', increment_stat field v now w = Returned tt w'
                 ∧ stored field w' = Some (VInt v))
  ∧ (v < 0 → increment_stat field v now w = Returned tt w).
Proof.
  intros Hdoc Hfield Hne. split; intros Hv.
  - rewrite (increment_stat_incr_existing _ _ _ _ doc), stats_update_run, Hdoc by done.
    eexists. split; [reflexivity|]. unfold stored. simpl.
    by rewrite lookup_merge, stamped_lookup, Hfield.
  - apply (increment_stat_decr_skip _ _ _ _ doc); [done|done|]. by rewrite Hfield.
Qed.

(** ** C8: decrementing a counter that is 0 *)

(** C8, as stated, fails: on a record whose [totalPlaced] is 0 and whose
    stamp is 1, [decrement_stat "totalPlaced" 0] at time 5 takes the
    increment path and rewrites [lastUpdated]. *)
Lemma decrement_zero_is_not_a_no_op :
  ¬ (∀ (field : string) (now : Z) (w : World),
        stored field w = Some (VInt 0) →
        decrement_stat field 0 now w = Returned tt w).
Proof.
  intros Hclaim.
  specialize (Hclaim "totalPlaced"%string 5 zero_stats_world eq_refl).
  apply (f_equal (λ o, stored "lastUpdated" (world_of o))) in Hclaim.
  vm_compute in Hclaim. discriminate.
Qed.

(** C8 (amended) — Decrement at zero is a no-op: when the record exists and
    the value read for [field] is 0 (stored 0, or no such field), a decrement
    by any [v > 0] returns without any write request: documents, clock and
    log are those of the world before the call, [lastUpdated] included. *)
Theorem decrement_at_zero_no_write (field : string) (v now : Z) (w : World)
    (doc : gmap string field_value) :
  dashboard (db w) = Some doc →
  default (VInt 0) (doc !! field) = VInt 0 →
  0 < v →
  decrement_stat field v now w = Returned tt w.
Proof.
  intros Hdoc Hzero Hv.
  unfold decrement_stat.
  apply (increment_stat_decr_skip _ _ _ _ doc); [lia | done | done].
Qed.

Lemma decrement_at_zero_no_write_witness :
  decrement_stat "totalPlaced" 3 5 zero_stats_world = Returned tt zero_stats_world.
Proof.
  apply (decrement_at_zero_no_write "totalPlaced" 3 5 zero_stats_world
           (<["lastUpdated"%string := VTime 1]> {[ "totalPlaced"%string := VInt 0 ]}));
    [reflexivity | reflexivity | lia].
Defined.

(** ** C4: counters never go below 0 *)

Lemma nonneg_set_merge (data : gmap string field_value)
    (record : option (gmap string field_value)) :
  counters_nonneg (Some data) → counters_nonneg record →
  counters_nonneg (Some (data ∪ default ∅ record)).
Proof.
  intros Hdata Hrec k v Hk.
  apply lookup_union_Some_raw in Hk as [Hk|[_ Hk]].
  - by eapply Hdata.
  - destruct record as [old|]; simpl in Hk; [by eapply Hrec | by rewrite lookup_empty in Hk].
Qed.

Lemma nonneg_update (doc : gmap string field_value) (data : gmap string field_write) :
  counters_nonneg (Some doc) →
  (∀ k fw, data !! k = Some fw → nonneg_write fw) →
  counters_nonneg (Some (merge apply_field_write doc data)).
Proof.
  intros Hdoc Hdata k v. rewrite lookup_merge.
  destruct (data !! k) as [fw|] eqn:Hw.
  - specialize (Hdata k fw Hw).
    destruct fw as [n|v']; simpl in *.
    + destruct (doc !! k) as [[c| |]|] eqn:Hk; simpl; intros [= <-]; simpl; try lia.
      specialize (Hdoc k (VInt c) Hk). simpl in Hdoc. lia.
    + destruct (doc !! k); simpl; intros [= <-]; exact Hdata.
  - destruct (doc !! k) as [v'|] eqn:Hk; simpl; [|discriminate].
    intros [= <-]. by eapply Hdoc.
Qed.

Lemma stamped_cases {V} (field k : string) (x t v : V) :
  (<["lastUpdated"%string := t]> ({[ field := x ]} : gmap string V)) !! k = Some v →
  v = t ∨ v = x.
Proof.
  rewrite lookup_insert. case_decide; [intros [= <-]; by left|].
  rewrite lookup_singleton. case_decide; [intros [= <-]; by right | discriminate].
Qed.

Lemma nonneg_stamped_value (field : string) (z now : Z) :
  0 ≤ z →
  counters_nonneg
    (Some (<["lastUpdated"%string := VTime now]>
             ({[ field := VInt z ]} : gmap string field_value))).
Proof.
  intros Hz k v Hk. apply stamped_cases in Hk as [->| ->]; simpl; done.
Qed.

Lemma nonneg_stamped_write (field : string) (fw : field_write) (now : Z) :
  nonneg_write fw →
  ∀ k fw', (<["lastUpdated"%string := Plain (VTime now)]>
              ({[ field := fw ]} : gmap string field_write)) !! k = Some fw' →
           nonneg_write fw'.
Proof.
  intros Hfw k fw' Hk. apply stamped_cases in Hk as [->| ->]; [exact I | exact Hfw].
Qed.

Lemma increment_stat_nonneg (field : string) (value now : Z) (w : World) :
  counters_nonneg (dashboard (db w)) →
  ∃ w', increment_stat field value now w = Returned tt w'
        ∧ counters_nonneg (dashboard (db w')).
Proof.
  intros Hinv.
  destruct (Z.lt_ge_cases value 0) as [Hneg|Hpos];
    destruct (dashboard (db w)) as [doc|] eqn:Hdoc.
  - destruct (default (VInt 0) (doc !! field)) as [c| |] eqn:Hcur.
    + destruct (decide (c = 0)) as [->|Hc].
      * rewrite (increment_stat_decr_skip _ _ _ _ doc) by done.
        eexists; split; [reflexivity|]. by rewrite Hdoc.
      * rewrite (increment_stat_decr_write _ _ _ _ doc c), stats_update_run, Hdoc by done.
        eexists; split; [reflexivity|]. simpl.
        apply nonneg_update; [done|]. apply nonneg_stamped_write. simpl. lia.
    + rewrite (increment_stat_decr_type_error _ _ _ _ doc), stats_set_run;
        [|done|done|by rewrite Hcur].
      eexists; split; [reflexivity|]. simpl.
      apply nonneg_set_merge; [by apply nonneg_stamped_value | by rewrite Hdoc].
    + rewrite (increment_stat_decr_type_error _ _ _ _ doc), stats_set_run;
        [|done|done|by rewrite Hcur].
      eexists; split; [reflexivity|]. simpl.
      apply nonneg_set_merge; [by apply nonneg_stamped_value | by rewrite Hdoc].
  - rewrite increment_stat_decr_absent, stats_set_run by done.
    eexists; split; [reflexivity|]. simpl.
    apply nonneg_set_merge; [by apply nonneg_stamped_value | by rewrite Hdoc].
  - rewrite (increment_stat_incr_existing _ _ _ _ doc), stats_update_run, Hdoc by done.
    eexists; split; [reflexivity|]. simpl.
    apply nonneg_update; [done|]. by apply nonneg_stamped_write.
  - rewrite increment_stat_incr_absent, stats_set_run by done.
    eexists; split; [reflexivity|]. simpl.
    apply nonneg_set_merge; [by apply nonneg_stamped_value | by rewrite Hdoc].
Qed.

Lemma decrement_clamps (field : string) (c value now : Z) (w : World)
    (doc : gmap string field_value) :
  dashboard (db w) = Some doc →
  doc !! field = Some (VInt c) →
  field ≠ "lastUpdated"%string →
  0 ≤ c → c < value →
  ∃ w', decrement_stat field value now w = Returned tt w'
        ∧ stored field w' = Some (VInt 0).
Proof.
  intros Hdoc Hc Hfield Hc0 Hlt. unfold decrement_stat.
  assert (default (VInt 0) (doc !! field) = VInt c) as Hcur by by rewrite Hc.
  destruct (decide (c = 0)) as [->|Hne].
  - rewrite (increment_stat_decr_skip _ _ _ _ doc) by (done || lia).
    eexists; split; [reflexivity|]. unfold stored. by rewrite Hdoc.
  - rewrite (increment_stat_decr_write _ _ _ _ doc c), stats_update_run, Hdoc
      by (done || lia).
    eexists; split; [reflexivity|]. unfold stored. simpl.
    rewrite lookup_merge, stamped_lookup, Hc by done. simpl.
    rewrite Z.max_l by lia. reflexivity.
Qed.

(** C4 — Non-negative counter invariant (sequential): from a record whose
    integer fields are all at least 0, or from no record, one call of
    [increment_stat] or of [decrement_stat], with any amount, returns and
    leaves a record whose integer fields are all at least 0; and a decrement
    of a counter field holding [c] by more than [c] stores exactly 0. *)
Theorem counters_stay_nonneg (field : string) (value now : Z) (w : World) :
  counters_nonneg (dashboard (db w)) →
  (∃ w', increment_stat field value now w = Returned tt w'
         ∧ counters_nonneg (dashboard (db w')))
  ∧ (∃ w', decrement_stat field value now w = Returned tt w'
           ∧ counters_nonneg (dashboard (db w')))
  ∧ (∀ c, stored field w = Some (VInt c) → field ≠ "lastUpdated"%string → c < value →
          ∃ w', decrement_stat field value now w = Returned tt w'
                ∧ stored field w' = Some (VInt 0)).
Proof.
  intros Hinv. split; [|split].
  - by apply increment_stat_nonneg.
  - by apply increment_stat_nonneg.
  - intros c Hc Hfield Hlt. unfold stored in Hc.
    destruct (dashboard (db w)) as [doc|] eqn:Hdoc; [|discriminate]. simpl in Hc.
    apply (decrement_clamps field c value now w doc); try done.
    by apply (Hinv field (VInt c)).
Qed.

Lemma counters_stay_nonneg_witness :
  counters_nonneg (dashboard (db zero_stats_world))
  ∧ ∃ w', decrement_stat "totalPlaced" 4 5 zero_stats_world = Returned tt w'
          ∧ counters_nonneg (dashboard (db w'))
          ∧ stored "totalPlaced" w' = Some (VInt 0).
Proof.
  assert (counters_nonneg (dashboard (db zero_stats_world))) as Hinv
    by (refine (bool_decide_unpack _ _); vm_compute; exact I).
  split; [exact Hinv|].
  destruct (counters_stay_nonneg "totalPlaced" 4 5 zero_stats_world Hinv)
    as (_ & (w' & Hrun & Hnonneg) & Hclamp).
  destruct (Hclamp 0) as (w2 & Hrun2 & Hzero); [reflexivity | discriminate | lia |].
  exists w'. split; [exact Hrun|]. split; [exact Hnonneg|].
  rewrite Hrun in Hrun2. by inversion Hrun2.
Defined.

(** ** C10: the year of the dashboard *)

Lemma year_ref_key_2026 : year_ref_key = "2026"%string.
Proof. reflexivity. Qed.

Lemma get_system_stats_run (w : World) :
  get_system_stats w = Returned (default default_stats (dashboard (db w))) w.
Proof.
  unfold get_system_stats. rewrite bind_unfold. unfold read.
  destruct (dashboard (db w)); reflexivity.
Qed.

Lemma get_dashboard_summary_run
    (query : gmap string Company → list (string * Company)) (w : World) :
  get_dashboard_summary query w
  = Returned (summary_of (query (companies (db w)))
                (default default_stats (dashboard (db w)))
                (years (db w) !! "2026"%string)
                (companies_of_year current_year (db w))) w.
Proof.
  unfold get_dashboard_summary. rewrite bind_unfold, get_system_stats_run.
  rewrite bind_unfold. unfold read at 1. rewrite year_ref_key_2026.
  rewrite bind_unfold. unfold summary_of.
  destruct (bool_decide _); reflexivity.
Qed.

Lemma with_other_years_2026 (others : gmap string Year) (w : World) :
  years (db (with_other_years others w)) !! "2026"%string = years (db w) !! "2026"%string.
Proof.
  simpl. destruct (years (db w) !! "2026"%string) as [y|].
  - apply lookup_insert_eq.
  - apply lookup_delete_eq.
Qed.

(** C10, as stated, fails: the fields of the document of key "2026" are
    spread over ['year': 2026], so that a document that stores [year: 1999]
    is shown as year 1999. *)
Lemma dashboard_year_is_not_always_2026 :
  ¬ (∀ (query : gmap string Company → list (string * Company)) (w w' : World)
       (s : Summary),
        get_dashboard_summary query w = Returned s w' →
        ly_year (latestYear s) = 2026).
Proof.
  intros Hclaim.
  specialize (Hclaim (λ _, []) relabelled_world relabelled_world _
                (get_dashboard_summary_run _ _)).
  vm_compute in Hclaim. discriminate.
Qed.

(** C10 — Hardcoded dashboard year, as the code has it: the key of the
    year document that [get_dashboard_summary] reads is the constant "2026";
    the call returns, writes nothing, and returns the same summary when
    every other year document is replaced, added or removed. [latestYear]
    is built from that document alone: its fields are the document's, with
    [companyWise] rebuilt from the companies of year 2026 when the stored
    one is empty, and its [year] is 2026 unless the document carries a
    [year] field of its own; without the document it is the synthesized
    shape of year 2026 with totals 0 and the rebuilt [companyWise]. *)
Theorem dashboard_reads_year_2026
    (query : gmap string Company → list (string * Company))
    (others : gmap string Year) (w : World) :
  year_ref_key = "2026"%string
  ∧ ∃ s, get_dashboard_summary query w = Returned s w
         ∧ get_dashboard_summary query (with_other_years others w)
           = Returned s (with_other_years others w)
         ∧ let rebuilt := build_company_wise (companies_of_year 2026 (db w)) ∅ in
           match years (db w) !! "2026"%string with
           | Some y =>
               ly_year (latestYear s) = default 2026 (yr_year y)
               ∧ ly_totalStudentsParticipated (latestYear s)
                 = yr_totalStudentsParticipated y
               ∧ ly_totalCompanies (latestYear s) = yr_totalCompanies y
               ∧ ly_totalPlaced (latestYear s) = yr_totalPlaced y
               ∧ ly_updatedAt (latestYear s) = yr_updatedAt y
               ∧ ly_companyWise (latestYear s)
                 = (if decide (yr_companyWise y = ∅) then rebuilt else yr_companyWise y)
           | None =>
               ly_year (latestYear s) = 2026
               ∧ ly_totalStudentsParticipated (latestYear s) = None
               ∧ ly_totalCompanies (latestYear s) = Some 0
               ∧ ly_totalPlaced (latestYear s) = Some 0
               ∧ ly_updatedAt (latestYear s) = None
               ∧ ly_companyWise (latestYear s) = rebuilt
           end.
Proof.
  split; [reflexivity|]. eexists. split; [apply get_dashboard_summary_run|].
  split.
  - rewrite get_dashboard_summary_run, with_other_years_2026. reflexivity.
  - unfold summary_of. cbn [latestYear].
    destruct (years (db w) !! "2026"%string) as [y|]; cbn [latest_year_of ly_companyWise].
    + case_bool_decide as Hempty.
      * rewrite decide_True by done. repeat split.
      * rewrite decide_False by done. repeat split.
    + rewrite bool_decide_eq_true_2 by done. repeat split.
Qed.

(** ** C6: the returned summary *)

Lemma cascade_returned (student_id : string) (w w' : World) (r : json) :
  delete_student_cascade student_id w = Returned r w' →
  ∃ student_data s w1,
    students (db w) !! student_id = Some student_data
    ∧ cascade_main student_id student_data w = Returned s w1
    ∧ commit [OpDelete (students_doc student_id)] w1 = Some w'
    ∧ r = build_result student_id student_data s.
Proof.
  unfold delete_student_cascade. intros Hrun.
  apply bind_returned in Hrun as (doc & w0 & Hread & Hrun).
  unfold read in Hread. injection Hread as <- <-.
  destruct (students (db w) !! student_id) as [student_data|]; [|discriminate].
  apply bind_returned in Hrun as (s & w1 & Hmain & Hrun).
  apply bind_returned in Hrun as ([] & w2 & Hcommit & Hret).
  apply do_commit_returned in Hcommit. injection Hret as <- <-.
  eauto 10.
Qed.

(** C6 — Summary contents, as the code has them: whenever
    [delete_student_cascade] returns, the dict it returns has no key
    [totalOffers], neither at top level nor under [cascadingUpdates]; the
    value tracked in [stats['totalOffers']] is dropped. *)
Theorem cascade_result_omits_totalOffers (student_id : string) (w w' : World) (r : json) :
  delete_student_cascade student_id w = Returned r w' →
  json_field "totalOffers" r = None
  ∧ ∃ updates, json_field "cascadingUpdates" r = Some updates
               ∧ json_field "totalOffers" updates = None.
Proof.
  intros Hrun. apply cascade_returned in Hrun as (sd & s & w1 & _ & _ & _ & ->).
  split; [reflexivity|]. eexists. split; reflexivity.
Qed.

Lemma cascade_result_omits_totalOffers_witness :
  (students (db acme_world) !! "S"%string ≫= st_totalOffers) = Some 1
  ∧ ∃ r w', delete_student_cascade "S" acme_world = Returned r w'
            ∧ json_field "totalOffers" r = None.
Proof.
  split; [reflexivity|].
  assert (∃ r w', delete_student_cascade "S" acme_world = Returned r w') as (r & w' & Hrun)
    by (vm_compute; eauto).
  exists r, w'. split; [exact Hrun|].
  exact (proj1 (cascade_result_omits_totalOffers "S" acme_world w' r Hrun)).
Defined.

(** What the returned dict does hold: the name, and the four counts of the
    tracking dict. *)
Lemma cascade_result_fields (student_id : string) (w w' : World) (r : json) :
  delete_student_cascade student_id w = Returned r w' →
  ∃ sd s updates,
    students (db w) !! student_id = Some sd
    ∧ json_field "studentId" r = Some (JStr student_id)
    ∧ json_field "studentName" r = Some (JStr (default "Unknown"%string (st_name sd)))
    ∧ json_field "cascadingUpdates" r = Some updates
    ∧ json_field "companiesAffected" updates = Some (JInt (Z.of_nat (companiesAffected s)))
    ∧ json_field "roundsDeleted" updates = Some (JInt (Z.of_nat (roundsDeleted s)))
    ∧ json_field "placementsDeleted" updates = Some (JInt (Z.of_nat (placementsDeleted s)))
    ∧ json_field "yearsAffected" updates
      = Some (JInt (Z.of_nat (size (yearsAffected s)))).
Proof.
  intros Hrun. apply cascade_returned in Hrun as (sd & s & w1 & Hsd & _ & _ & ->).
  exists sd, s. eexists. split; [exact Hsd|]. repeat split.
Qed.

(** ** C2: the batch ceiling *)
(** C2 — Batch ceiling, as the code has it: for a student with one company
    without placement followed by 250 companies with placement and no round
    data, the first committed batch holds 501 operations: the placement
    deletion is queued without the test against the ceiling. *)
Theorem cascade_commits_oversized_batch :
  committed_sizes (delete_student_cascade "S" oversize_world) = Some [501; 2; 1]%nat.
Proof. vm_compute. reflexivity. Qed.

(** The year updates of step 3 are queued without any test: 499 companies
    of 499 years give one batch of 499 + 499 + 1 operations. *)
Lemma year_updates_are_not_batched :
  committed_sizes (delete_student_cascade "S" many_years_world) = Some [999; 1]%nat.
Proof. vm_compute. reflexivity. Qed.

(** ** C3: rebuild and read back *)
Section Scan.
Context {A : Type}.
Implicit Types (m : gmap string A) (P : string * A → Prop).

Lemma size_filter_first_key P `{!∀ x, Decision (P x)} m i x :
  m !! i = None →
  size (filter P (<[i := x]> m))
  = ((if decide (P (i, x)) then 1 else 0) + size (filter P m))%nat.
Proof.
  intros Hi. rewrite map_filter_insert. case_decide.
  - rewrite map_size_insert_None; [done|].
    by apply map_lookup_filter_None_2; left.
  - by rewrite delete_id.
Qed.
End Scan.

Lemma sum_status_scan (status : string) (m : gmap string Company) :
  sum_status status (map_to_list m) = Z.of_nat (size (filter (has_status status) m)).
Proof.
  induction m as [|i x m Hi Hfirst IH] using map_first_key_ind.
  - by rewrite map_to_list_empty, map_filter_empty, map_size_empty.
  - rewrite map_to_list_insert_first_key by done.
    rewrite size_filter_first_key by done. simpl. rewrite IH.
    unfold has_status at 2. simpl.
    destruct (decide (co_status x = Some status)) as [Heq|Hne].
    + rewrite bool_decide_eq_true_2 by done. lia.
    + rewrite bool_decide_eq_false_2 by done. lia.
Qed.

Lemma status_placed_iff (x : Student) :
  default "not_placed"%string (st_currentStatus x) = "placed"%string
  ↔ is_placed ("k"%string, x).
Proof.
  unfold is_placed. simpl. destruct (st_currentStatus x); simpl; split; congruence.
Qed.

Lemma students_scan_full (m : gmap string Student) (acc : Z * Z * Z) :
  students_scan (map_to_list m) acc
  = (acc.1.1 + Z.of_nat (size (filter is_placed m)),
     acc.1.2 + Z.of_nat (size (filter (λ doc, ¬ is_placed doc) m)),
     acc.2 + map_fold (λ _ s total, num (st_totalOffers s) + total) 0 m).
Proof.
  revert acc. induction m as [|i x m Hi Hfirst IH] using map_first_key_ind; intros [[a b] c].
  - rewrite map_to_list_empty, !map_filter_empty, map_size_empty, map_fold_empty. simpl.
    f_equal; [f_equal|]; lia.
  - rewrite map_to_list_insert_first_key by done.
    rewrite !size_filter_first_key by done.
    rewrite map_fold_insert_first_key by done.
    cbn [students_scan snd].
    destruct (decide (is_placed (i, x))) as [Hp|Hp].
    + rewrite bool_decide_eq_true_2 by by apply status_placed_iff.
      rewrite IH. cbn [fst snd].
      rewrite decide_False by (intros H; by apply H).
      unfold num. f_equal; [f_equal|]; lia.
    + rewrite bool_decide_eq_false_2 by by rewrite status_placed_iff.
      rewrite IH. cbn [fst snd]. rewrite decide_True by done.
      unfold num. f_equal; [f_equal|]; lia.
Qed.

Lemma stats_data_lookups (a b c d e f g h t u : field_value) :
  let stats_data : gmap string field_value :=
    <["initializedAt"%string := u]>
    (<["lastUpdated"%string := t]>
    (<["totalOffers"%string := h]>
    (<["totalNotPlaced"%string := g]>
    (<["totalPlaced"%string := f]>
    (<["totalStudents"%string := e]>
    (<["runningCompanies"%string := d]>
    (<["completedCompanies"%string := c]>
    (<["totalCompanies"%string := b]>
    {[ "totalYears"%string := a ]})))))))) in
  stats_data !! "totalYears"%string = Some a
  ∧ stats_data !! "totalCompanies"%string = Some b
  ∧ stats_data !! "completedCompanies"%string = Some c
  ∧ stats_data !! "runningCompanies"%string = Some d
  ∧ stats_data !! "totalStudents"%string = Some e
  ∧ stats_data !! "totalPlaced"%string = Some f
  ∧ stats_data !! "totalNotPlaced"%string = Some g
  ∧ stats_data !! "totalOffers"%string = Some h.
Proof. repeat split; reflexivity. Qed.

Lemma initialize_system_stats_run (now_updated now_initialized : Z) (w : World) :
  ∃ res w',
    initialize_system_stats now_updated now_initialized w = Returned res w'
    ∧ dashboard (db w') = Some (ir_stats res)
    ∧ students (db w') = students (db w)
    ∧ companies (db w') = companies (db w)
    ∧ years (db w') = years (db w)
    ∧ ir_stats res !! "totalYears"%string
      = Some (VInt (Z.of_nat (length (map_to_list (years (db w))))))
    ∧ ir_stats res !! "totalCompanies"%string
      = Some (VInt (Z.of_nat (length (map_to_list (companies (db w))))))
    ∧ ir_stats res !! "completedCompanies"%string
      = Some (VInt (sum_status "completed" (map_to_list (companies (db w)))))
    ∧ ir_stats res !! "runningCompanies"%string
      = Some (VInt (sum_status "running" (map_to_list (companies (db w)))))
    ∧ ir_stats res !! "totalStudents"%string
      = Some (VInt (Z.of_nat (length (map_to_list (students (db w))))))
    ∧ ir_stats res !! "totalPlaced"%string
      = Some (VInt (students_scan (map_to_list (students (db w))) (0, 0, 0)).1.1)
    ∧ ir_stats res !! "totalNotPlaced"%string
      = Some (VInt (students_scan (map_to_list (students (db w))) (0, 0, 0)).1.2)
    ∧ ir_stats res !! "totalOffers"%string
      = Some (VInt (students_scan (map_to_list (students (db w))) (0, 0, 0)).2).
Proof.
  unfold initialize_system_stats.
  rewrite bind_unfold. unfold read at 1.
  rewrite bind_unfold. unfold read at 1.
  rewrite bind_unfold. unfold read at 1.
  destruct (students_scan (map_to_list (students (db w))) (0, 0, 0))
    as [[placed not_placed] offers].
  rewrite bind_unfold, stats_set_run.
  eexists _, _. split; [reflexivity|]. cbn [ir_stats db dashboard set_dashboard students companies years fst snd].
  repeat split; reflexivity.
Qed.

(** C3 — Rebuild equivalence: [initialize_system_stats] returns and leaves
    the Years, Companies and Students collections as they were; the
    [get_system_stats] that follows returns the record whose eight counters
    are those of the full scan of these collections: numbers of year, company
    and student documents, companies by [status], students by
    [currentStatus], and the sum of the students' [totalOffers]. *)
Theorem rebuild_equals_full_scan (now_updated now_initialized : Z) (w : World) :
  ∃ res w' stats,
    initialize_system_stats now_updated now_initialized w = Returned res w'
    ∧ get_system_stats w' = Returned stats w'
    ∧ full_scan (db w') = full_scan (db w)
    ∧ let scan := full_scan (db w') in
      stats !! "totalYears"%string = Some (VInt (Z.of_nat (rc_totalYears scan)))
      ∧ stats !! "totalCompanies"%string = Some (VInt (Z.of_nat (rc_totalCompanies scan)))
      ∧ stats !! "completedCompanies"%string
        = Some (VInt (Z.of_nat (rc_completedCompanies scan)))
      ∧ stats !! "runningCompanies"%string
        = Some (VInt (Z.of_nat (rc_runningCompanies scan)))
      ∧ stats !! "totalStudents"%string = Some (VInt (Z.of_nat (rc_totalStudents scan)))
      ∧ stats !! "totalPlaced"%string = Some (VInt (Z.of_nat (rc_totalPlaced scan)))
      ∧ stats !! "totalNotPlaced"%string = Some (VInt (Z.of_nat (rc_totalNotPlaced scan)))
      ∧ stats !! "totalOffers"%string = Some (VInt (rc_totalOffers scan)).
Proof.
  destruct (initialize_system_stats_run now_updated now_initialized w)
    as (res & w' & Hrun & Hdash & Hst & Hco & Hyr & H1 & H2 & H3 & H4 & H5 & H6 & H7 & H8).
  exists res, w', (ir_stats res). split; [exact Hrun|].
  split; [by rewrite get_system_stats_run, Hdash|].
  split; [unfold full_scan; by rewrite Hst, Hco, Hyr|].
  unfold full_scan. cbn [rc_totalYears rc_totalCompanies rc_completedCompanies
    rc_runningCompanies rc_totalStudents rc_totalPlaced rc_totalNotPlaced rc_totalOffers].
  rewrite Hst, Hco, Hyr.
  rewrite length_map_to_list in H1. rewrite length_map_to_list in H2.
  rewrite length_map_to_list in H5.
  rewrite sum_status_scan in H3. rewrite sum_status_scan in H4.
  rewrite students_scan_full in H6. rewrite students_scan_full in H7.
  rewrite students_scan_full in H8. cbn [fst snd] in H6, H7, H8.
  rewrite Z.add_0_l in H6. rewrite Z.add_0_l in H7. rewrite Z.add_0_l in H8.
  auto 10.
Qed.

(** ** The trace of a cascade *)

Lemma steps_app (d1 d2 d3 : Db) (ops1 ops2 : list write_op) :
  steps d1 ops1 d2 → steps d2 ops2 d3 → steps d1 (ops1 ++ ops2) d3.
Proof.
  induction 1 as [d|ts op d d1 ops d2 Hop _ IH]; intros Hrest; simpl.
  - exact Hrest.
  - econstructor; [exact Hop | by apply IH].
Qed.

Lemma apply_ops_steps (ts : Z) (ops : list write_op) (d d' : Db) :
  apply_ops ts ops d = Some d' → steps d ops d'.
Proof.
  revert d. induction ops as [|op ops IH]; intros d; simpl.
  - intros [= ->]. constructor.
  - destruct (apply_op ts op d) as [d1|] eqn:Hop; [|discriminate].
    intros Hrest. econstructor; [exact Hop | by apply IH].
Qed.

Lemma progress_refl (w : World) (b : list write_op) : progress w b [] w b.
Proof.
  exists []. simpl. rewrite !app_nil_r. repeat split. constructor.
Qed.

Lemma progress_trans (w w1 w2 : World) (b b1 b2 ops1 ops2 : list write_op) :
  progress w b ops1 w1 b1 → progress w1 b1 ops2 w2 b2 →
  progress w b (ops1 ++ ops2) w2 b2.
Proof.
  intros (n1 & Hc1 & Hs1 & Hb1) (n2 & Hc2 & Hs2 & Hb2).
  exists (n1 ++ n2). rewrite concat_app. split; [|split].
  - by rewrite Hc2, Hc1, (assoc_L (++)).
  - by eapply steps_app.
  - rewrite <- (assoc_L (++)), Hb2, (assoc_L (++)), Hb1, <- (assoc_L (++)). done.
Qed.

Lemma progress_enqueue (w : World) (b : list write_op) (op : write_op) :
  progress w b [op] w (b ++ [op]).
Proof.
  exists []. simpl. repeat split; [by rewrite app_nil_r | constructor].
Qed.

Lemma commit_if_full_inv (l l' : Locals) (w w' : World) :
  commit_if_full l w = Returned l' w' →
  progress w (batch l) [] w' (batch l') ∧ stats l' = stats l.
Proof.
  unfold commit_if_full. destruct (_ <=? _)%nat.
  - intros Hrun. apply bind_returned in Hrun as ([] & w1 & Hcommit & Hret).
    injection Hret as <- <-. apply do_commit_returned, commit_inv in Hcommit
      as (Happly & Hlog & _).
    split; [|done]. exists [batch l]. simpl. rewrite !app_nil_r.
    split; [done|]. split; [by eapply apply_ops_steps | done].
  - intros [= <- <-]. split; [apply progress_refl | done].
Qed.

Lemma same_counts_refl (s : CascadeStats) : same_counts s s.
Proof. by repeat split. Qed.

Lemma same_counts_trans (s1 s2 s3 : CascadeStats) :
  same_counts s1 s2 → same_counts s2 s3 → same_counts s1 s3.
Proof.
  intros (? & ? & ? & ?) (? & ? & ? & ?). repeat split; congruence.
Qed.

Lemma same_counts_round (s : CascadeStats) : same_counts s (count_round s).
Proof. by repeat split. Qed.

Lemma filter_keeps_app (ops1 ops2 : list write_op) :
  filter keeps (ops1 ++ ops2) = filter keeps ops1 ++ filter keeps ops2.
Proof. apply filter_app. Qed.

Lemma data_loop_inv (docs : list doc_ref) (l l' : Locals) (w w' : World) :
  Forall is_round_data_ref docs →
  data_loop docs l w = Returned l' w' →
  ∃ ops, progress w (batch l) ops w' (batch l')
         ∧ filter keeps ops = []
         ∧ same_counts (stats l) (stats l').
Proof.
  intros Hrefs. revert l w.
  induction Hrefs as [|ref docs Href _ IH]; intros l w; simpl.
  - intros [= <- <-]. exists []. split; [apply progress_refl|].
    split; [done | apply same_counts_refl].
  - intros Hrun. apply bind_returned in Hrun as (l1 & w1 & Hfull & Hrun).
    apply commit_if_full_inv in Hfull as [Hp1 Hs1].
    apply IH in Hrun as (ops & Hp2 & Hk & Hs2).
    exists ([OpDelete ref] ++ [] ++ ops). split; [|split].
    + eapply progress_trans; [apply progress_enqueue|].
      eapply progress_trans; [exact Hp1 | exact Hp2].
    + rewrite !filter_keeps_app, Hk. destruct ref; try done.
    + eapply same_counts_trans; [|exact Hs2]. rewrite Hs1. simpl.
      apply same_counts_round.
Qed.

Lemma data_query_refs (c r student_id : string) (d : Db) :
  Forall is_round_data_ref (data_query c r student_id d).
Proof.
  unfold data_query. apply Forall_take, Forall_forall. intros ref Href.
  apply list_elem_of_omap in Href as (kv & _ & Hkv).
  case_decide; [|discriminate]. by injection Hkv as <-.
Qed.

Lemma rounds_loop_inv (student_id c : string) (rs : list string)
    (l l' : Locals) (w w' : World) :
  rounds_loop student_id c rs l w = Returned l' w' →
  ∃ ops, progress w (batch l) ops w' (batch l')
         ∧ filter keeps ops = []
         ∧ same_counts (stats l) (stats l').
Proof.
  revert l w. induction rs as [|r rs IH]; intros l w; simpl.
  - intros [= <- <-]. exists []. split; [apply progress_refl|].
    split; [done | apply same_counts_refl].
  - intros Hrun. apply bind_returned in Hrun as (docs & w0 & Hread & Hrun).
    unfold read in Hread. injection Hread as <- <-.
    apply bind_returned in Hrun as (l1 & w1 & Hdata & Hrun).
    apply data_loop_inv in Hdata as (ops1 & Hp1 & Hk1 & Hs1);
      [|apply data_query_refs].
    apply IH in Hrun as (ops2 & Hp2 & Hk2 & Hs2).
    exists (ops1 ++ ops2). split; [|split].
    + by eapply progress_trans.
    + by rewrite filter_keeps_app, Hk1, Hk2.
    + by eapply same_counts_trans.
Qed.

Lemma company_step_inv (student_id : string) (entry : string * CompanyInfo)
    (l l' : Locals) (w w' : World) :
  company_step student_id entry l w = Returned l' w' →
  ∃ ops, progress w (batch l) ops w' (batch l')
         ∧ filter keeps ops = company_ops student_id entry
         ∧ same_counts (counts_after [entry] (stats l)) (stats l').
Proof.
  unfold company_step. intros Hrun.
  apply bind_returned in Hrun as (rs & w0 & Hread & Hrun).
  unfold read in Hread. injection Hread as <- <-.
  apply bind_returned in Hrun as (l1 & w1 & Hrounds & Hfull).
  apply rounds_loop_inv in Hrounds as (ops1 & Hp1 & Hk1 & Hs1).
  apply commit_if_full_inv in Hfull as [Hp2 Hs2].
  pose proof (progress_enqueue w1 (batch l1)
    (OpUpdateCompany entry.1 (company_update_of entry.2))) as Hp3.
  unfold company_ops, company_update_of in *.
  destruct (ci_finalSelection entry.2) eqn:Hplaced.
  - exists ([OpDelete (placements_doc entry.1 student_id)] ++ ops1
            ++ [OpUpdateCompany entry.1
                  {| cu_totalApplied := -1; cu_totalPlaced := Some (-1) |}] ++ []).
    split; [|split].
    + eapply progress_trans; [apply progress_enqueue|].
      eapply progress_trans; [|eapply progress_trans; [exact Hp3 | exact Hp2]].
      destruct (truthy (ci_year entry.2)); exact Hp1.
    + by rewrite !filter_keeps_app, Hk1.
    + rewrite Hs2. simpl. rewrite Hplaced.
      destruct Hs1 as (H1 & H2 & H3 & H4). repeat split; simpl in *;
        destruct (truthy (ci_year entry.2)); simpl in *; congruence.
  - exists (ops1 ++ [OpUpdateCompany entry.1
                       {| cu_totalApplied := -1; cu_totalPlaced := None |}] ++ []).
    split; [|split].
    + eapply progress_trans; [|eapply progress_trans; [exact Hp3 | exact Hp2]].
      destruct (truthy (ci_year entry.2)); exact Hp1.
    + by rewrite !filter_keeps_app, Hk1.
    + rewrite Hs2. simpl. rewrite Hplaced.
      destruct Hs1 as (H1 & H2 & H3 & H4). repeat split; simpl in *;
        destruct (truthy (ci_year entry.2)); simpl in *; congruence.
Qed.

Lemma counts_after_same (items : list (string * CompanyInfo)) (s s' : CascadeStats) :
  same_counts s s' → same_counts (counts_after items s) (counts_after items s').
Proof.
  revert s s'. induction items as [|entry items IH]; intros s s' Hs; simpl; [done|].
  apply IH. destruct Hs as (H1 & H2 & H3 & H4).
  destruct (truthy (ci_year entry.2)), (ci_finalSelection entry.2);
    repeat split; simpl; congruence.
Qed.

Lemma company_loop_inv (student_id : string) (items : list (string * CompanyInfo))
    (l l' : Locals) (w w' : World) :
  company_loop student_id items l w = Returned l' w' →
  ∃ ops, progress w (batch l) ops w' (batch l')
         ∧ filter keeps ops = flat_map (company_ops student_id) items
         ∧ same_counts (counts_after items (stats l)) (stats l').
Proof.
  revert l w. induction items as [|entry items IH]; intros l w.
  - intros [= <- <-]. exists []. split; [apply progress_refl|].
    split; [done | apply same_counts_refl].
  - cbn [company_loop]. intros Hrun.
    apply bind_returned in Hrun as (l1 & w1 & Hstep & Hrun).
    apply company_step_inv in Hstep as (ops1 & Hp1 & Hk1 & Hs1).
    apply IH in Hrun as (ops2 & Hp2 & Hk2 & Hs2).
    exists (ops1 ++ ops2). split; [|split].
    + by eapply progress_trans.
    + by rewrite filter_keeps_app, Hk1, Hk2.
    + eapply same_counts_trans; [|exact Hs2].
      change (counts_after (entry :: items) (stats l))
        with (counts_after items (counts_after [entry] (stats l))).
      by apply counts_after_same.
Qed.

(** ** What a trace does to each collection *)

(** Collections that the operations only ever delete from. *)
Section Deletions.
Context `{Countable K} {V : Type}.
Variable proj : Db → gmap K V.
Variable target : write_op → option K.
Hypothesis effect : ∀ ts op d d',
  apply_op ts op d = Some d' →
  proj d' = match target op with
            | Some k => delete k (proj d)
            | None => proj d
            end.

Lemma steps_absent (d d' : Db) (ops : list write_op) (k : K) :
  steps d ops d' → proj d !! k = None → proj d' !! k = None.
Proof.
  induction 1 as [d|ts op d d1 ops d2 Hop _ IH]; [done|].
  intros Hk. apply IH. rewrite (effect _ _ _ _ Hop).
  destruct (target op) as [k'|]; [|done].
  rewrite lookup_delete. by case_decide.
Qed.

Lemma steps_deleted (d d' : Db) (ops : list write_op) (k : K) :
  steps d ops d' →
  (∃ op, op ∈ ops ∧ target op = Some k) →
  proj d' !! k = None.
Proof.
  induction 1 as [d|ts op d d1 ops d2 Hop Hrest IH].
  - intros (op & Hin & _). by apply elem_of_nil in Hin.
  - intros (op' & Hin & Htarget). apply elem_of_cons in Hin as [->|Hin].
    + eapply steps_absent; [exact Hrest|].
      rewrite (effect _ _ _ _ Hop), Htarget. apply lookup_delete_eq.
    + apply IH. eauto.
Qed.

Lemma steps_kept (d d' : Db) (ops : list write_op) (k : K) :
  steps d ops d' →
  (∀ op, op ∈ ops → target op ≠ Some k) →
  proj d' !! k = proj d !! k.
Proof.
  induction 1 as [d|ts op d d1 ops d2 Hop _ IH]; [done|].
  intros Hnone. rewrite IH.
  - rewrite (effect _ _ _ _ Hop).
    destruct (target op) as [k'|] eqn:Htarget; [|done].
    apply lookup_delete_ne. intros ->. by apply (Hnone op); [left|].
  - intros op' Hin. apply Hnone. by right.
Qed.
End Deletions.

Lemma apply_op_students (ts : Z) (op : write_op) (d d' : Db) :
  apply_op ts op d = Some d' →
  students d' = match student_target op with
                | Some s => delete s (students d)
                | None => students d
                end.
Proof.
  destruct op as [[]| | | |[]]; simpl;
    repeat (case_match; simpl); intros ?; simplify_eq; done.
Qed.

Lemma apply_op_placements (ts : Z) (op : write_op) (d d' : Db) :
  apply_op ts op d = Some d' →
  placements d' = match placement_target op with
                  | Some k => delete k (placements d)
                  | None => placements d
                  end.
Proof.
  destruct op as [[]| | | |[]]; simpl;
    repeat (case_match; simpl); intros ?; simplify_eq; done.
Qed.

Lemma sumZ_app {A} (f : A → Z) (l1 l2 : list A) :
  sumZ f (l1 ++ l2) = sumZ f l1 + sumZ f l2.
Proof. induction l1 as [|x l1 IH]; simpl; lia. Qed.

Lemma sumZ_zero {A} (f : A → Z) (l : list A) :
  (∀ x, x ∈ l → f x = 0) → sumZ f l = 0.
Proof.
  induction l as [|x l IH]; intros Hz; simpl; [done|].
  rewrite Hz by left. rewrite IH; [done|]. intros y Hy. apply Hz. by right.
Qed.

Lemma sumZ_filter {A} (P : A → Prop) `{!∀ x, Decision (P x)} (f : A → Z) (l : list A) :
  (∀ x, ¬ P x → f x = 0) → sumZ f (filter P l) = sumZ f l.
Proof.
  intros Hz. induction l as [|x l IH]; [done|].
  rewrite filter_cons. case_decide; simpl; rewrite IH; [done|].
  by rewrite Hz.
Qed.

Lemma sumZ_flat_map {A B} (f : B → Z) (g : A → list B) (l : list A) :
  sumZ f (flat_map g l) = sumZ (λ x, sumZ f (g x)) l.
Proof.
  induction l as [|x l IH]; simpl; [done|]. by rewrite sumZ_app, IH.
Qed.

Lemma sumZ_fmap {A B} (f : B → Z) (g : A → B) (l : list A) :
  sumZ f (g <$> l) = sumZ (λ x, f (g x)) l.
Proof.
  induction l as [|x l IH]; [done|]. rewrite fmap_cons. cbn [sumZ]. by rewrite IH.
Qed.

Lemma sumZ_ext {A} (f g : A → Z) (l : list A) :
  (∀ x, x ∈ l → f x = g x) → sumZ f l = sumZ g l.
Proof.
  induction l as [|x l IH]; intros Hfg; simpl; [done|].
  rewrite Hfg by left. rewrite IH; [done|]. intros y Hy. apply Hfg. by right.
Qed.

(** A measure that is 0 off one key, over a list without duplicate keys. *)
Lemma sumZ_unique {A} `{EqDecision K} (key : A → K) (g : A → Z) (l : list A) (a : A) :
  NoDup (key <$> l) → a ∈ l →
  sumZ (λ x, if decide (key x = key a) then g x else 0) l = g a.
Proof.
  induction l as [|x l IH]; simpl; intros Hnd Hin; [by apply elem_of_nil in Hin|].
  apply NoDup_cons in Hnd as [Hx Hnd].
  apply elem_of_cons in Hin as [->|Hin].
  - rewrite decide_True by done. rewrite sumZ_zero; [lia|].
    intros y Hy. rewrite decide_False; [done|].
    intros Heq. apply Hx. rewrite <- Heq. by apply list_elem_of_fmap_2.
  - rewrite decide_False.
    + rewrite IH by done. lia.
    + intros Heq. apply Hx. rewrite Heq. by apply list_elem_of_fmap_2.
Qed.

(** Companies: an operation either leaves [companies/c] alone or adds its
    deltas to the two counters. *)
Lemma apply_op_company (ts : Z) (op : write_op) (d d' : Db) (c : string) (x : Company) :
  apply_op ts op d = Some d' →
  companies d !! c = Some x →
  ∃ x', companies d' !! c = Some x'
        ∧ num (co_totalApplied x') = num (co_totalApplied x) + applied_delta c op
        ∧ num (co_totalPlaced x') = num (co_totalPlaced x) + placed_delta c op.
Proof.
  intros Hop Hx.
  destruct op as [r|c0 u|y u|u|m v]; simpl in Hop.
  - injection Hop as <-. exists x. destruct r; simpl; repeat split; (done || lia).
  - destruct (companies d !! c0) as [doc|] eqn:Hdoc; [|discriminate].
    injection Hop as <-. simpl. destruct (decide (c0 = c)) as [->|Hne].
    + rewrite lookup_insert_eq. eexists. split; [done|].
      rewrite Hx in Hdoc. injection Hdoc as <-. simpl.
      unfold incr, num. destruct (cu_totalPlaced u); simpl; lia.
    + rewrite lookup_insert_ne by done. exists x. repeat split; (done || lia).
  - destruct (years d !! y); [|discriminate]. injection Hop as <-.
    exists x. simpl. repeat split; (done || lia).
  - destruct (dashboard d); [|discriminate]. injection Hop as <-.
    exists x. simpl. repeat split; (done || lia).
  - exists x. destruct m; injection Hop as <-; simpl; repeat split; (done || lia).
Qed.

Lemma steps_company (d d' : Db) (ops : list write_op) (c : string) (x : Company) :
  steps d ops d' →
  companies d !! c = Some x →
  ∃ x', companies d' !! c = Some x'
        ∧ num (co_totalApplied x') = num (co_totalApplied x) + sumZ (applied_delta c) ops
        ∧ num (co_totalPlaced x') = num (co_totalPlaced x) + sumZ (placed_delta c) ops.
Proof.
  intros Hsteps. revert x.
  induction Hsteps as [d|ts op d d1 ops d2 Hop _ IH]; intros x Hx.
  - exists x. simpl. repeat split; (done || lia).
  - destruct (apply_op_company _ _ _ _ c x Hop Hx) as (x1 & Hx1 & Ha1 & Hp1).
    destruct (IH x1 Hx1) as (x' & Hx' & Ha & Hp).
    exists x'. simpl. split; [done|]. lia.
Qed.

Lemma apply_op_company_dom (ts : Z) (op : write_op) (d d' : Db) (c : string) :
  apply_op ts op d = Some d' →
  is_Some (companies d' !! c) → is_Some (companies d !! c).
Proof.
  intros Hop.
  destruct op as [r|c0 u|y u|u|m v]; simpl in Hop.
  - injection Hop as <-. by destruct r.
  - destruct (companies d !! c0) as [doc|] eqn:Hdoc; [|discriminate].
    injection Hop as <-. simpl. destruct (decide (c0 = c)) as [->|Hne].
    + by rewrite Hdoc.
    + by rewrite lookup_insert_ne.
  - destruct (years d !! y); [|discriminate]. by injection Hop as <-.
  - destruct (dashboard d); [|discriminate]. by injection Hop as <-.
  - by destruct m; injection Hop as <-.
Qed.

Lemma steps_company_exists (d d' : Db) (ops : list write_op) (c : string) (u : CompanyUpdate) :
  steps d ops d' → OpUpdateCompany c u ∈ ops → is_Some (companies d !! c).
Proof.
  induction 1 as [d|ts op d d1 ops d2 Hop _ IH]; intros Hin.
  - by apply elem_of_nil in Hin.
  - apply elem_of_cons in Hin as [<-|Hin].
    + simpl in Hop. by destruct (companies d !! c).
    + eapply apply_op_company_dom; [exact Hop | by apply IH].
Qed.

(** Field paths. *)
Lemma string_length_app (s t : string) :
  String.length (s +:+ t) = (String.length s + String.length t)%nat.
Proof. induction s as [|a s IH]; simpl; [done|]. by rewrite IH. Qed.

Lemma string_app_inv_tail (s1 s2 t : string) : s1 +:+ t = s2 +:+ t → s1 = s2.
Proof.
  revert s2. induction s1 as [|a s1 IH]; intros [|b s2] Heq; simpl in Heq.
  - done.
  - apply (f_equal String.length) in Heq.
    rewrite !string_length_app in Heq. simpl in Heq. lia.
  - apply (f_equal String.length) in Heq.
    rewrite !string_length_app in Heq. simpl in Heq. lia.
  - injection Heq as -> Heq. f_equal. by apply IH.
Qed.

Lemma placed_key_inj (c1 c2 : string) : placed_key c1 = placed_key c2 → c1 = c2.
Proof.
  unfold placed_key. intros Heq. apply (inj (String.app _)) in Heq.
  by apply string_app_inv_tail in Heq.
Qed.

Lemma split_on_segment (s t : string) :
  undotted s → split_on "." (s +:+ String "." t) = s :: split_on "." t.
Proof.
  unfold undotted. induction s as [|a s IH]; intros Hs.
  - reflexivity.
  - cbn [has_dot] in Hs. apply orb_false_iff in Hs as [Ha Hs].
    apply bool_decide_eq_false in Ha. simpl.
    rewrite decide_False by done. by rewrite IH.
Qed.

Lemma split_placed_key (c : string) :
  undotted c → split_on "." (placed_key c) = ["companyWise"; c; "placed"]%string.
Proof.
  intros Hc. unfold placed_key.
  change (split_on "." ("companyWise." +:+ c +:+ ".placed"))
    with ("companyWise"%string :: split_on "." (c +:+ String "." "placed")).
  by rewrite split_on_segment.
Qed.

(** Years. *)
Lemma placed_of_incr (n : Z) (e : option doc_value) :
  placed_of (Some (incr_at ["placed"%string] n e)) = Some (num (placed_of e) + n).
Proof.
  cbn [incr_at placed_of]. rewrite lookup_insert_eq.
  destruct e as [[z|s|m]|]; cbn [placed_of]; rewrite ?lookup_empty; try done.
  destruct (m !! "placed"%string) as [[z|s|m']|]; simpl; by rewrite ?Z.add_0_l.
Qed.

Lemma incr_company_wise_placed_key (c : string) (n : Z)
    (company_wise : gmap string doc_value) :
  undotted c →
  incr_company_wise (placed_key c) n company_wise
  = <[c := incr_at ["placed"%string] n (company_wise !! c)]> company_wise.
Proof. intros Hc. unfold incr_company_wise. by rewrite split_placed_key. Qed.

(** The increments of a plain update, folded over the [companyWise] map,
    add up entry by entry. *)
Lemma fold_plain_increments (increments : gmap string Z)
    (company_wise : gmap string doc_value) (c : string) :
  (∀ key, is_Some (increments !! key) → ∃ c0, undotted c0 ∧ key = placed_key c0) →
  num (placed_of (map_fold incr_company_wise company_wise increments !! c))
  = num (placed_of (company_wise !! c)) + num (increments !! placed_key c).
Proof.
  revert c. apply (map_fold_weak_ind (λ r m,
    ∀ c, (∀ key, is_Some (m !! key) → ∃ c0, undotted c0 ∧ key = placed_key c0) →
         num (placed_of (r !! c))
         = num (placed_of (company_wise !! c)) + num (m !! placed_key c))).
  - intros c _. rewrite lookup_empty. simpl. lia.
  - intros key n m r Hfresh IH c Hkeys.
    destruct (Hkeys key) as (c0 & Hc0 & ->); [by rewrite lookup_insert_eq|].
    rewrite incr_company_wise_placed_key by done.
    assert (∀ key, is_Some (m !! key) → ∃ c1, undotted c1 ∧ key = placed_key c1)
      as Hkeys'.
    { intros key Hkey. apply Hkeys. destruct (decide (key = placed_key c0)) as [->|Hne].
      - by rewrite lookup_insert_eq.
      - by rewrite lookup_insert_ne. }
    destruct (decide (c = c0)) as [->|Hne].
    + rewrite !lookup_insert_eq, placed_of_incr. rewrite (IH c0 Hkeys'), Hfresh.
      simpl. lia.
    + rewrite !lookup_insert_ne; [by apply IH|..].
      * intros Heq. apply placed_key_inj in Heq. congruence.
      * congruence.
Qed.

Lemma apply_year_update_counters (ts : Z) (u : YearUpdate) (y : Year) (c : string) :
  num (yr_totalStudentsParticipated (apply_year_update ts u y))
  = num (yr_totalStudentsParticipated y) + yu_totalStudentsParticipated u
  ∧ num (yr_totalPlaced (apply_year_update ts u y))
    = num (yr_totalPlaced y) + num (yu_totalPlaced u)
  ∧ (plain_update u →
     company_wise_placed c (apply_year_update ts u y)
     = company_wise_placed c y + num (yu_companyWise_placed u !! placed_key c)).
Proof.
  split; [done|]. split.
  - unfold num. simpl. destruct (yu_totalPlaced u); simpl; lia.
  - intros Hplain. unfold company_wise_placed. simpl.
    by apply fold_plain_increments.
Qed.

Lemma apply_op_year (ts : Z) (op : write_op) (d d' : Db) (y c : string) (x : Year) :
  apply_op ts op d = Some d' →
  years d !! y = Some x →
  ∃ x', years d' !! y = Some x'
        ∧ num (yr_totalStudentsParticipated x')
          = num (yr_totalStudentsParticipated x) + participated_delta y op
        ∧ num (yr_totalPlaced x') = num (yr_totalPlaced x) + year_placed_delta y op
        ∧ (plain_op op →
           company_wise_placed c x' = company_wise_placed c x + company_wise_delta y c op).
Proof.
  intros Hop Hx.
  destruct op as [r|c0 u|y0 u|u|m v]; simpl in Hop.
  - injection Hop as <-. exists x. destruct r; simpl; repeat split; (done || lia).
  - destruct (companies d !! c0); [|discriminate]. injection Hop as <-.
    exists x. simpl. repeat split; (done || lia).
  - destruct (years d !! y0) as [doc|] eqn:Hdoc; [|discriminate].
    injection Hop as <-. simpl. destruct (decide (y0 = y)) as [->|Hne].
    + rewrite lookup_insert_eq. eexists. split; [done|].
      rewrite Hx in Hdoc. injection Hdoc as <-.
      apply apply_year_update_counters.
    + rewrite lookup_insert_ne by done. exists x. repeat split; (done || lia).
  - destruct (dashboard d); [|discriminate]. injection Hop as <-.
    exists x. simpl. repeat split; (done || lia).
  - exists x. destruct m; injection Hop as <-; simpl; repeat split; (done || lia).
Qed.

Lemma steps_year (d d' : Db) (ops : list write_op) (y c : string) (x : Year) :
  steps d ops d' →
  years d !! y = Some x →
  ∃ x', years d' !! y = Some x'
        ∧ num (yr_totalStudentsParticipated x')
          = num (yr_totalStudentsParticipated x) + sumZ (participated_delta y) ops
        ∧ num (yr_totalPlaced x') = num (yr_totalPlaced x) + sumZ (year_placed_delta y) ops
        ∧ (Forall plain_op ops →
           company_wise_placed c x'
           = company_wise_placed c x + sumZ (company_wise_delta y c) ops).
Proof.
  intros Hsteps. revert x.
  induction Hsteps as [d|ts op d d1 ops d2 Hop _ IH]; intros x Hx.
  - exists x. simpl. repeat split; (done || lia).
  - destruct (apply_op_year _ _ _ _ y c x Hop Hx) as (x1 & Hx1 & H1 & H2 & H3).
    destruct (IH x1 Hx1) as (x' & Hx' & H1' & H2' & H3').
    exists x'. simpl. split; [done|]. split; [lia|]. split; [lia|].
    intros [Hplain Hrest]%Forall_cons. specialize (H3 Hplain). specialize (H3' Hrest).
    lia.
Qed.

Lemma apply_op_year_dom (ts : Z) (op : write_op) (d d' : Db) (y : string) :
  apply_op ts op d = Some d' →
  is_Some (years d' !! y) → is_Some (years d !! y).
Proof.
  intros Hop.
  destruct op as [r|c0 u|y0 u|u|m v]; simpl in Hop.
  - injection Hop as <-. by destruct r.
  - destruct (companies d !! c0); [|discriminate]. by injection Hop as <-.
  - destruct (years d !! y0) as [doc|] eqn:Hdoc; [|discriminate].
    injection Hop as <-. simpl. destruct (decide (y0 = y)) as [->|Hne].
    + by rewrite Hdoc.
    + by rewrite lookup_insert_ne.
  - destruct (dashboard d); [|discriminate]. by injection Hop as <-.
  - by destruct m; injection Hop as <-.
Qed.

Lemma steps_year_exists (d d' : Db) (ops : list write_op) (y : string) (u : YearUpdate) :
  steps d ops d' → OpUpdateYear y u ∈ ops → is_Some (years d !! y).
Proof.
  induction 1 as [d|ts op d d1 ops d2 Hop _ IH]; intros Hin.
  - by apply elem_of_nil in Hin.
  - apply elem_of_cons in Hin as [<-|Hin].
    + simpl in Hop. by destruct (years d !! y).
    + eapply apply_op_year_dom; [exact Hop | by apply IH].
Qed.

(** ** The operations of a whole cascade *)

Lemma year_loop_inv (ys : list Z) (items : list (string * CompanyInfo)) (l : Locals) :
  batch (year_loop ys items l) = batch l ++ (year_op items <$> ys)
  ∧ stats (year_loop ys items l) = stats l.
Proof.
  revert l. induction ys as [|y ys IH]; intros l; simpl.
  - by rewrite app_nil_r.
  - destruct (IH (enqueue (OpUpdateYear (pretty y) (year_update_of y items)) l))
      as [-> ->]. simpl. by rewrite <- (assoc_L (++)).
Qed.

Lemma filter_keeps_year_ops (items : list (string * CompanyInfo)) (ys : list Z) :
  filter keeps (year_op items <$> ys) = year_op items <$> ys.
Proof.
  induction ys as [|y ys IH]; [done|].
  rewrite fmap_cons. rewrite filter_cons_True; [|reflexivity]. by rewrite IH.
Qed.

Lemma cascade_main_inv (student_id : string) (sd : Student) (s : CascadeStats)
    (w w' : World) :
  cascade_main student_id sd w = Returned s w' →
  ∃ new final,
    commits w' = commits w ++ new ++ [final]
    ∧ last final = Some (OpDelete (students_doc student_id))
    ∧ steps (db w) (concat (new ++ [final])) (db w')
    ∧ filter keeps (concat (new ++ [final]))
      = cascade_ops student_id (st_companyStatus sd) (elements (yearsAffected s))
    ∧ same_counts
        (counts_after (st_companyStatus sd)
           (set_totalOffers (default 0 (st_totalOffers sd)) initial_stats)) s.
Proof.
  unfold cascade_main. intros Hrun.
  apply bind_returned in Hrun as (l1 & w1 & Hloop & Hrun).
  apply company_loop_inv in Hloop as (ops & (new & Hlog & Hsteps & Hqueue) & Hkeep & Hcounts).
  simpl in Hqueue, Hcounts.
  apply bind_returned in Hrun as ([] & w2 & Hcommit & Hret).
  injection Hret as <- <-. simpl in Hcommit.
  apply do_commit_returned, commit_inv in Hcommit as (Happly & Hlog' & _).
  apply apply_ops_steps in Happly.
  destruct (year_loop_inv (elements (yearsAffected (stats l1)))
              (st_companyStatus sd) l1) as [Hbatch Hstats].
  simpl in *. rewrite Hbatch in *. rewrite Hstats in *.
  exists new, ((batch l1 ++ (year_op (st_companyStatus sd) <$>
                               elements (yearsAffected (stats l1))))
               ++ [OpDelete (students_doc student_id)]).
  split; [|split; [|split; [|split]]].
  - by rewrite Hlog', Hlog, <- (assoc_L (++)).
  - by rewrite last_snoc.
  - rewrite concat_app. simpl. rewrite app_nil_r. by eapply steps_app.
  - rewrite concat_app. simpl. rewrite app_nil_r.
    rewrite !(assoc_L (++) (concat new)), Hqueue.
    rewrite !filter_keeps_app, Hkeep, <- (assoc_L (++)). unfold cascade_ops.
    f_equal. f_equal.
    apply filter_keeps_year_ops.
  - exact Hcounts.
Qed.

(** The accounting of [counts_after]. *)
Lemma counts_after_spec (items : list (string * CompanyInfo)) (s : CascadeStats) :
  companiesAffected (counts_after items s) = (companiesAffected s + length items)%nat
  ∧ placementsDeleted (counts_after items s)
    = (placementsDeleted s + length (placed_entries items))%nat
  ∧ (∀ y, y ∈ yearsAffected (counts_after items s) ↔ affected items y ∨ y ∈ yearsAffected s).
Proof.
  revert s. induction items as [|entry items IH]; intros s.
  - simpl. split; [lia|]. split; [unfold placed_entries; simpl; lia|].
    intros y. split; [by right|]. intros [(e & Hin & _)|Hy]; [|done].
    by apply elem_of_nil in Hin.
  - cbn [counts_after]. set (s1 := if ci_finalSelection entry.2 then _ else _).
    destruct (IH s1) as (Hc & Hp & Hy). rewrite Hc, Hp. clear IH Hc Hp.
    unfold placed_entries. rewrite filter_cons.
    assert (companiesAffected s1 = S (companiesAffected s)) as ->.
    { subst s1. by destruct (ci_finalSelection entry.2), (truthy (ci_year entry.2)). }
    assert (placementsDeleted s1
            = if ci_finalSelection entry.2 then S (placementsDeleted s)
              else placementsDeleted s) as ->.
    { subst s1. by destruct (ci_finalSelection entry.2), (truthy (ci_year entry.2)). }
    assert (yearsAffected s1
            = if truthy (ci_year entry.2)
              then {[ default 0 (ci_year entry.2) ]} ∪ yearsAffected s
              else yearsAffected s) as Hys.
    { subst s1. by destruct (ci_finalSelection entry.2), (truthy (ci_year entry.2)). }
    split; [simpl; lia|]. split.
    { destruct (ci_finalSelection entry.2); simpl; lia. }
    intros y. rewrite Hy, Hys. clear Hy Hys. unfold affected.
    destruct (ci_year entry.2) as [y0|] eqn:Hyear; simpl.
    + destruct (Z.eqb_spec y0 0) as [->|Hne]; simpl.
      * split.
        -- intros [(e & Hin & H1 & H2)|?]; [|by right].
           left. exists e. split; [by right|done].
        -- intros [(e & Hin & H1 & H2)|?]; [|by right].
           apply elem_of_cons in Hin as [->|Hin]; [congruence|].
           left. by exists e.
      * rewrite elem_of_union, elem_of_singleton. split.
        -- intros [(e & Hin & H1 & H2)|[->|?]].
           ++ left. exists e. split; [by right|done].
           ++ left. exists entry. split; [by left|done].
           ++ by right.
        -- intros [(e & Hin & H1 & H2)|?]; [|by right; right].
           apply elem_of_cons in Hin as [->|Hin].
           ++ right. left. congruence.
           ++ left. by exists e.
    + split.
      * intros [(e & Hin & H1 & H2)|?]; [|by right].
        left. exists e. split; [by right|done].
      * intros [(e & Hin & H1 & H2)|?]; [|by right].
        apply elem_of_cons in Hin as [->|Hin]; [congruence|].
        left. by exists e.
Qed.

Lemma year_scan_spec (year : Z) (items : list (string * CompanyInfo))
    (acc : nat * gmap string Z) :
  (year_scan year items acc).1 = (acc.1 + length (placed_in_year year items))%nat
  ∧ ∀ c, num ((year_scan year items acc).2 !! placed_key c)
         = if decide (c ∈ (placed_in_year year items).*1) then -1
           else num (acc.2 !! placed_key c).
Proof.
  revert acc. induction items as [|entry items IH]; intros acc.
  - cbn [year_scan]. unfold placed_in_year. rewrite filter_nil. split; [simpl; lia|].
    intros c. rewrite fmap_nil, decide_False; [done | apply not_elem_of_nil].
  - cbn [year_scan]. unfold placed_in_year. rewrite filter_cons.
    destruct (decide (ci_year entry.2 = Some year ∧ ci_finalSelection entry.2 = true))
      as [[Hy Hp]|Hno].
    + rewrite bool_decide_eq_true_2 by done. rewrite Hp. cbn [andb].
      destruct (IH (S acc.1, <[placed_key entry.1 := -1]> acc.2)) as [Hn Hm].
      unfold placed_in_year in Hn, Hm.
      split; [rewrite Hn; simpl; lia|]. intros c. rewrite Hm. cbn [fst snd].
      assert (c ∈ (entry :: filter
                     (λ e, ci_year e.2 = Some year ∧ ci_finalSelection e.2 = true) items).*1
              ↔ c = entry.1
                ∨ c ∈ (filter (λ e, ci_year e.2 = Some year
                                    ∧ ci_finalSelection e.2 = true) items).*1) as Hcons
        by (rewrite fmap_cons; apply elem_of_cons).
      destruct (decide (c = entry.1)) as [->|Hne];
        [rewrite lookup_insert_eq
        |rewrite lookup_insert_ne by (intros Heq%placed_key_inj; congruence)];
        repeat case_decide; try done;
        match goal with
        | Hout : _ ∉ (_ :: _).*1 |- _ =>
            exfalso; apply Hout, Hcons; first [by left | by right]
        | Hin : _ ∈ (_ :: _).*1 |- _ => by apply Hcons in Hin as [?|?]
        end.
    + assert (bool_decide (ci_year entry.2 = Some year) && ci_finalSelection entry.2
              = false) as ->.
      { destruct (ci_finalSelection entry.2); [|by rewrite andb_false_r].
        rewrite andb_true_r. apply bool_decide_eq_false_2. intros ?. by apply Hno. }
      apply IH.
Qed.

Lemma year_update_of_spec (year : Z) (items : list (string * CompanyInfo)) :
  yu_totalStudentsParticipated (year_update_of year items) = -1
  ∧ num (yu_totalPlaced (year_update_of year items))
    = - Z.of_nat (length (placed_in_year year items))
  ∧ ∀ c, num (yu_companyWise_placed (year_update_of year items) !! placed_key c)
         = if decide (c ∈ (placed_in_year year items).*1) then -1 else 0.
Proof.
  unfold year_update_of.
  destruct (year_scan_spec year items (0%nat, ∅)) as [Hn Hm]. simpl in *.
  split; [done|]. split.
  - rewrite Hn. destruct (Nat.ltb_spec 0 (length (placed_in_year year items))); simpl; lia.
  - intros c. rewrite Hm. by rewrite lookup_empty.
Qed.

(** The keys of a year update are those of the placed entries of the year. *)
Lemma year_scan_keys (year : Z) (items : list (string * CompanyInfo))
    (acc : nat * gmap string Z) (key : string) :
  is_Some ((year_scan year items acc).2 !! key) →
  is_Some (acc.2 !! key)
  ∨ ∃ e, e ∈ placed_in_year year items ∧ key = placed_key e.1.
Proof.
  revert acc. induction items as [|entry items IH]; intros acc.
  - by left.
  - cbn [year_scan]. unfold placed_in_year. rewrite filter_cons.
    destruct (decide (ci_year entry.2 = Some year ∧ ci_finalSelection entry.2 = true))
      as [[Hy Hp]|Hno].
    + rewrite bool_decide_eq_true_2 by done. rewrite Hp. cbn [andb].
      intros [Hkey|(e & He & ->)]%IH.
      * cbn [snd] in Hkey. destruct (decide (key = placed_key entry.1)) as [->|Hne].
        -- right. exists entry. split; [by left|done].
        -- rewrite lookup_insert_ne in Hkey by done. by left.
      * right. exists e. split; [by right|done].
    + assert (bool_decide (ci_year entry.2 = Some year) && ci_finalSelection entry.2
              = false) as ->.
      { destruct (ci_finalSelection entry.2); [|by rewrite andb_false_r].
        rewrite andb_true_r. apply bool_decide_eq_false_2. intros ?. by apply Hno. }
      apply IH.
Qed.

Lemma year_update_of_plain (year : Z) (items : list (string * CompanyInfo)) :
  (∀ e, e ∈ placed_entries items → undotted e.1) →
  plain_update (year_update_of year items).
Proof.
  intros Hplain key Hkey. unfold year_update_of in Hkey. cbn [yu_companyWise_placed] in Hkey.
  apply year_scan_keys in Hkey as [Hkey|(e & He & ->)].
  - cbn [snd] in Hkey. rewrite lookup_empty in Hkey. by destruct Hkey.
  - exists e.1. split; [|done]. apply Hplain.
    apply list_elem_of_filter in He as [[_ Hp] He]. by apply list_elem_of_filter.
Qed.

(** The whole run, from the lookup to the second deletion. *)
Lemma cascade_trace (student_id : string) (w w' : World) (r : json) :
  delete_student_cascade student_id w = Returned r w' →
  ∃ sd s w1 new final,
    students (db w) !! student_id = Some sd
    ∧ r = build_result student_id sd s
    ∧ cascade_main student_id sd w = Returned s w1
    ∧ commits w1 = commits w ++ new ++ [final]
    ∧ last final = Some (OpDelete (students_doc student_id))
    ∧ commits w' = commits w1 ++ [[OpDelete (students_doc student_id)]]
    ∧ db w' = db w1
    ∧ steps (db w) (concat (new ++ [final])) (db w')
    ∧ filter keeps (concat (new ++ [final]))
      = cascade_ops student_id (st_companyStatus sd) (elements (yearsAffected s))
    ∧ same_counts
        (counts_after (st_companyStatus sd)
           (set_totalOffers (default 0 (st_totalOffers sd)) initial_stats)) s.
Proof.
  intros Hrun.
  apply cascade_returned in Hrun as (sd & s & w1 & Hsd & Hmain & Hcommit & ->).
  destruct (cascade_main_inv _ _ _ _ _ Hmain)
    as (new & final & Hlog & Hlast & Hsteps & Hkeep & Hcounts).
  apply commit_inv in Hcommit as (Happly & Hlog' & _). simpl in Happly.
  injection Happly as Hdb.
  assert (students (db w1) !! student_id = None) as Hgone.
  { eapply (steps_deleted students student_target apply_op_students); [exact Hsteps|].
    exists (OpDelete (students_doc student_id)). split; [|done].
    assert (OpDelete (students_doc student_id)
              ∈ filter keeps (concat (new ++ [final]))) as Hin.
    { rewrite Hkeep. unfold cascade_ops. rewrite !elem_of_app. right. right. by left. }
    by apply list_elem_of_filter in Hin as [_ Hin]. }
  assert (db w' = db w1) as Hsame.
  { rewrite <- Hdb. unfold set_students.
    rewrite (delete_id _ _ Hgone). by destruct (db w1). }
  exists sd, s, w1, new, final. rewrite Hsame.
  repeat (split; [done|]). exact Hcounts.
Qed.

(** ** C9: the second deletion of the student document *)

(** C9 — Duplicate student deletion is harmless: when the cascade of an
    existing student returns, steps 1 to 4 returned in some world [w1] whose
    last committed batch ends with the deletion of the student document;
    step 5 adds to the log one batch holding that same deletion alone; the
    documents after step 5 are exactly those of [w1], the state reached by
    deleting the student once; and the student document is absent. *)
Theorem second_student_delete_is_harmless (student_id : string) (sd : Student)
    (w w' : World) (r : json) :
  students (db w) !! student_id = Some sd →
  delete_student_cascade student_id w = Returned r w' →
  ∃ s w1 earlier final,
    cascade_main student_id sd w = Returned s w1
    ∧ commits w1 = commits w ++ earlier ++ [final]
    ∧ last final = Some (OpDelete (students_doc student_id))
    ∧ commits w' = commits w1 ++ [[OpDelete (students_doc student_id)]]
    ∧ db w' = db w1
    ∧ students (db w') !! student_id = None.
Proof.
  intros Hsd Hrun.
  destruct (cascade_trace _ _ _ _ Hrun)
    as (sd' & s & w1 & new & final & Hsd' & _ & Hmain & Hlog & Hlast & Hlog' & Hdb
        & Hsteps & Hkeep & _).
  rewrite Hsd in Hsd'. injection Hsd' as <-.
  exists s, w1, new, final. repeat split; try done.
  eapply (steps_deleted students student_target apply_op_students); [exact Hsteps|].
  exists (OpDelete (students_doc student_id)). split; [|done].
  assert (OpDelete (students_doc student_id)
            ∈ filter keeps (concat (new ++ [final]))) as Hin.
  { rewrite Hkeep. unfold cascade_ops. rewrite !elem_of_app. right. right. by left. }
  by apply list_elem_of_filter in Hin as [_ Hin].
Qed.

Lemma second_student_delete_is_harmless_witness :
  ∃ r w' s w1,
    delete_student_cascade "S" acme_world = Returned r w'
    ∧ cascade_main "S" student_S acme_world = Returned s w1
    ∧ db w' = db w1
    ∧ students (db w') !! "S"%string = None.
Proof.
  assert (∃ r w', delete_student_cascade "S" acme_world = Returned r w') as (r & w' & Hrun)
    by (vm_compute; eauto).
  destruct (second_student_delete_is_harmless "S" student_S acme_world w' r eq_refl Hrun)
    as (s & w1 & _ & _ & Hmain & _ & _ & _ & Hdb & Hgone).
  exists r, w', s, w1. exact (conj Hrun (conj Hmain (conj Hdb Hgone))).
Defined.

(** ** C1: a company identifier with a dot *)

(** C1 — Cascade completeness, as the code has it for a company whose
    identifier has a dot: the key [f'companyWise.{company_year_id}.placed']
    is read as a field path, so that for the identifier ["a.b"] the cascade
    returns, lowers the totals of the year, and leaves the [placed] of
    [companyWise["a.b"]] at 3; the increment lands on a new entry
    [companyWise["a"]["b"]["placed"]], which holds -1. *)
Theorem cascade_misses_dotted_company_id :
  let o := delete_student_cascade "S" dotted_world in
  let before := years (db dotted_world) !! "2025"%string in
  let after := years (db (world_of o)) !! "2025"%string in
  committed_sizes o = Some [4; 1]%nat
  ∧ students (db (world_of o)) !! "S"%string = None
  ∧ (after ≫= yr_totalStudentsParticipated) = Some 6
  ∧ (after ≫= yr_totalPlaced) = Some 2
  ∧ company_wise_placed "a.b" <$> before = Some 3
  ∧ company_wise_placed "a.b" <$> after = Some 3
  ∧ (after ≫= λ y, yr_companyWise y !! "a"%string)
    = Some (DMap {[ "b"%string := DMap {[ "placed"%string := DInt (-1) ]} ]}).
Proof. vm_compute. repeat split. Qed.

(** ** What the operations of a cascade add up to *)

Section CascadeSums.
Variables (student_id : string) (items : list (string * CompanyInfo)) (ys : list Z).

(** A measure that only sees company updates. *)
Lemma sum_company_measure (f : write_op → Z) (g : string * CompanyInfo → Z) :
  (∀ r, f (OpDelete r) = 0) →
  (∀ y u, f (OpUpdateYear y u) = 0) →
  (∀ e, f (OpUpdateCompany e.1 (company_update_of e.2)) = g e) →
  sumZ f (cascade_ops student_id items ys) = sumZ g items.
Proof.
  intros Hdel Hyear Hco. unfold cascade_ops. rewrite !sumZ_app, sumZ_flat_map.
  rewrite (sumZ_zero f (year_op items <$> ys)).
  - simpl. rewrite Hdel, !Z.add_0_r. apply sumZ_ext. intros e _.
    unfold company_ops. rewrite sumZ_app. simpl. rewrite Hco.
    destruct (ci_finalSelection e.2); simpl; rewrite ?Hdel; lia.
  - intros op (y & -> & _)%list_elem_of_fmap. apply Hyear.
Qed.

(** A measure that only sees year updates. *)
Lemma sum_year_measure (f : write_op → Z) (g : Z → Z) :
  (∀ r, f (OpDelete r) = 0) →
  (∀ c u, f (OpUpdateCompany c u) = 0) →
  (∀ y, f (year_op items y) = g y) →
  sumZ f (cascade_ops student_id items ys) = sumZ g ys.
Proof.
  intros Hdel Hco Hyear. unfold cascade_ops. rewrite !sumZ_app, sumZ_fmap.
  rewrite (sumZ_zero f (flat_map _ _)).
  - simpl. rewrite Hdel. rewrite (sumZ_ext _ g); [lia|]. intros y _. apply Hyear.
  - intros op (e & He & Hop)%list_elem_of_In%in_flat_map.
    unfold company_ops in Hop. apply list_elem_of_In in Hop.
    apply elem_of_app in Hop as [Hop|Hop].
    + destruct (ci_finalSelection e.2); [|by apply elem_of_nil in Hop].
      apply list_elem_of_singleton in Hop as ->. apply Hdel.
    + apply list_elem_of_singleton in Hop as ->. apply Hco.
Qed.

(** The placement deletions are one per placed entry. *)
Lemma sum_placement_deletes :
  sumZ (indicator is_placement_delete) (cascade_ops student_id items ys)
  = Z.of_nat (length (placed_entries items)).
Proof.
  unfold cascade_ops. rewrite !sumZ_app, sumZ_flat_map.
  rewrite (sumZ_zero _ (year_op items <$> ys)).
  - simpl. unfold indicator at 2. simpl. rewrite !Z.add_0_r.
    induction items as [|e l IH]; [done|].
    cbn [sumZ]. rewrite IH. unfold placed_entries. rewrite filter_cons.
    unfold company_ops, indicator.
    destruct (ci_finalSelection e.2); simpl; lia.
  - by intros op (y & -> & _)%list_elem_of_fmap.
Qed.

Lemma placement_delete_in_cascade (op : write_op) :
  op ∈ cascade_ops student_id items ys →
  is_placement_delete op = true →
  ∃ e, e ∈ placed_entries items ∧ op = OpDelete (placements_doc e.1 student_id).
Proof.
  unfold cascade_ops. rewrite !elem_of_app.
  intros [Hop|[Hop|Hop]] Hpd.
  - apply list_elem_of_In, in_flat_map in Hop as (e & He & Hop).
    apply list_elem_of_In in He. apply list_elem_of_In in Hop.
    unfold company_ops in Hop. apply elem_of_app in Hop as [Hop|Hop].
    + destruct (ci_finalSelection e.2) eqn:Hplaced; [|by apply elem_of_nil in Hop].
      apply list_elem_of_singleton in Hop as ->.
      exists e. split; [|done]. by apply list_elem_of_filter.
    + by apply list_elem_of_singleton in Hop as ->.
  - by apply list_elem_of_fmap in Hop as (y & -> & _).
  - by apply list_elem_of_singleton in Hop as ->.
Qed.

Lemma placement_delete_of_entry (e : string * CompanyInfo) :
  e ∈ placed_entries items →
  OpDelete (placements_doc e.1 student_id) ∈ cascade_ops student_id items ys.
Proof.
  intros [Hplaced He]%list_elem_of_filter.
  unfold cascade_ops. apply elem_of_app. left.
  apply list_elem_of_In, in_flat_map. exists e.
  split; [by apply list_elem_of_In|]. apply list_elem_of_In.
  unfold company_ops. rewrite Hplaced. by left.
Qed.

Lemma company_update_in_cascade (e : string * CompanyInfo) :
  e ∈ items →
  OpUpdateCompany e.1 (company_update_of e.2) ∈ cascade_ops student_id items ys.
Proof.
  intros He. unfold cascade_ops. apply elem_of_app. left.
  apply list_elem_of_In, in_flat_map. exists e.
  split; [by apply list_elem_of_In|]. apply list_elem_of_In.
  unfold company_ops. apply elem_of_app. right. by left.
Qed.

Lemma year_update_in_cascade (y : Z) :
  y ∈ ys → year_op items y ∈ cascade_ops student_id items ys.
Proof.
  intros Hy. unfold cascade_ops. apply elem_of_app. right. apply elem_of_app. left.
  by apply list_elem_of_fmap_2.
Qed.
End CascadeSums.

(** Measures that the deletions of round data do not move. *)
Lemma not_keeps (op : write_op) :
  ¬ keeps op → ∃ c r x, op = OpDelete (round_data_doc c r x).
Proof.
  unfold keeps. destruct op as [[| |c r x]| | | |]; simpl; try done. eauto.
Qed.

Lemma sum_keeps (f : write_op → Z) (ops : list write_op) :
  (∀ c r x, f (OpDelete (round_data_doc c r x)) = 0) →
  sumZ f (filter keeps ops) = sumZ f ops.
Proof.
  intros Hdel. apply sumZ_filter. intros op (c & r & x & ->)%not_keeps. apply Hdel.
Qed.

Lemma sum_indicator_length (p : write_op → bool) (ops : list write_op) :
  sumZ (indicator p) ops = Z.of_nat (length (filter (λ op, p op = true) ops)).
Proof.
  induction ops as [|op ops IH]; [done|].
  cbn [sumZ]. rewrite IH, filter_cons. unfold indicator.
  destruct (p op); simpl; lia.
Qed.

(** X20 — Cascade completeness where no identifier has a dot: for a
    student whose [companyStatus] has [N] entries (distinct keys), [M] of
    them with [finalSelection] true and none of these under an identifier
    with a dot, a cascade that returns has committed exactly [M] placement
    deletions, one per placed entry and under this student's identifier,
    and reports [M] and [N]; these placement documents are absent and all
    others are as before; the student document is absent; every referenced
    company has [totalApplied] lowered by 1 and [totalPlaced] lowered by 1
    exactly when the entry is placed; and every affected year (a truthy
    [year] of some entry) has [totalStudentsParticipated] lowered by 1,
    [totalPlaced] lowered by the number of placed entries of that year, and
    the [placed] of [companyWise[<id>]] lowered by 1 for each of them. *)
Theorem cascade_completeness (student_id : string) (sd : Student)
    (w w' : World) (r : json) :
  students (db w) !! student_id = Some sd →
  NoDup (st_companyStatus sd).*1 →
  (∀ e, e ∈ placed_entries (st_companyStatus sd) → undotted e.1) →
  delete_student_cascade student_id w = Returned r w' →
  let items := st_companyStatus sd in
  (∃ new,
      commits w' = commits w ++ new
      ∧ (json_field "cascadingUpdates" r ≫= json_field "placementsDeleted")
        = Some (JInt (Z.of_nat (length (placed_entries items))))
      ∧ (json_field "cascadingUpdates" r ≫= json_field "companiesAffected")
        = Some (JInt (Z.of_nat (length items)))
      ∧ length (filter (λ op, is_placement_delete op = true) (concat new))
        = length (placed_entries items)
      ∧ (∀ op, op ∈ concat new → is_placement_delete op = true →
               ∃ e, e ∈ placed_entries items
                    ∧ op = OpDelete (placements_doc e.1 student_id)))
  ∧ (∀ e, e ∈ placed_entries items → placements (db w') !! (e.1, student_id) = None)
  ∧ (∀ k, (∀ e, e ∈ placed_entries items → k ≠ (e.1, student_id)) →
          placements (db w') !! k = placements (db w) !! k)
  ∧ students (db w') !! student_id = None
  ∧ (∀ e, e ∈ items →
       ∃ x x', companies (db w) !! e.1 = Some x
               ∧ companies (db w') !! e.1 = Some x'
               ∧ num (co_totalApplied x') = num (co_totalApplied x) - 1
               ∧ num (co_totalPlaced x')
                 = num (co_totalPlaced x) - (if ci_finalSelection e.2 then 1 else 0))
  ∧ (∀ y, affected items y →
       ∃ x x', years (db w) !! pretty y = Some x
               ∧ years (db w') !! pretty y = Some x'
               ∧ num (yr_totalStudentsParticipated x')
                 = num (yr_totalStudentsParticipated x) - 1
               ∧ num (yr_totalPlaced x')
                 = num (yr_totalPlaced x) - Z.of_nat (length (placed_in_year y items))
               ∧ ∀ e, e ∈ placed_in_year y items →
                      company_wise_placed e.1 x' = company_wise_placed e.1 x - 1).
Proof.
  intros Hsd Hnodup Hundotted Hrun items.
  destruct (cascade_trace _ _ _ _ Hrun)
    as (sd' & s & w1 & new & final & Hsd' & Hr & _ & Hlog & _ & Hlog' & _
        & Hsteps & Hkeep & Hcounts).
  rewrite Hsd in Hsd'. injection Hsd' as <-. fold items in Hkeep, Hcounts.
  destruct (counts_after_spec items
              (set_totalOffers (default 0 (st_totalOffers sd)) initial_stats))
    as (Hcompanies & Hplacements & _).
  set (ys := elements (yearsAffected s)) in *.
  set (ops := concat (new ++ [final])) in *.
  set (del := OpDelete (students_doc student_id)).
  assert (∀ op, keeps op → op ∈ ops ↔ op ∈ cascade_ops student_id items ys) as Hmem.
  { intros op Hop. rewrite <- Hkeep, list_elem_of_filter. tauto. }
  assert (∀ y, y ∈ ys ↔ affected items y) as Hys.
  { intros y. unfold ys. rewrite elem_of_elements.
    destruct Hcounts as (_ & _ & -> & _).
    destruct (counts_after_spec items
                (set_totalOffers (default 0 (st_totalOffers sd)) initial_stats))
      as (_ & _ & Hy). rewrite Hy. simpl.
    split; [intros [?|Hin]; [done | by apply elem_of_empty in Hin] | by left]. }
  assert (NoDup (pretty <$> ys)) as Hys_nodup.
  { apply NoDup_fmap_2; [apply _ | apply NoDup_elements]. }
  assert (Forall plain_op ops) as Hplain.
  { apply Forall_forall. intros op Hin.
    destruct op as [ref|c0 u|y0 u|u|m v]; try exact I.
    apply Hmem in Hin; [|done]. unfold cascade_ops in Hin.
    rewrite !elem_of_app in Hin. destruct Hin as [Hin|[Hin|Hin]].
    - apply list_elem_of_In, in_flat_map in Hin as (e & _ & Hin).
      apply list_elem_of_In in Hin. unfold company_ops in Hin.
      apply elem_of_app in Hin as [Hin|Hin].
      + destruct (ci_finalSelection e.2); [|by apply elem_of_nil in Hin].
        by apply list_elem_of_singleton in Hin.
      + by apply list_elem_of_singleton in Hin.
    - apply list_elem_of_fmap in Hin as (y' & Heq & _). injection Heq as -> ->.
      by apply year_update_of_plain.
    - by apply list_elem_of_singleton in Hin. }
  split; [|split; [|split; [|split; [|split]]]].
  - exists ((new ++ [final]) ++ [[del]]). split; [|split; [|split; [|split]]].
    + by rewrite Hlog', Hlog, !(assoc_L (++)).
    + rewrite Hr. destruct Hcounts as (_ & Hp & _). cbn.
      by rewrite Hp, Hplacements.
    + rewrite Hr. destruct Hcounts as (Hc & _). cbn.
      by rewrite Hc, Hcompanies.
    + rewrite concat_app, filter_app, length_app. fold ops. simpl.
      apply Nat2Z.inj. rewrite Nat2Z.inj_add, <- sum_indicator_length.
      rewrite <- (sum_placement_deletes student_id items ys), <- Hkeep.
      rewrite sum_keeps by done. simpl. lia.
    + rewrite concat_app. fold ops. simpl. intros op Hin Hpd.
      apply elem_of_app in Hin as [Hin|Hin].
      * apply (placement_delete_in_cascade student_id items ys); [|done].
        apply Hmem; [|done]. by destruct op as [[]| | | |].
      * apply list_elem_of_singleton in Hin as ->. discriminate.
  - intros e He.
    eapply (steps_deleted placements placement_target apply_op_placements);
      [exact Hsteps|].
    exists (OpDelete (placements_doc e.1 student_id)). split; [|done].
    apply Hmem; [done|]. by apply placement_delete_of_entry.
  - intros k Hk.
    eapply (steps_kept placements placement_target apply_op_placements);
      [exact Hsteps|].
    intros op Hin Htarget.
    destruct op as [[s0|c0 s0|]| | | |]; try discriminate. injection Htarget as <-.
    apply Hmem in Hin; [|done].
    apply placement_delete_in_cascade in Hin as (e & He & Heq); [|done].
    injection Heq as -> ->. by apply (Hk e).
  - eapply (steps_deleted students student_target apply_op_students); [exact Hsteps|].
    exists del. split; [|done]. apply Hmem; [done|].
    unfold cascade_ops. rewrite !elem_of_app. right. right. by left.
  - intros e He.
    assert (OpUpdateCompany e.1 (company_update_of e.2) ∈ ops) as Hin.
    { apply Hmem; [done|]. by apply company_update_in_cascade. }
    destruct (steps_company_exists _ _ _ _ _ Hsteps Hin) as [x Hx].
    destruct (steps_company _ _ _ _ _ Hsteps Hx) as (x' & Hx' & Ha & Hp).
    exists x, x'. split; [done|]. split; [done|].
    rewrite <- sum_keeps, Hkeep in Ha by done.
    rewrite <- sum_keeps, Hkeep in Hp by done.
    rewrite (sum_company_measure _ _ _ _
               (λ e', if decide (e'.1 = e.1) then -1 else 0)) in Ha;
      [|done|done|done].
    rewrite (sum_company_measure _ _ _ _
               (λ e', if decide (e'.1 = e.1)
                      then (if ci_finalSelection e'.2 then -1 else 0) else 0)) in Hp;
      [|done|done|].
    + rewrite (sumZ_unique fst (λ _, -1) items e) in Ha by done.
      rewrite (sumZ_unique fst (λ e', if ci_finalSelection e'.2 then -1 else 0) items e)
        in Hp by done.
      destruct (ci_finalSelection e.2); lia.
    + intros e'. simpl. case_decide; [|done]. by destruct (ci_finalSelection e'.2).
  - intros y Hy. apply Hys in Hy.
    assert (year_op items y ∈ ops) as Hin.
    { apply Hmem; [done|]. by apply year_update_in_cascade. }
    destruct (steps_year_exists _ _ _ _ _ Hsteps Hin) as [x Hx].
    destruct (year_update_of_spec y items) as (Hu1 & Hu2 & Hu3).
    destruct (steps_year _ _ _ (pretty y) "" x Hsteps Hx) as (x' & Hx' & H1 & H2 & _).
    exists x, x'. split; [done|]. split; [done|].
    rewrite <- sum_keeps, Hkeep in H1 by done.
    rewrite <- sum_keeps, Hkeep in H2 by done.
    rewrite (sum_year_measure _ _ _ _
               (λ y', if decide (pretty y' = pretty y) then -1 else 0)) in H1;
      [|done|done|].
    2:{ intros y'. unfold year_op, participated_delta. case_decide; [|done].
        apply (year_update_of_spec y' items). }
    rewrite (sum_year_measure _ _ _ _
               (λ y', if decide (pretty y' = pretty y)
                      then - Z.of_nat (length (placed_in_year y' items)) else 0)) in H2;
      [|done|done|].
    2:{ intros y'. unfold year_op, year_placed_delta. case_decide; [|done].
        apply (year_update_of_spec y' items). }
    rewrite (sumZ_unique pretty (λ _, -1) ys y) in H1 by done.
    rewrite (sumZ_unique pretty (λ y', - Z.of_nat (length (placed_in_year y' items))) ys y)
      in H2 by done.
    split; [lia|]. split; [lia|].
    intros e He.
    destruct (steps_year _ _ _ (pretty y) e.1 x Hsteps Hx) as (x2 & Hx2 & _ & _ & H3).
    specialize (H3 Hplain). rewrite Hx' in Hx2. injection Hx2 as <-.
    rewrite <- sum_keeps, Hkeep in H3 by done.
    rewrite (sum_year_measure _ _ _ _
               (λ y', if decide (pretty y' = pretty y)
                      then (if decide (e.1 ∈ (placed_in_year y' items).*1) then -1 else 0)
                      else 0)) in H3; [|done|done|].
    2:{ intros y'. unfold year_op, company_wise_delta. case_decide; [|done].
        apply (year_update_of_spec y' items). }
    rewrite (sumZ_unique pretty
               (λ y', if decide (e.1 ∈ (placed_in_year y' items).*1) then -1 else 0) ys y)
      in H3 by done.
    rewrite decide_True in H3 by by apply list_elem_of_fmap_2. lia.
Qed.

Lemma cascade_completeness_witness :
  ∃ r w',
    delete_student_cascade "S" acme_world = Returned r w'
    ∧ students (db w') !! "S"%string = None
    ∧ placements (db w') !! ("acme-2025", "S")%string = None.
Proof.
  assert (∃ r w', delete_student_cascade "S" acme_world = Returned r w') as (r & w' & Hrun)
    by (vm_compute; eauto).
  destruct (cascade_completeness "S" student_S acme_world w' r eq_refl
              (NoDup_singleton _)) as (_ & Hplaced & _ & Hgone & _); [|exact Hrun|].
  { intros e He. apply list_elem_of_filter in He as [_ He].
    apply list_elem_of_singleton in He as ->. reflexivity. }
  exists r, w'. split; [exact Hrun|]. split; [exact Hgone|].
  apply (Hplaced ("acme-2025"%string, {| ci_year := Some 2025; ci_finalSelection := true |})).
  by left.
Defined.

(** The scenario of the specification, run: one placement and one row of
    round data deleted, the counters of [acme-2025] and of year 2025 lowered
    by 1, the student gone, and two batches in the log. *)
Example scenario_acme :
  let o := delete_student_cascade "S" acme_world in
  let d := db (world_of o) in
  committed_sizes o = Some [5; 1]%nat
  ∧ students d !! "S"%string = None
  ∧ placements d !! ("acme-2025", "S")%string = None
  ∧ round_data d !! ("acme-2025", "r1", "d1")%string = None
  ∧ (companies d !! "acme-2025"%string ≫= co_totalApplied) = Some 9
  ∧ (companies d !! "acme-2025"%string ≫= co_totalPlaced) = Some 2
  ∧ (years d !! "2025"%string ≫= yr_totalStudentsParticipated) = Some 6
  ∧ (years d !! "2025"%string ≫= yr_totalPlaced) = Some 2
  ∧ company_wise_placed "acme-2025" <$> (years d !! "2025"%string) = Some 2.
Proof. vm_compute. repeat split. Qed.

(** * Further properties of the counter maintainer *)

Lemma only_dashboard_changed_refl (w : World) : only_dashboard_changed w w.
Proof. unfold only_dashboard_changed. by destruct (db w). Qed.

Lemma stamped_other {V} (field k : string) (x t : V) :
  k ≠ field → k ≠ "lastUpdated"%string →
  (<["lastUpdated"%string := t]> ({[ field := x ]} : gmap string V)) !! k = None.
Proof.
  intros Hk Ht. rewrite lookup_insert_ne by done. by apply lookup_singleton_ne.
Qed.

Lemma stamped_stamp {V} (field : string) (x t : V) :
  (<["lastUpdated"%string := t]> ({[ field := x ]} : gmap string V)) !! "lastUpdated"%string
  = Some t.
Proof. apply lookup_insert_eq. Qed.

(** The two write requests, seen through [stored]. *)
Lemma stats_set_merge_stored (field : string) (x : field_value) (now : Z) (w : World) :
  ∃ w', stats_set true (<["lastUpdated"%string := VTime now]> {[ field := x ]}) w
        = Returned tt w'
        ∧ only_dashboard_changed w w'
        ∧ commits w' = commits w
                       ++ [[OpSetStats true (<["lastUpdated"%string := VTime now]>
                                               {[ field := x ]})]]
        ∧ stored "lastUpdated" w' = Some (VTime now)
        ∧ (field ≠ "lastUpdated"%string → stored field w' = Some x)
        ∧ (∀ k, k ≠ field → k ≠ "lastUpdated"%string → stored k w' = stored k w).
Proof.
  rewrite stats_set_run. eexists. split; [reflexivity|]. unfold stored. simpl.
  split; [reflexivity|]. split; [reflexivity|]. split; [|split].
  - rewrite lookup_union, stamped_stamp. by destruct (_ !! _).
  - intros Hne. rewrite lookup_union, stamped_lookup by done. by destruct (_ !! _).
  - intros k Hk Ht. rewrite lookup_union, stamped_other by done.
    destruct (dashboard (db w)) as [doc|]; simpl.
    + by destruct (doc !! k).
    + by rewrite lookup_empty.
Qed.

Lemma stats_update_stored (field : string) (fw : field_write) (now : Z) (w : World)
    (doc : gmap string field_value) :
  dashboard (db w) = Some doc →
  ∃ w', stats_update (<["lastUpdated"%string := Plain (VTime now)]> {[ field := fw ]}) w
        = Returned tt w'
        ∧ only_dashboard_changed w w'
        ∧ commits w' = commits w
                       ++ [[OpUpdateStats (<["lastUpdated"%string := Plain (VTime now)]>
                                             {[ field := fw ]})]]
        ∧ stored "lastUpdated" w' = Some (VTime now)
        ∧ (field ≠ "lastUpdated"%string →
           stored field w' = apply_field_write (doc !! field) (Some fw))
        ∧ (∀ k, k ≠ field → k ≠ "lastUpdated"%string → stored k w' = stored k w).
Proof.
  intros Hdoc. rewrite stats_update_run, Hdoc. eexists. split; [reflexivity|].
  unfold stored. simpl. rewrite Hdoc. simpl.
  split; [reflexivity|]. split; [reflexivity|]. split; [|split].
  - rewrite lookup_merge, stamped_stamp. by destruct (doc !! _).
  - intros Hne. rewrite lookup_merge, stamped_lookup by done.
    by destruct (doc !! field), fw.
  - intros k Hk Ht. rewrite lookup_merge, stamped_other by done. by destruct (doc !! k).
Qed.

(** X1 — [set_stat] then [get_system_stats]: for a field other than
    [lastUpdated], [set_stat field v] returns, also when the record was
    absent; the dict read back holds [v] under [field] and the time of the
    call under [lastUpdated], every other key reads as it was stored before,
    and nothing outside [systemStats/dashboard] has changed. *)
Theorem set_stat_then_get (field : string) (v now : Z) (w : World) :
  field ≠ "lastUpdated"%string →
  ∃ w' stats,
    set_stat field v now w = Returned tt w'
    ∧ get_system_stats w' = Returned stats w'
    ∧ stats !! field = Some (VInt v)
    ∧ stats !! "lastUpdated"%string = Some (VTime now)
    ∧ (∀ k, k ≠ field → k ≠ "lastUpdated"%string → stats !! k = stored k w)
    ∧ only_dashboard_changed w w'.
Proof.
  intros Hne. unfold set_stat.
  destruct (stats_set_merge_stored field (VInt v) now w)
    as (w' & Hrun & Hframe & _ & Hstamp & Hfield & Hother).
  assert (∃ doc, dashboard (db w') = Some doc) as [doc Hdoc].
  { rewrite stats_set_run in Hrun. injection Hrun as <-. simpl. eauto. }
  exists w', doc. split; [exact Hrun|].
  split; [by rewrite get_system_stats_run, Hdoc|].
  unfold stored in Hstamp, Hfield, Hother. rewrite Hdoc in Hstamp, Hfield, Hother.
  simpl in *. auto.
Qed.

Lemma set_stat_then_get_witness :
  ∃ w' stats,
    set_stat "totalYears" 4 9 zero_stats_world = Returned tt w'
    ∧ get_system_stats w' = Returned stats w'
    ∧ stats !! "totalYears"%string = Some (VInt 4)
    ∧ stats !! "totalPlaced"%string = Some (VInt 0).
Proof.
  destruct (set_stat_then_get "totalYears" 4 9 zero_stats_world)
    as (w' & stats & Hset & Hget & Hfield & _ & Hother & _); [discriminate|].
  exists w', stats. split; [exact Hset|]. split; [exact Hget|]. split; [exact Hfield|].
  rewrite Hother; [reflexivity | discriminate | discriminate].
Defined.

(** X2 — For a simple field name, an amount within the 64-bit integers and
    a number stored under the field that is within them, [increment_stat]
    does not raise; it changes nothing outside [systemStats/dashboard] and
    no field other than [field] and [lastUpdated]; it either leaves the
    world as it was or sends exactly one write request, which stamps
    [lastUpdated] with the time of the call. *)
Theorem increment_stat_frame (field : string) (value now : Z) (w : World) :
  simple_field_name field →
  int64 value →
  (∀ c, stored field w = Some (VInt c) → int64 c) →
  ∃ w', increment_stat field value now w = Returned tt w'
        ∧ stat_call_effect field now w w'.
Proof.
  intros _ _ _.
  assert (∀ x, ∃ w',
            stats_set true (<["lastUpdated"%string := VTime now]> {[ field := x ]}) w
            = Returned tt w' ∧ stat_call_effect field now w w') as Hset.
  { intros x. destruct (stats_set_merge_stored field x now w)
      as (w' & Hrun & Hframe & Hlog & Hstamp & _ & Hother).
    exists w'. split; [done|]. split; [done|]. split; [done|]. right. eauto. }
  assert (∀ fw doc, dashboard (db w) = Some doc → ∃ w',
            stats_update (<["lastUpdated"%string := Plain (VTime now)]> {[ field := fw ]}) w
            = Returned tt w' ∧ stat_call_effect field now w w') as Hupd.
  { intros fw doc Hdoc. destruct (stats_update_stored field fw now w doc Hdoc)
      as (w' & Hrun & Hframe & Hlog & Hstamp & _ & Hother).
    exists w'. split; [done|]. split; [done|]. split; [done|]. right. eauto. }
  destruct (Z.lt_ge_cases value 0) as [Hneg|Hpos];
    destruct (dashboard (db w)) as [doc|] eqn:Hdoc.
  - destruct (default (VInt 0) (doc !! field)) as [c| |] eqn:Hcur.
    + destruct (decide (c = 0)) as [->|Hc].
      * rewrite (increment_stat_decr_skip _ _ _ _ doc) by done.
        exists w. split; [done|]. split; [apply only_dashboard_changed_refl|].
        split; [done | by left].
      * rewrite (increment_stat_decr_write _ _ _ _ doc c) by done. by eapply Hupd.
    + rewrite (increment_stat_decr_type_error _ _ _ _ doc); [|done|done|by rewrite Hcur].
      apply Hset.
    + rewrite (increment_stat_decr_type_error _ _ _ _ doc); [|done|done|by rewrite Hcur].
      apply Hset.
  - rewrite increment_stat_decr_absent by done. apply Hset.
  - rewrite (increment_stat_incr_existing _ _ _ _ doc) by done. by eapply Hupd.
  - rewrite increment_stat_incr_absent by done. apply Hset.
Qed.

(** Counters of a record that exists, one call at a time. *)
Lemma increment_existing_counter (field : string) (c v now : Z) (w : World)
    (doc : gmap string field_value) :
  dashboard (db w) = Some doc →
  doc !! field = Some (VInt c) →
  field ≠ "lastUpdated"%string →
  0 ≤ v →
  ∃ w' doc', increment_stat field v now w = Returned tt w'
             ∧ dashboard (db w') = Some doc'
             ∧ doc' !! field = Some (VInt (c + v)).
Proof.
  intros Hdoc Hc Hne Hv.
  rewrite (increment_stat_incr_existing _ _ _ _ doc), stats_update_run, Hdoc by done.
  eexists _, _. split; [reflexivity|]. simpl. split; [reflexivity|].
  by rewrite lookup_merge, stamped_lookup, Hc.
Qed.

Lemma decrement_existing_counter (field : string) (c v now : Z) (w : World)
    (doc : gmap string field_value) :
  dashboard (db w) = Some doc →
  doc !! field = Some (VInt c) →
  field ≠ "lastUpdated"%string →
  0 ≤ c → 0 < v →
  ∃ w' doc', decrement_stat field v now w = Returned tt w'
             ∧ dashboard (db w') = Some doc'
             ∧ doc' !! field = Some (VInt (Z.max 0 (c - v))).
Proof.
  intros Hdoc Hc Hne Hc0 Hv. unfold decrement_stat.
  assert (default (VInt 0) (doc !! field) = VInt c) as Hcur by by rewrite Hc.
  destruct (decide (c = 0)) as [->|Hnz].
  - rewrite (increment_stat_decr_skip _ _ _ _ doc) by (done || lia).
    exists w, doc. split; [done|]. split; [done|]. rewrite Hc. do 2 f_equal. lia.
  - rewrite (increment_stat_decr_write _ _ _ _ doc c), stats_update_run, Hdoc
      by (done || lia).
    eexists _, _. split; [reflexivity|]. simpl. split; [reflexivity|].
    rewrite lookup_merge, stamped_lookup, Hc by done. simpl. do 2 f_equal.
Qed.

(** X3 — On a record whose [field] holds a number [c ≥ 0],
    [increment_stat field v] with [v ≥ 0] followed by [decrement_stat field v]
    stores [c] again. *)
Theorem increment_then_decrement (field : string) (c v now1 now2 : Z) (w : World)
    (doc : gmap string field_value) :
  dashboard (db w) = Some doc →
  doc !! field = Some (VInt c) →
  field ≠ "lastUpdated"%string →
  0 ≤ c → 0 ≤ v →
  ∃ w1 w2, increment_stat field v now1 w = Returned tt w1
           ∧ decrement_stat field v now2 w1 = Returned tt w2
           ∧ stored field w2 = Some (VInt c).
Proof.
  intros Hdoc Hc Hne Hc0 Hv.
  destruct (increment_existing_counter field c v now1 w doc)
    as (w1 & doc1 & Hrun1 & Hdoc1 & Hc1); try done.
  destruct (decide (v = 0)) as [->|Hnz].
  - destruct (increment_existing_counter field (c + 0) 0 now2 w1 doc1)
      as (w2 & doc2 & Hrun2 & Hdoc2 & Hc2); try done.
    exists w1, w2. split; [done|]. split; [exact Hrun2|].
    unfold stored. rewrite Hdoc2. simpl. rewrite Hc2. do 2 f_equal. lia.
  - destruct (decrement_existing_counter field (c + v) v now2 w1 doc1)
      as (w2 & doc2 & Hrun2 & Hdoc2 & Hc2); try done; try lia.
    exists w1, w2. split; [done|]. split; [done|].
    unfold stored. rewrite Hdoc2. simpl. rewrite Hc2. do 2 f_equal. lia.
Qed.

Lemma increment_then_decrement_witness :
  ∃ w1 w2, increment_stat "totalPlaced" 3 5 zero_stats_world = Returned tt w1
           ∧ decrement_stat "totalPlaced" 3 6 w1 = Returned tt w2
           ∧ stored "totalPlaced" w2 = Some (VInt 0).
Proof.
  apply (increment_then_decrement "totalPlaced" 0 3 5 6 zero_stats_world
           (<["lastUpdated"%string := VTime 1]> {[ "totalPlaced"%string := VInt 0 ]}));
    [reflexivity | reflexivity | discriminate | lia | lia].
Defined.

(** X4 — The other order is no round trip: on a record whose [field] holds
    [c ≥ 0], [decrement_stat field v] with [v > 0] followed by
    [increment_stat field v] stores [max c v], since the decrement stops
    at 0. *)
Theorem decrement_then_increment (field : string) (c v now1 now2 : Z) (w : World)
    (doc : gmap string field_value) :
  dashboard (db w) = Some doc →
  doc !! field = Some (VInt c) →
  field ≠ "lastUpdated"%string →
  0 ≤ c → 0 < v →
  ∃ w1 w2, decrement_stat field v now1 w = Returned tt w1
           ∧ increment_stat field v now2 w1 = Returned tt w2
           ∧ stored field w2 = Some (VInt (Z.max c v)).
Proof.
  intros Hdoc Hc Hne Hc0 Hv.
  destruct (decrement_existing_counter field c v now1 w doc)
    as (w1 & doc1 & Hrun1 & Hdoc1 & Hc1); try done.
  destruct (increment_existing_counter field (Z.max 0 (c - v)) v now2 w1 doc1)
    as (w2 & doc2 & Hrun2 & Hdoc2 & Hc2); try done; try lia.
  exists w1, w2. split; [done|]. split; [done|].
  unfold stored. rewrite Hdoc2. simpl. rewrite Hc2. do 2 f_equal. lia.
Qed.

Lemma decrement_then_increment_witness :
  ∃ w1 w2, decrement_stat "totalPlaced" 3 5 zero_stats_world = Returned tt w1
           ∧ increment_stat "totalPlaced" 3 6 w1 = Returned tt w2
           ∧ stored "totalPlaced" w2 = Some (VInt 3).
Proof.
  apply (decrement_then_increment "totalPlaced" 0 3 5 6 zero_stats_world
           (<["lastUpdated"%string := VTime 1]> {[ "totalPlaced"%string := VInt 0 ]}));
    [reflexivity | reflexivity | discriminate | lia | lia].
Defined.

(** X5 — When [field] holds a value that is no number (a time stamp or
    [None]), [increment_stat field value] returns and stores
    [max 0 value]: an increment replaces the value by the amount, and the
    [TypeError] of [current_value + value] in the decrement branch ends in
    the handler that writes 0. *)
Theorem counter_on_non_number (field : string) (old : field_value) (value now : Z)
    (w : World) (doc : gmap string field_value) :
  dashboard (db w) = Some doc →
  doc !! field = Some old →
  (∀ c, old ≠ VInt c) →
  field ≠ "lastUpdated"%string →
  ∃ w', increment_stat field value now w = Returned tt w'
        ∧ stored field w' = Some (VInt (Z.max 0 value))
        ∧ stored "lastUpdated" w' = Some (VTime now).
Proof.
  intros Hdoc Hold Hnan Hne.
  destruct (Z.lt_ge_cases value 0) as [Hneg|Hpos].
  - rewrite (increment_stat_decr_type_error _ _ _ _ doc); [|done|done|by rewrite Hold].
    destruct (stats_set_merge_stored field (VInt 0) now w)
      as (w' & Hrun & _ & _ & Hstamp & Hfield & _).
    exists w'. split; [done|]. rewrite Z.max_l by lia. auto.
  - rewrite (increment_stat_incr_existing _ _ _ _ doc) by done.
    destruct (stats_update_stored field (Increment value) now w doc Hdoc)
      as (w' & Hrun & _ & _ & Hstamp & Hfield & _).
    exists w'. split; [done|]. split; [|done]. rewrite Hfield, Hold by done.
    rewrite Z.max_r by lia. destruct old; simpl; try done. by destruct (Hnan z).
Qed.

(** * Further properties of the rebuild *)

Lemma initialize_system_stats_record (now_updated now_initialized : Z) (w : World) :
  let record := rebuilt_record (db w) now_updated now_initialized in
  initialize_system_stats now_updated now_initialized w
  = Returned {| ir_success := true; ir_message := "System stats initialized";
                ir_stats := record |}
             {| db := set_dashboard (Some record) (db w);
                clock := clock w + 1;
                commits := commits w ++ [[OpSetStats false record]] |}.
Proof.
  unfold initialize_system_stats, rebuilt_record.
  rewrite bind_unfold. unfold read at 1.
  rewrite bind_unfold. unfold read at 1.
  rewrite bind_unfold. unfold read at 1.
  destruct (students_scan (map_to_list (students (db w))) (0, 0, 0))
    as [[placed not_placed] offers].
  rewrite bind_unfold, stats_set_run. reflexivity.
Qed.

Lemma students_scan_partition (l : list (string * Student)) (acc : Z * Z * Z) :
  (students_scan l acc).1.1 + (students_scan l acc).1.2
  = acc.1.1 + acc.1.2 + Z.of_nat (length l)
  ∧ acc.1.1 ≤ (students_scan l acc).1.1
  ∧ acc.1.2 ≤ (students_scan l acc).1.2.
Proof.
  revert acc. induction l as [|x l IH]; intros [[a b] c].
  - simpl. lia.
  - cbn [students_scan length]. destruct (bool_decide _).
    + specialize (IH (a + 1, b, c + default 0 (st_totalOffers x.2))).
      cbn [fst snd] in *. lia.
    + specialize (IH (a, b + 1, c + default 0 (st_totalOffers x.2))).
      cbn [fst snd] in *. lia.
Qed.

Lemma sum_status_bounds (l : list (string * Company)) :
  0 ≤ sum_status "completed" l ∧ 0 ≤ sum_status "running" l
  ∧ sum_status "completed" l + sum_status "running" l ≤ Z.of_nat (length l).
Proof.
  induction l as [|x l IH]; [simpl; lia|].
  cbn [sum_status length]. repeat case_bool_decide; try lia. congruence.
Qed.

Lemma rebuilt_record_keys (d : Db) (t1 t2 : Z) (k : string) :
  is_Some (rebuilt_record d t1 t2 !! k) ↔ k ∈ rebuilt_fields.
Proof.
  unfold rebuilt_record, rebuilt_fields. split.
  - intros [v Hv]. destruct (decide (k ∈ rebuilt_fields)) as [|Hn]; [done|].
    exfalso. unfold rebuilt_fields in Hn. rewrite !not_elem_of_cons in Hn.
    destruct Hn as (? & ? & ? & ? & ? & ? & ? & ? & ? & ? & _).
    rewrite !lookup_insert_ne in Hv by done.
    rewrite lookup_singleton_ne in Hv by done. discriminate.
  - intros Hk. repeat (apply elem_of_cons in Hk as [->|Hk]; [by eexists|]).
    by apply elem_of_nil in Hk.
Qed.

Lemma students_scan_offers (l : list (string * Student)) (acc : Z * Z * Z) :
  Forall (λ x, 0 ≤ default 0 (st_totalOffers x.2)) l →
  acc.2 ≤ (students_scan l acc).2.
Proof.
  intros Hall. revert acc. induction Hall as [|x l Hx _ IH]; intros [[a b] c].
  - simpl. lia.
  - cbn [students_scan]. destruct (bool_decide _).
    + specialize (IH (a + 1, b, c + default 0 (st_totalOffers x.2))).
      cbn [fst snd] in *. lia.
    + specialize (IH (a, b + 1, c + default 0 (st_totalOffers x.2))).
      cbn [fst snd] in *. lia.
Qed.

(** X6 — [initialize_system_stats] returns; the record it stores, which is
    the one it returns under ['stats'], has exactly the ten keys of
    [rebuilt_fields], and its counters are consistent:
    [totalPlaced + totalNotPlaced = totalStudents];
    [completedCompanies + runningCompanies ≤ totalCompanies]; the seven
    counts of documents are not negative; and [totalOffers], the sum of the
    students' [totalOffers], is not negative when none of these is. *)
Theorem rebuild_record_shape (now_updated now_initialized : Z) (w : World) :
  ∃ res w' years_n students_n placed not_placed companies_n completed running offers,
    initialize_system_stats now_updated now_initialized w = Returned res w'
    ∧ dashboard (db w') = Some (ir_stats res)
    ∧ (∀ k, is_Some (ir_stats res !! k) ↔ k ∈ rebuilt_fields)
    ∧ ir_stats res !! "totalYears"%string = Some (VInt years_n)
    ∧ ir_stats res !! "totalStudents"%string = Some (VInt students_n)
    ∧ ir_stats res !! "totalPlaced"%string = Some (VInt placed)
    ∧ ir_stats res !! "totalNotPlaced"%string = Some (VInt not_placed)
    ∧ ir_stats res !! "totalCompanies"%string = Some (VInt companies_n)
    ∧ ir_stats res !! "completedCompanies"%string = Some (VInt completed)
    ∧ ir_stats res !! "runningCompanies"%string = Some (VInt running)
    ∧ ir_stats res !! "totalOffers"%string = Some (VInt offers)
    ∧ placed + not_placed = students_n
    ∧ completed + running ≤ companies_n
    ∧ 0 ≤ years_n ∧ 0 ≤ students_n ∧ 0 ≤ placed ∧ 0 ≤ not_placed
    ∧ 0 ≤ companies_n ∧ 0 ≤ completed ∧ 0 ≤ running
    ∧ ((∀ k sd, students (db w) !! k = Some sd → 0 ≤ default 0 (st_totalOffers sd)) →
       0 ≤ offers).
Proof.
  pose proof (initialize_system_stats_record now_updated now_initialized w) as Hrun.
  simpl in Hrun.
  pose proof (students_scan_partition (map_to_list (students (db w))) (0, 0, 0)) as Hpart.
  pose proof (sum_status_bounds (map_to_list (companies (db w)))) as Hco.
  pose proof (students_scan_offers (map_to_list (students (db w))) (0, 0, 0)) as Hoffers.
  cbn [fst snd] in Hpart, Hoffers.
  eexists _, _, _, _, _, _, _, _, _, _. split; [exact Hrun|].
  cbn [db dashboard set_dashboard ir_stats].
  split; [reflexivity|]. split; [apply rebuilt_record_keys|].
  do 8 (split; [reflexivity|]).
  repeat (split; [lia|]). intros Hall. apply Hoffers.
  apply Forall_forall. intros [k sd] Hin%elem_of_map_to_list. by eapply Hall.
Qed.

(** X7 — A second [initialize_system_stats] right after the first returns
    the same counters: the two records differ at most under [lastUpdated]
    and [initializedAt], which hold the times of the second call, and nothing
    outside [systemStats/dashboard] has changed. *)
Theorem rebuild_twice (t1 t2 t3 t4 : Z) (w : World) :
  ∃ res1 w1 res2 w2,
    initialize_system_stats t1 t2 w = Returned res1 w1
    ∧ initialize_system_stats t3 t4 w1 = Returned res2 w2
    ∧ (∀ k, k ≠ "lastUpdated"%string → k ≠ "initializedAt"%string →
            ir_stats res2 !! k = ir_stats res1 !! k)
    ∧ ir_stats res2 !! "lastUpdated"%string = Some (VTime t3)
    ∧ ir_stats res2 !! "initializedAt"%string = Some (VTime t4)
    ∧ only_dashboard_changed w w2.
Proof.
  pose proof (initialize_system_stats_record t1 t2 w) as Hrun1. simpl in Hrun1.
  eexists _, _. 
  pose proof (initialize_system_stats_record t3 t4
    {| db := set_dashboard (Some (rebuilt_record (db w) t1 t2)) (db w);
       clock := clock w + 1;
       commits := commits w ++ [[OpSetStats false (rebuilt_record (db w) t1 t2)]] |})
    as Hrun2. simpl in Hrun2.
  eexists _, _. split; [exact Hrun1|]. split; [exact Hrun2|]. simpl.
  split; [|split; [reflexivity|split; [reflexivity|]]].
  - intros k Hu Hi. unfold rebuilt_record. simpl.
    by rewrite !(lookup_insert_ne _ "initializedAt"%string),
               !(lookup_insert_ne _ "lastUpdated"%string).
  - unfold only_dashboard_changed. simpl. by destruct (db w).
Qed.

(** * Further properties of the dashboard summary *)

Lemma build_company_wise_other (docs : list (string * Company))
    (acc : gmap string doc_value) (c : string) :
  c ∉ docs.*1 → build_company_wise docs acc !! c = acc !! c.
Proof.
  revert acc. induction docs as [|doc docs IH]; intros acc Hc; [done|].
  rewrite fmap_cons, not_elem_of_cons in Hc. destruct Hc as [Hne Hc].
  cbn [build_company_wise]. rewrite IH by done. by rewrite lookup_insert_ne.
Qed.

Lemma build_company_wise_member (docs : list (string * Company))
    (acc : gmap string doc_value) (c : string) (co : Company) :
  NoDup docs.*1 → (c, co) ∈ docs →
  build_company_wise docs acc !! c = Some (projected_entry co).
Proof.
  revert acc. induction docs as [|doc docs IH]; intros acc Hnd Hin.
  - by apply elem_of_nil in Hin.
  - rewrite fmap_cons in Hnd. apply NoDup_cons in Hnd as [Hfresh Hnd].
    cbn [build_company_wise]. apply elem_of_cons in Hin as [<-|Hin].
    + rewrite build_company_wise_other by done. apply lookup_insert_eq.
    + by apply IH.
Qed.

Lemma NoDup_fst_filter {A B} (P : A * B → Prop) `{!∀ x, Decision (P x)}
    (l : list (A * B)) :
  NoDup l.*1 → NoDup (filter P l).*1.
Proof.
  induction l as [|x l IH]; [done|]. rewrite fmap_cons.
  intros [Hx Hnd]%NoDup_cons. rewrite filter_cons. case_decide; [|by apply IH].
  rewrite fmap_cons. apply NoDup_cons. split; [|by apply IH].
  intros (y & Hy & Hin)%list_elem_of_fmap. apply Hx.
  apply list_elem_of_fmap. exists y. split; [done|].
  by apply list_elem_of_filter in Hin as [_ ?].
Qed.

Lemma companies_of_year_lookup (year : Z) (d : Db) (c : string) :
  build_company_wise (companies_of_year year d) ∅ !! c
  = match companies d !! c with
    | Some co => if decide (co_year co = Some year) then Some (projected_entry co) else None
    | None => None
    end.
Proof.
  unfold companies_of_year.
  assert (NoDup (filter (λ kv : string * Company, co_year kv.2 = Some year)
                   (map_to_list (companies d))).*1) as Hnd
    by apply NoDup_fst_filter, NoDup_fst_map_to_list.
  destruct (companies d !! c) as [co|] eqn:Hco.
  - case_decide as Hy.
    + apply build_company_wise_member; [done|].
      apply list_elem_of_filter. split; [done | by apply elem_of_map_to_list].
    + rewrite build_company_wise_other; [done|].
      intros ([c' co'] & -> & Hin)%list_elem_of_fmap.
      apply list_elem_of_filter in Hin as [Hy' Hin%elem_of_map_to_list].
      simpl in *. congruence.
  - rewrite build_company_wise_other; [done|].
    intros ([c' co'] & -> & Hin)%list_elem_of_fmap.
    apply list_elem_of_filter in Hin as [_ Hin%elem_of_map_to_list].
    simpl in *. congruence.
Qed.

(** X8 — Cold start: when the year document ["2026"] is absent or its
    [companyWise] is empty, [get_dashboard_summary] writes nothing and
    answers with a [companyWise] built from the companies whose [year] is
    2026, one entry per such company with [companyName], [placed] and
    [status] defaulted to ['Unknown'], [0] and ['unknown']; it counts
    2 reads, plus one per such company, plus one per recent company. *)
Theorem dashboard_cold_start
    (query : gmap string Company → list (string * Company)) (w : World) :
  default ∅ (yr_companyWise <$> years (db w) !! "2026"%string) = ∅ →
  ∃ s, get_dashboard_summary query w = Returned s w
       ∧ (∀ c, ly_companyWise (latestYear s) !! c
               = match companies (db w) !! c with
                 | Some co =>
                     if decide (co_year co = Some 2026)
                     then Some (projected_entry co) else None
                 | None => None
                 end)
       ∧ firestore_reads s
         = (2 + length (companies_of_year 2026 (db w))
            + length (query (companies (db w))))%nat.
Proof.
  intros Hempty. rewrite get_dashboard_summary_run. eexists. split; [reflexivity|].
  unfold summary_of.
  assert (ly_companyWise (latest_year_of (years (db w) !! "2026"%string)) = ∅) as ->.
  { by destruct (years (db w) !! "2026"%string). }
  rewrite bool_decide_eq_true_2 by done. cbn [latestYear firestore_reads].
  split; [|reflexivity]. intros c. cbn [with_companyWise ly_companyWise].
  apply companies_of_year_lookup.
Qed.

Lemma dashboard_cold_start_witness :
  ∃ s, get_dashboard_summary (λ _, []) acme_world = Returned s acme_world
       ∧ ly_companyWise (latestYear s) !! "acme-2025"%string = None
       ∧ firestore_reads s = 2%nat.
Proof.
  destruct (dashboard_cold_start (λ _, []) acme_world eq_refl) as (s & Hrun & Hcw & Hreads).
  exists s. split; [exact Hrun|]. split; [by rewrite Hcw | by rewrite Hreads].
Defined.

(** X9 — Steady state: when the year document ["2026"] has a [companyWise]
    that is not empty, [get_dashboard_summary] writes nothing, answers with
    that [companyWise] and [totalPlaced] as stored, and counts 2 reads plus
    one per recent company: at most 7 when the query keeps its limit
    of 5. *)
Theorem dashboard_steady_state
    (query : gmap string Company → list (string * Company)) (w : World) (y : Year) :
  years (db w) !! "2026"%string = Some y →
  yr_companyWise y ≠ ∅ →
  (length (query (companies (db w))) ≤ 5)%nat →
  ∃ s, get_dashboard_summary query w = Returned s w
       ∧ ly_companyWise (latestYear s) = yr_companyWise y
       ∧ ly_totalPlaced (latestYear s) = yr_totalPlaced y
       ∧ recentCompanies s = query (companies (db w))
       ∧ firestore_reads s = (2 + length (query (companies (db w))))%nat
       ∧ (firestore_reads s ≤ 7)%nat.
Proof.
  intros Hy Hne Hlimit. rewrite get_dashboard_summary_run. eexists. split; [reflexivity|].
  unfold summary_of. rewrite Hy. cbn [latest_year_of ly_companyWise].
  rewrite bool_decide_eq_false_2 by done.
  cbn [latestYear firestore_reads recentCompanies ly_companyWise ly_totalPlaced].
  repeat split; lia.
Qed.

(** X10 — The dashboard after a rebuild: [initialize_system_stats]
    followed by [get_dashboard_summary] shows under ['counts'] and ['stats']
    the numbers of a full scan of the collections as they were before the
    rebuild. *)
Theorem summary_after_rebuild
    (query : gmap string Company → list (string * Company)) (t1 t2 : Z) (w : World) :
  ∃ res w' s,
    initialize_system_stats t1 t2 w = Returned res w'
    ∧ get_dashboard_summary query w' = Returned s w'
    ∧ counts_years s = VInt (Z.of_nat (rc_totalYears (full_scan (db w))))
    ∧ counts_companies s = VInt (Z.of_nat (rc_totalCompanies (full_scan (db w))))
    ∧ counts_students s = VInt (Z.of_nat (rc_totalStudents (full_scan (db w))))
    ∧ stats_totalCompanies s = VInt (Z.of_nat (rc_totalCompanies (full_scan (db w))))
    ∧ stats_completedCompanies s
      = VInt (Z.of_nat (rc_completedCompanies (full_scan (db w))))
    ∧ stats_runningCompanies s = VInt (Z.of_nat (rc_runningCompanies (full_scan (db w))))
    ∧ stats_totalPlaced s = VInt (Z.of_nat (rc_totalPlaced (full_scan (db w)))).
Proof.
  pose proof (initialize_system_stats_record t1 t2 w) as Hrun. simpl in Hrun.
  eexists _, _, _. split; [exact Hrun|].
  split; [apply get_dashboard_summary_run|].
  unfold summary_of, full_scan, rebuilt_record.
  cbn [db dashboard set_dashboard default counts_years counts_companies counts_students
       stats_totalCompanies stats_completedCompanies stats_runningCompanies
       stats_totalPlaced rc_totalYears rc_totalCompanies rc_totalStudents
       rc_completedCompanies rc_runningCompanies rc_totalPlaced].
  rewrite !length_map_to_list, !sum_status_scan, students_scan_full.
  cbn [fst snd]. rewrite Z.add_0_l. repeat split; reflexivity.
Qed.

(** * Further properties of the cascade *)

(** ** Runs that return or raise *)

Lemma apply_op_round_data (ts : Z) (op : write_op) (d d' : Db) :
  apply_op ts op d = Some d' →
  round_data d' = match round_data_target op with
                  | Some k => delete k (round_data d)
                  | None => round_data d
                  end.
Proof.
  destruct op as [[]| | | |[]]; simpl;
    repeat (case_match; simpl); intros ?; simplify_eq; done.
Qed.

Lemma steps_rows_within (d d' : Db) (ops : list write_op)
    (k : string * string * string) (row : RoundData) :
  steps d ops d' → round_data d' !! k = Some row → round_data d !! k = Some row.
Proof.
  induction 1 as [d|ts op d d1 ops d2 Hop _ IH]; [done|].
  intros Hk. specialize (IH Hk). rewrite (apply_op_round_data _ _ _ _ Hop) in IH.
  destruct (round_data_target op); [|done].
  by apply lookup_delete_Some in IH as [_ ?].
Qed.

Lemma rows_within_steps (d0 : Db) (w w' : World) (ops : list write_op) :
  rows_within d0 w → steps (db w) ops (db w') → rows_within d0 w'.
Proof.
  intros Hw Hsteps k row Hk. apply Hw. by eapply steps_rows_within.
Qed.

Lemma bind_outcome {A B} (m : M A) (k : A → M B) (w : World) :
  (∃ a w1, m w = Returned a w1 ∧ (m ≫= k) w = k a w1)
  ∨ (∃ e w1, m w = Raised e w1 ∧ (m ≫= k) w = Raised e w1).
Proof.
  rewrite bind_unfold. destruct (m w) as [a w1|e w1]; [left|right]; eauto.
Qed.

Section RunInv.
Context {A B : Type}.
Variable Q : write_op → Prop.

Lemma run_inv_ret (queue : A → list write_op) (w : World) (a : A) :
  Forall Q (queue a) → run_inv Q queue w (Returned a w).
Proof.
  intros Hq. exists []. simpl. rewrite app_nil_r.
  repeat split; [constructor | constructor | done].
Qed.

Lemma run_inv_bind (qA : A → list write_op) (qB : B → list write_op)
    (m : M A) (k : A → M B) (w : World) :
  run_inv Q qA w (m w) →
  (∀ a w1 ops, m w = Returned a w1 → Forall Q (qA a) → steps (db w) ops (db w1) →
               run_inv Q qB w1 (k a w1)) →
  run_inv Q qB w ((m ≫= k) w).
Proof.
  intros (n1 & Hlog1 & Hsteps1 & Hq1 & Hres1) Hk.
  destruct (bind_outcome m k w) as [(a & w1 & Hm & ->)|(e & w1 & Hm & ->)];
    rewrite Hm in *; simpl in *.
  - destruct (Hk a w1 (concat n1) eq_refl Hres1 Hsteps1)
      as (n2 & Hlog2 & Hsteps2 & Hq2 & Hres2).
    exists (n1 ++ n2). rewrite concat_app. split; [|split; [|split]].
    + by rewrite Hlog2, Hlog1, (assoc_L (++)).
    + by eapply steps_app.
    + by apply Forall_app.
    + exact Hres2.
  - exists n1. auto.
Qed.
End RunInv.

Lemma commit_if_full_any (Q : write_op → Prop) (l : Locals) (w : World) :
  Forall Q (batch l) → run_inv Q batch w (commit_if_full l w).
Proof.
  intros Hq. unfold commit_if_full. destruct (_ <=? _)%nat; [|by apply run_inv_ret].
  rewrite bind_unfold. unfold do_commit.
  destruct (commit (batch l) w) as [w'|] eqn:Hcommit.
  - apply commit_inv in Hcommit as (Happly & Hlog & _).
    exists [batch l]. simpl. rewrite app_nil_r.
    split; [done|]. split; [by eapply apply_ops_steps|]. split; [done | constructor].
  - exists []. simpl. rewrite app_nil_r. repeat split; constructor.
Qed.

Lemma data_loop_any (Q : write_op → Prop) (docs : list doc_ref) (l : Locals) (w : World) :
  Forall (λ ref, Q (OpDelete ref)) docs →
  Forall Q (batch l) →
  run_inv Q batch w (data_loop docs l w).
Proof.
  intros Hdocs. revert l w. induction Hdocs as [|ref docs Href _ IH]; intros l w Hq.
  - by apply run_inv_ret.
  - cbn [data_loop]. eapply run_inv_bind.
    + apply commit_if_full_any. simpl. apply Forall_app. split; [done|].
      by constructor.
    + intros l1 w1 ops _ Hq1 _. by apply IH.
Qed.

Lemma data_query_rows (c r sid : string) (d : Db) (ref : doc_ref) :
  ref ∈ data_query c r sid d →
  ∃ x row, ref = round_data_doc c r x
           ∧ round_data d !! (c, r, x) = Some row
           ∧ rd_studentId row = Some sid.
Proof.
  unfold data_query. intros Hin%elem_of_take.
  destruct Hin as (i & Hin & _). apply list_elem_of_lookup_2 in Hin.
  apply list_elem_of_omap in Hin as ([[[c' r'] x] row] & Hkv & Hsome).
  simpl in Hsome. case_decide as Hmatch; [|discriminate].
  destruct Hmatch as (-> & -> & Hsid). injection Hsome as <-.
  apply elem_of_map_to_list in Hkv. eauto.
Qed.

Section CompanyPhase.
Variables (d0 : Db) (sid : string).

Lemma rounds_loop_any (c : string) (rs : list string) (l : Locals) (w : World) :
  rows_within d0 w →
  Forall (company_phase_op d0 sid) (batch l) →
  run_inv (company_phase_op d0 sid) batch w (rounds_loop sid c rs l w).
Proof.
  revert l w. induction rs as [|r rs IH]; intros l w Hrows Hq.
  - by apply run_inv_ret.
  - cbn [rounds_loop]. rewrite bind_unfold. unfold read at 1.
    eapply run_inv_bind.
    + apply data_loop_any; [|done]. apply Forall_forall. intros ref Href.
      apply data_query_rows in Href as (x & row & -> & Hrow & Hsid).
      exists row. split; [by apply Hrows | done].
    + intros l1 w1 ops _ Hq1 Hsteps. apply IH; [|done].
      by eapply rows_within_steps.
Qed.

Lemma company_step_any (entry : string * CompanyInfo) (l : Locals) (w : World) :
  rows_within d0 w →
  Forall (company_phase_op d0 sid) (batch l) →
  run_inv (company_phase_op d0 sid) batch w (company_step sid entry l w).
Proof.
  intros Hrows Hq. unfold company_step. rewrite bind_unfold. unfold read at 1.
  eapply run_inv_bind.
  - apply rounds_loop_any; [done|].
    destruct (ci_finalSelection entry.2), (truthy (ci_year entry.2)); simpl; try done;
      apply Forall_app; (split; [done|]); by constructor.
  - intros l1 w1 ops _ Hq1 _. apply commit_if_full_any. simpl.
    apply Forall_app. split; [done|]. by constructor.
Qed.

Lemma company_loop_any (items : list (string * CompanyInfo)) (l : Locals) (w : World) :
  rows_within d0 w →
  Forall (company_phase_op d0 sid) (batch l) →
  run_inv (company_phase_op d0 sid) batch w (company_loop sid items l w).
Proof.
  revert l w. induction items as [|entry items IH]; intros l w Hrows Hq.
  - by apply run_inv_ret.
  - cbn [company_loop]. eapply run_inv_bind.
    + by apply company_step_any.
    + intros l1 w1 ops _ Hq1 Hsteps. apply IH; [|done].
      by eapply rows_within_steps.
Qed.
End CompanyPhase.

(** ** What any run of the cascade leaves alone *)

(** A part of the store that the operations satisfying [Q] do not write. *)
Section Unchanged.
Context {X : Type}.
Variable proj : Db → X.
Variable Q : write_op → Prop.
Hypothesis untouched : ∀ ts op d d',
  Q op → apply_op ts op d = Some d' → proj d' = proj d.

Lemma steps_unchanged (d d' : Db) (ops : list write_op) :
  steps d ops d' → Forall Q ops → proj d' = proj d.
Proof.
  induction 1 as [d|ts op d d1 ops d2 Hop _ IH]; [done|].
  intros [Hq Hrest]%Forall_cons. rewrite IH by done. by eapply untouched.
Qed.
End Unchanged.

Lemma cascade_op_rounds (d0 : Db) (sid : string) (ts : Z) (op : write_op) (d d' : Db) :
  cascade_op d0 sid op → apply_op ts op d = Some d' → rounds d' = rounds d.
Proof.
  intros _. destruct op as [[]| | | |[]]; simpl;
    repeat (case_match; simpl); intros ?; simplify_eq; done.
Qed.

Lemma cascade_op_dashboard (d0 : Db) (sid : string) (ts : Z) (op : write_op) (d d' : Db) :
  cascade_op d0 sid op → apply_op ts op d = Some d' → dashboard d' = dashboard d.
Proof.
  intros [Hq|[(y & u & ->)| ->]].
  - destruct op as [[]| | | |[]]; simpl in *; try done;
      repeat (case_match; simpl); intros ?; simplify_eq; done.
  - simpl. case_match; intros ?; simplify_eq; done.
  - simpl. intros ?; simplify_eq; done.
Qed.



Lemma company_phase_is_cascade_op (d0 : Db) (sid : string) (ops : list write_op) :
  Forall (company_phase_op d0 sid) ops → Forall (cascade_op d0 sid) ops.
Proof. intros H. eapply Forall_impl; [exact H|]. intros op Hop. by left. Qed.

(** The three ways in which the cascade of an existing student ends. *)
Lemma cascade_cases (sid : string) (sd : Student) (w : World) :
  students (db w) !! sid = Some sd →
  delete_student_cascade sid w
  = match company_loop sid (st_companyStatus sd) (initial_locals sd) w with
    | Raised e w1 => Raised e w1
    | Returned l1 w1 =>
        match commit (final_batch sid sd l1) w1 with
        | None => Raised StoreError w1
        | Some w2 =>
            Returned (build_result sid sd (stats l1))
              {| db := apply_delete (students_doc sid) (db w2);
                 clock := clock w2 + 1;
                 commits := commits w2 ++ [[OpDelete (students_doc sid)]] |}
        end
    end.
Proof.
  intros Hsd. unfold delete_student_cascade.
  rewrite bind_unfold. unfold read. rewrite Hsd.
  rewrite bind_unfold. unfold cascade_main. rewrite bind_unfold.
  fold (initial_locals sd).
  destruct (company_loop sid (st_companyStatus sd) (initial_locals sd) w) as [l1 w1|e w1];
    [|reflexivity].
  destruct (year_loop_inv (elements (yearsAffected (stats l1)))
              (st_companyStatus sd) l1) as [Hbatch Hstats].
  cbn [enqueue batch operation_count stats Nat.ltb Nat.leb].
  rewrite bind_unfold. unfold do_commit at 1. rewrite Hbatch, Hstats.
  unfold final_batch. rewrite <- (assoc_L (++)).
  destruct (commit _ w1) as [w2|]; reflexivity.
Qed.

(** Every run of the cascade on an existing student, whatever its outcome. *)
Lemma cascade_any (sid : string) (sd : Student) (w : World) :
  students (db w) !! sid = Some sd →
  ∃ new, commits (world_of (delete_student_cascade sid w)) = commits w ++ new
         ∧ steps (db w) (concat new) (db (world_of (delete_student_cascade sid w)))
         ∧ Forall (cascade_op (db w) sid) (concat new)
         ∧ match delete_student_cascade sid w with
           | Returned _ _ => True
           | Raised e _ =>
               e = StoreError ∧ Forall (company_phase_op (db w) sid) (concat new)
           end.
Proof.
  intros Hsd. rewrite (cascade_cases sid sd w Hsd).
  destruct (company_loop_any (db w) sid (st_companyStatus sd) (initial_locals sd) w)
    as (n1 & Hlog1 & Hsteps1 & Hq1 & Hres1); [by intros ?? | constructor |].
  destruct (company_loop _ _ _ w) as [l1 w1|e w1]; simpl in Hlog1, Hsteps1, Hres1.
  - destruct (commit _ w1) as [w2|] eqn:Hcommit; simpl.
    + apply commit_inv in Hcommit as (Happly & Hlog2 & _).
      apply apply_ops_steps in Happly.
      exists (n1 ++ [final_batch sid sd l1] ++ [[OpDelete (students_doc sid)]]).
      rewrite !concat_app. simpl. rewrite !app_nil_r.
      split; [by rewrite Hlog2, Hlog1, <- !(assoc_L (++))|].
      split.
      { eapply steps_app; [exact Hsteps1|]. eapply steps_app; [exact Happly|].
        eapply (steps_cons (clock w2)); [reflexivity | constructor]. }
      split; [|done]. unfold final_batch.
      rewrite !Forall_app. repeat split.
      * by apply company_phase_is_cascade_op.
      * by apply company_phase_is_cascade_op.
      * apply Forall_fmap, Forall_forall. intros y _. right. left. by eexists _, _.
      * constructor; [|constructor]. right. by right.
      * constructor; [|constructor]. right. by right.
    + exists n1. repeat split; try done. by apply company_phase_is_cascade_op.
  - subst e. exists n1. repeat split; try done.
    by apply company_phase_is_cascade_op.
Qed.

Lemma cascade_absent (sid : string) (w : World) :
  students (db w) !! sid = None →
  delete_student_cascade sid w = Raised (ValueError sid) w.
Proof.
  intros Hnone. unfold delete_student_cascade.
  rewrite bind_unfold. unfold read. by rewrite Hnone.
Qed.

(** X11 — Whatever the outcome of [delete_student_cascade] (returned or
    raised), the world it leaves has every other student document, every
    placement of another student, every row of round data that is not of
    this student, the [rounds] collection and [systemStats/dashboard] as
    they were: the cascade never touches the dashboard counters. *)
Theorem cascade_spares_others (sid : string) (w : World) :
  let w' := world_of (delete_student_cascade sid w) in
  (∀ s, s ≠ sid → students (db w') !! s = students (db w) !! s)
  ∧ (∀ c s, s ≠ sid → placements (db w') !! (c, s) = placements (db w) !! (c, s))
  ∧ (∀ k row, round_data (db w) !! k = Some row → rd_studentId row ≠ Some sid →
              round_data (db w') !! k = Some row)
  ∧ rounds (db w') = rounds (db w)
  ∧ dashboard (db w') = dashboard (db w).
Proof.
  destruct (students (db w) !! sid) as [sd|] eqn:Hsd.
  - destruct (cascade_any sid sd w Hsd) as (new & _ & Hsteps & Hops & _).
    simpl. set (w' := world_of _) in *. clearbody w'.
    rewrite Forall_forall in Hops. split; [|split; [|split; [|split]]].
    + intros s Hs.
      eapply (steps_kept students student_target apply_op_students); [exact Hsteps|].
      intros op Hin Htarget. destruct op as [[s0| |]| | | |]; try discriminate.
      injection Htarget as ->.
      destruct (Hops _ Hin) as [Hq|[(y & u & Heq)|Heq]]; [done|done|]. congruence.
    + intros c s Hs.
      eapply (steps_kept placements placement_target apply_op_placements);
        [exact Hsteps|].
      intros op Hin Htarget. destruct op as [[|c0 s0|]| | | |]; try discriminate.
      injection Htarget as -> ->.
      destruct (Hops _ Hin) as [Hq|[(y & u & Heq)|Heq]]; [done|done|done].
    + intros k row Hrow Hother. rewrite <- Hrow.
      eapply (steps_kept round_data round_data_target apply_op_round_data);
        [exact Hsteps|].
      intros op Hin Htarget. destruct op as [[| |c0 r0 x0]| | | |]; try discriminate.
      injection Htarget as <-.
      destruct (Hops _ Hin) as [(row0 & Hrow0 & Hsid)|[(y & u & Heq)|Heq]]; [|done|done].
      congruence.
    + eapply (steps_unchanged rounds (cascade_op (db w) sid)); [|exact Hsteps|].
      * intros ts op d d'. apply cascade_op_rounds.
      * by apply Forall_forall.
    + eapply (steps_unchanged dashboard (cascade_op (db w) sid)); [|exact Hsteps|].
      * intros ts op d d'. apply cascade_op_dashboard.
      * by apply Forall_forall.
  - rewrite (cascade_absent sid w Hsd). simpl. repeat split; auto.
Qed.


(** ** What a cascade that returns leaves alone *)

Lemma apply_op_company_other (ts : Z) (op : write_op) (d d' : Db) (c : string) :
  (∀ u, op ≠ OpUpdateCompany c u) →
  apply_op ts op d = Some d' →
  companies d' !! c = companies d !! c.
Proof.
  intros Hop. destruct op as [[]|c0 u| | |[]]; simpl;
    repeat (case_match; simpl); intros ?; simplify_eq; try done.
  apply lookup_insert_ne. intros ->. by apply (Hop u).
Qed.

Lemma apply_op_year_other (ts : Z) (op : write_op) (d d' : Db) (y : string) :
  (∀ u, op ≠ OpUpdateYear y u) →
  apply_op ts op d = Some d' →
  years d' !! y = years d !! y.
Proof.
  intros Hop. destruct op as [[]| |y0 u| |[]]; simpl;
    repeat (case_match; simpl); intros ?; simplify_eq; try done.
  apply lookup_insert_ne. intros ->. by apply (Hop u).
Qed.

Lemma steps_company_other (d d' : Db) (ops : list write_op) (c : string) :
  steps d ops d' →
  (∀ u, OpUpdateCompany c u ∉ ops) →
  companies d' !! c = companies d !! c.
Proof.
  induction 1 as [d|ts op d d1 ops d2 Hop _ IH]; [done|].
  intros Hnone. rewrite IH.
  - eapply apply_op_company_other; [|exact Hop]. intros u ->. apply (Hnone u). by left.
  - intros u Hin. apply (Hnone u). by right.
Qed.

Lemma steps_year_other (d d' : Db) (ops : list write_op) (y : string) :
  steps d ops d' →
  (∀ u, OpUpdateYear y u ∉ ops) →
  years d' !! y = years d !! y.
Proof.
  induction 1 as [d|ts op d d1 ops d2 Hop _ IH]; [done|].
  intros Hnone. rewrite IH.
  - eapply apply_op_year_other; [|exact Hop]. intros u ->. apply (Hnone u). by left.
  - intros u Hin. apply (Hnone u). by right.
Qed.

Lemma apply_op_company_identity (ts : Z) (op : write_op) (d d' : Db) (c : string) :
  apply_op ts op d = Some d' →
  company_identity <$> companies d' !! c = company_identity <$> companies d !! c.
Proof.
  intros Hop.
  assert ((∃ u, op = OpUpdateCompany c u) ∨ ∀ u, op ≠ OpUpdateCompany c u) as [[u ->]|Hother].
  { destruct op as [|c0 u| | |]; try (by right).
    destruct (decide (c0 = c)) as [->|Hne]; [left; by exists u | right; congruence]. }
  - cbn [apply_op] in Hop. destruct (companies d !! c) as [x|] eqn:Hx; [|discriminate].
    injection Hop as <-. cbn [set_companies companies].
    by rewrite lookup_insert_eq.
  - by erewrite apply_op_company_other.
Qed.

Lemma steps_company_identity (d d' : Db) (ops : list write_op) (c : string) :
  steps d ops d' →
  company_identity <$> companies d' !! c = company_identity <$> companies d !! c.
Proof.
  induction 1 as [d|ts op d d1 ops d2 Hop _ IH]; [done|].
  rewrite IH. by eapply apply_op_company_identity.
Qed.

(** X: frame of a returned cascade *)
Lemma cascade_students (sid : string) (w w' : World) (r : json) :
  delete_student_cascade sid w = Returned r w' →
  students (db w') = delete sid (students (db w)).
Proof.
  intros Hrun.
  destruct (cascade_trace _ _ _ _ Hrun)
    as (sd & s & w1 & new & final & Hsd & _ & _ & _ & _ & _ & _
        & Hsteps & Hkeep & Hcounts).
  set (items := st_companyStatus sd) in *.
  set (ops := concat (new ++ [final])) in *.
  assert (∀ op, keeps op → op ∈ ops → op ∈ cascade_ops sid items (elements (yearsAffected s)))
    as Hmem.
  { intros op Hop Hin. rewrite <- Hkeep. by apply list_elem_of_filter. }
  apply map_eq. intros s0. destruct (decide (s0 = sid)) as [->|Hne].
  - rewrite lookup_delete_eq.
    eapply (steps_deleted students student_target apply_op_students); [exact Hsteps|].
    exists (OpDelete (students_doc sid)). split; [|done].
    assert (OpDelete (students_doc sid) ∈ filter keeps ops) as Hin.
    { rewrite Hkeep. unfold cascade_ops. rewrite !elem_of_app. right. right. by left. }
    by apply list_elem_of_filter in Hin as [_ ?].
  - rewrite lookup_delete_ne by done.
    eapply (steps_kept students student_target apply_op_students); [exact Hsteps|].
    intros op Hin Htarget. destruct op as [[s1| |]| | | |]; try discriminate.
    injection Htarget as ->. apply Hmem in Hin; [|done].
    unfold cascade_ops in Hin. rewrite !elem_of_app in Hin.
    destruct Hin as [Hin|[Hin|Hin]].
    + apply list_elem_of_In, in_flat_map in Hin as (e & _ & Hin).
      apply list_elem_of_In in Hin. unfold company_ops in Hin.
      apply elem_of_app in Hin as [Hin|Hin].
      * destruct (ci_finalSelection e.2); [|by apply elem_of_nil in Hin].
        by apply list_elem_of_singleton in Hin.
      * by apply list_elem_of_singleton in Hin.
    + by apply list_elem_of_fmap in Hin as (y & ? & _).
    + apply list_elem_of_singleton in Hin. congruence.
Qed.

(** X13 — A cascade that returns: the [students] collection is the one
    before without [student_id]; a company that [companyStatus] does not
    name is unchanged; of every company the name, year and status are
    unchanged; a year document that is not the one of a year of
    [companyStatus] is unchanged. *)
Theorem cascade_frame (sid : string) (sd : Student) (w w' : World) (r : json) :
  students (db w) !! sid = Some sd →
  delete_student_cascade sid w = Returned r w' →
  students (db w') = delete sid (students (db w))
  ∧ (∀ c, c ∉ (st_companyStatus sd).*1 → companies (db w') !! c = companies (db w) !! c)
  ∧ (∀ c, company_identity <$> companies (db w') !! c
          = company_identity <$> companies (db w) !! c)
  ∧ (∀ k, (∀ y, affected (st_companyStatus sd) y → k ≠ pretty y) →
          years (db w') !! k = years (db w) !! k).
Proof.
  intros Hsd Hrun.
  destruct (cascade_trace _ _ _ _ Hrun)
    as (sd' & s & w1 & new & final & Hsd' & _ & _ & _ & _ & _ & _
        & Hsteps & Hkeep & Hcounts).
  rewrite Hsd in Hsd'. injection Hsd' as <-.
  set (items := st_companyStatus sd) in *.
  set (ops := concat (new ++ [final])) in *.
  assert (∀ op, keeps op → op ∈ ops → op ∈ cascade_ops sid items (elements (yearsAffected s)))
    as Hmem.
  { intros op Hop Hin. rewrite <- Hkeep. by apply list_elem_of_filter. }
  split; [|split; [|split]].
  - by eapply cascade_students.
  - intros c Hc. eapply steps_company_other; [exact Hsteps|].
    intros u Hin. apply Hmem in Hin; [|done].
    unfold cascade_ops in Hin. rewrite !elem_of_app in Hin.
    destruct Hin as [Hin|[Hin|Hin]].
    + apply list_elem_of_In, in_flat_map in Hin as (e & He & Hin).
      apply list_elem_of_In in Hin. apply list_elem_of_In in He.
      unfold company_ops in Hin. apply elem_of_app in Hin as [Hin|Hin].
      * destruct (ci_finalSelection e.2); [|by apply elem_of_nil in Hin].
        by apply list_elem_of_singleton in Hin.
      * apply list_elem_of_singleton in Hin. injection Hin as -> _.
        apply Hc. by apply list_elem_of_fmap_2.
    + by apply list_elem_of_fmap in Hin as (y & ? & _).
    + by apply list_elem_of_singleton in Hin.
  - intros c. by eapply steps_company_identity.
  - intros k Hk. eapply steps_year_other; [exact Hsteps|].
    intros u Hin. apply Hmem in Hin; [|done].
    unfold cascade_ops in Hin. rewrite !elem_of_app in Hin.
    destruct Hin as [Hin|[Hin|Hin]].
    + apply list_elem_of_In, in_flat_map in Hin as (e & _ & Hin).
      apply list_elem_of_In in Hin. unfold company_ops in Hin.
      apply elem_of_app in Hin as [Hin|Hin].
      * destruct (ci_finalSelection e.2); [|by apply elem_of_nil in Hin].
        by apply list_elem_of_singleton in Hin.
      * by apply list_elem_of_singleton in Hin.
    + apply list_elem_of_fmap in Hin as (y & Heq & Hy). injection Heq as -> _.
      apply (Hk y); [|done].
      apply elem_of_elements in Hy. destruct Hcounts as (_ & _ & Hys & _).
      rewrite Hys in Hy.
      destruct (counts_after_spec items
                  (set_totalOffers (default 0 (st_totalOffers sd)) initial_stats))
        as (_ & _ & Hspec).
      apply Hspec in Hy as [Hy|Hy]; [done|]. by apply elem_of_empty in Hy.
    + by apply list_elem_of_singleton in Hin.
Qed.

(** X14 — Empty [companyStatus]: the cascade of such a student returns the
    summary with four zeros, the log grows by two batches of one deletion of
    the student document each, the clock advances by 2, and the store loses
    the student document only. *)
Theorem cascade_without_companies (sid : string) (sd : Student) (w : World) :
  students (db w) !! sid = Some sd →
  st_companyStatus sd = [] →
  delete_student_cascade sid w
  = Returned
      (JObj [ ("message", JStr "Student deleted successfully");
              ("studentId", JStr sid);
              ("studentName", JStr (default "Unknown" (st_name sd)));
              ("cascadingUpdates",
                JObj [ ("companiesAffected", JInt 0); ("roundsDeleted", JInt 0);
                       ("placementsDeleted", JInt 0); ("yearsAffected", JInt 0) ]) ]%string)
      {| db := set_students (delete sid) (db w);
         clock := clock w + 2;
         commits := commits w ++ [[OpDelete (students_doc sid)];
                                  [OpDelete (students_doc sid)]] |}.
Proof.
  intros Hsd Hempty. rewrite (cascade_cases sid sd w Hsd), Hempty.
  cbn [company_loop ret]. unfold final_batch, initial_locals.
  cbn [batch stats set_totalOffers initial_stats yearsAffected].
  rewrite elements_empty. cbn [fmap list_fmap app].
  unfold commit. cbn [apply_ops apply_op apply_delete].
  unfold build_result.
  cbn [companiesAffected roundsDeleted placementsDeleted yearsAffected
       set_totalOffers initial_stats db clock commits].
  rewrite size_empty. f_equal. f_equal.
  - unfold set_students. cbn [students companies placements rounds round_data years dashboard].
    f_equal. apply delete_delete_eq.
  - lia.
  - by rewrite <- (assoc_L (++)).
Qed.

(** ** When the cascade returns *)













(** ** Accounting: batch sizes and the count of deleted rows *)

Lemma round_data_deletes_app (ops1 ops2 : list write_op) :
  round_data_deletes (ops1 ++ ops2)
  = (round_data_deletes ops1 + round_data_deletes ops2)%nat.
Proof. unfold round_data_deletes. by rewrite filter_app, length_app. Qed.

Lemma accounted_refl (bound : nat) (w : World) (l : Locals) :
  operation_count l = length (batch l) → (length (batch l) ≤ bound)%nat →
  accounted bound w l w l.
Proof.
  intros Hcount Hlen. exists [], []. simpl. rewrite !app_nil_r.
  repeat split; try done; unfold round_data_deletes; simpl; lia.
Qed.

Lemma accounted_trans (b1 b2 : nat) (w w1 w2 : World) (l l1 l2 : Locals) :
  accounted b1 w l w1 l1 → accounted b2 w1 l1 w2 l2 → accounted b2 w l w2 l2.
Proof.
  intros (n1 & o1 & Hlog1 & Hfull1 & Hq1 & _ & _ & Hr1)
         (n2 & o2 & Hlog2 & Hfull2 & Hq2 & Hcount & Hlen & Hr2).
  exists (n1 ++ n2), (o1 ++ o2). rewrite concat_app, round_data_deletes_app.
  split; [by rewrite Hlog2, Hlog1, (assoc_L (++))|].
  split; [by apply Forall_app|]. split; [|split; [done|split; [done|lia]]].
  rewrite <- (assoc_L (++)), Hq2, (assoc_L (++)), Hq1, <- (assoc_L (++)). done.
Qed.

Lemma accounted_weaken (b1 b2 : nat) (w w' : World) (l l' : Locals) :
  (b1 ≤ b2)%nat → accounted b1 w l w' l' → accounted b2 w l w' l'.
Proof.
  intros Hle (n & o & Hlog & Hfull & Hq & Hcount & Hlen & Hr).
  exists n, o. repeat split; try done; lia.
Qed.

Lemma accounted_local (bound : nat) (w : World) (l l0 : Locals) (ops : list write_op) :
  batch l0 = batch l ++ ops →
  operation_count l0 = length (batch l0) →
  (length (batch l0) ≤ bound)%nat →
  roundsDeleted (stats l0) = (roundsDeleted (stats l) + round_data_deletes ops)%nat →
  accounted bound w l w l0.
Proof.
  intros Hq Hcount Hlen Hr. exists [], ops. simpl. rewrite app_nil_r.
  repeat split; done.
Qed.

Lemma accounted_enqueue (w : World) (l : Locals) (op : write_op)
    (f : CascadeStats → CascadeStats) :
  operation_count l = length (batch l) →
  roundsDeleted (f (stats l))
  = (roundsDeleted (stats l) + round_data_deletes [op])%nat →
  accounted (S (length (batch l))) w l w (with_stats f (enqueue op l)).
Proof.
  intros Hcount Hr. exists [], [op]. simpl. rewrite app_nil_r.
  repeat split; try done; rewrite length_app; simpl; lia.
Qed.

Lemma commit_if_full_acc (l l' : Locals) (w w' : World) :
  commit_if_full l w = Returned l' w' →
  operation_count l = length (batch l) →
  (length (batch l) ≤ 501)%nat →
  accounted 499 w l w' l'.
Proof.
  unfold commit_if_full. intros Hrun Hcount Hlen.
  destruct (Nat.leb_spec BATCH_LIMIT (operation_count l)) as [Hfull|Hroom].
  - apply bind_returned in Hrun as ([] & w1 & Hcommit & Hret).
    injection Hret as <- <-. apply do_commit_returned, commit_inv in Hcommit
      as (_ & Hlog & _).
    exists [batch l], []. simpl. rewrite !app_nil_r.
    split; [done|]. split.
    { constructor; [|constructor]. unfold full_batch, BATCH_LIMIT in *. lia. }
    repeat split; try done; try lia; unfold round_data_deletes; simpl; lia.
  - injection Hrun as <- <-. apply accounted_refl; [done|].
    unfold BATCH_LIMIT in *. lia.
Qed.

Lemma data_loop_acc (docs : list doc_ref) (l l' : Locals) (w w' : World) :
  Forall is_round_data_ref docs →
  data_loop docs l w = Returned l' w' →
  operation_count l = length (batch l) →
  (length (batch l) ≤ 500)%nat →
  accounted 500 w l w' l'.
Proof.
  intros Hrefs. revert l w.
  induction Hrefs as [|ref docs Href _ IH]; intros l w Hrun Hcount Hlen.
  - injection Hrun as <- <-. by apply accounted_refl.
  - cbn [data_loop] in Hrun.
    apply bind_returned in Hrun as (l1 & w1 & Hfull & Hrun).
    pose proof (accounted_enqueue w l (OpDelete ref) count_round Hcount) as Henq.
    destruct Henq as (n0 & o0 & Hlog0 & Hfull0 & Hq0 & Hcount0 & Hlen0 & Hr0).
    { destruct ref; try done. unfold round_data_deletes. simpl. lia. }
    assert (accounted 499 w (with_stats count_round (enqueue (OpDelete ref) l)) w1 l1)
      as Hacc1 by (apply commit_if_full_acc; [done|done|lia]).
    pose proof Hacc1 as (_ & _ & _ & _ & _ & Hc1 & Hl1 & _).
    eapply accounted_trans.
    { exists n0, o0. repeat split; done. }
    eapply accounted_trans; [exact Hacc1|].
    apply IH; [done|done|lia].
Qed.

Lemma rounds_loop_acc (sid c : string) (rs : list string) (l l' : Locals) (w w' : World) :
  rounds_loop sid c rs l w = Returned l' w' →
  operation_count l = length (batch l) →
  (length (batch l) ≤ 500)%nat →
  accounted 500 w l w' l'.
Proof.
  revert l w. induction rs as [|r rs IH]; intros l w Hrun Hcount Hlen.
  - injection Hrun as <- <-. by apply accounted_refl.
  - cbn [rounds_loop] in Hrun.
    apply bind_returned in Hrun as (docs & w0 & Hread & Hrun).
    unfold read in Hread. injection Hread as <- <-.
    apply bind_returned in Hrun as (l1 & w1 & Hdata & Hrun).
    apply data_loop_acc in Hdata; [|apply data_query_refs|done|done].
    pose proof Hdata as (_ & _ & _ & _ & _ & Hc1 & Hl1 & _).
    eapply accounted_trans; [exact Hdata|]. by apply IH.
Qed.

Lemma company_step_acc (sid : string) (entry : string * CompanyInfo)
    (l l' : Locals) (w w' : World) :
  company_step sid entry l w = Returned l' w' →
  operation_count l = length (batch l) →
  (length (batch l) ≤ 499)%nat →
  accounted 499 w l w' l'.
Proof.
  unfold company_step. intros Hrun Hcount Hlen.
  apply bind_returned in Hrun as (rs & w0 & Hread & Hrun).
  unfold read in Hread. injection Hread as <- <-.
  apply bind_returned in Hrun as (l1 & w1 & Hrounds & Hfull).
  set (l0 := if ci_finalSelection entry.2 then _ else _) in Hrounds.
  assert (accounted 500 w l w l0) as Hacc0.
  { subst l0. destruct (ci_finalSelection entry.2), (truthy (ci_year entry.2)).
    - apply (accounted_local _ _ _ _ [OpDelete (placements_doc entry.1 sid)]);
        simpl; rewrite ?length_app; simpl; unfold round_data_deletes; simpl; lia || done.
    - apply (accounted_local _ _ _ _ [OpDelete (placements_doc entry.1 sid)]);
        simpl; rewrite ?length_app; simpl; unfold round_data_deletes; simpl; lia || done.
    - apply (accounted_local _ _ _ _ []);
        simpl; rewrite ?app_nil_r; unfold round_data_deletes; simpl; lia || done.
    - apply (accounted_local _ _ _ _ []);
        simpl; rewrite ?app_nil_r; unfold round_data_deletes; simpl; lia || done. }
  pose proof Hacc0 as (_ & _ & _ & _ & _ & Hc0 & Hl0 & _).
  apply rounds_loop_acc in Hrounds; [|done|done].
  pose proof Hrounds as (_ & _ & _ & _ & _ & Hc1 & Hl1 & _).
  eapply accounted_trans; [exact Hacc0|].
  eapply accounted_trans; [exact Hrounds|].
  match type of Hfull with commit_if_full (enqueue ?op _) _ = _ =>
    eapply accounted_trans;
      [apply (accounted_local 501 w1 l1 (enqueue op l1) [op]);
         simpl; rewrite ?length_app; simpl; unfold round_data_deletes; simpl; lia || done|]
  end.
  apply commit_if_full_acc; [exact Hfull|..];
    simpl; rewrite length_app; simpl; lia.
Qed.

Lemma company_loop_acc (sid : string) (items : list (string * CompanyInfo))
    (l l' : Locals) (w w' : World) :
  company_loop sid items l w = Returned l' w' →
  operation_count l = length (batch l) →
  (length (batch l) ≤ 499)%nat →
  accounted 499 w l w' l'.
Proof.
  revert l w. induction items as [|entry items IH]; intros l w Hrun Hcount Hlen.
  - injection Hrun as <- <-. by apply accounted_refl.
  - cbn [company_loop] in Hrun.
    apply bind_returned in Hrun as (l1 & w1 & Hstep & Hrun).
    apply company_step_acc in Hstep; [|done|done].
    pose proof Hstep as (_ & _ & _ & _ & _ & Hc1 & Hl1 & _).
    eapply accounted_trans; [exact Hstep|]. by apply IH.
Qed.

Lemma round_data_deletes_years (items : list (string * CompanyInfo)) (ys : list Z) :
  round_data_deletes (year_op items <$> ys) = 0%nat.
Proof.
  unfold round_data_deletes. induction ys as [|y ys IH]; [done|].
  rewrite fmap_cons, filter_cons_False; [exact IH|]. simpl. done.
Qed.

(** What a returning cascade has committed and counted. *)
Lemma cascade_accounted (sid : string) (sd : Student) (w w' : World) (r : json) :
  students (db w) !! sid = Some sd →
  delete_student_cascade sid w = Returned r w' →
  ∃ full l1,
    r = build_result sid sd (stats l1)
    ∧ commits w' = commits w ++ full
                   ++ [final_batch sid sd l1; [OpDelete (students_doc sid)]]
    ∧ Forall full_batch full
    ∧ (length (batch l1) ≤ 499)%nat
    ∧ roundsDeleted (stats l1)
      = round_data_deletes
          (concat (full ++ [final_batch sid sd l1; [OpDelete (students_doc sid)]]))
    ∧ same_counts
        (counts_after (st_companyStatus sd) (stats (initial_locals sd))) (stats l1).
Proof.
  intros Hsd Hrun. rewrite (cascade_cases sid sd w Hsd) in Hrun.
  destruct (company_loop sid (st_companyStatus sd) (initial_locals sd) w)
    as [l1 w1|e w1] eqn:Hloop; [|discriminate].
  destruct (commit (final_batch sid sd l1) w1) as [w2|] eqn:Hcommit; [|discriminate].
  injection Hrun as <- <-. cbn [commits].
  apply commit_inv in Hcommit as (_ & Hlog2 & _).
  pose proof (company_loop_inv _ _ _ _ _ _ Hloop) as (_ & _ & _ & Hcounts).
  apply company_loop_acc in Hloop as (full & ops & Hlog & Hfull & Hq & _ & Hlen & Hr);
    [|done|simpl; lia].
  exists full, l1. split; [done|]. split.
  { rewrite Hlog2, Hlog, <- !(assoc_L (++)). done. }
  split; [done|]. split; [done|]. split; [|done].
  rewrite Hr. simpl in Hq. rewrite <- Hq. simpl.
  rewrite concat_app. simpl. unfold final_batch.
  rewrite !round_data_deletes_app, round_data_deletes_years.
  change (round_data_deletes [OpDelete (students_doc sid)]) with 0%nat. lia.
Qed.

(** X16 — The sizes of the batches of a cascade that returns: every batch
    committed in the loop over the companies holds 500 or 501 operations;
    the batch committed after the loop holds at most 500 plus the number of
    years affected, of which one update each and the deletion of the student
    are part; the last batch is the single deletion of the student. *)
Theorem cascade_batch_sizes (sid : string) (w w' : World) (r : json) :
  delete_student_cascade sid w = Returned r w' →
  ∃ full final years,
    commits w' = commits w ++ full ++ [final; [OpDelete (students_doc sid)]]
    ∧ Forall (λ b, length b = 500%nat ∨ length b = 501%nat) full
    ∧ (json_field "cascadingUpdates" r ≫= json_field "yearsAffected")
      = Some (JInt (Z.of_nat years))
    ∧ (years + 1 ≤ length final ≤ years + 500)%nat.
Proof.
  intros Hrun.
  destruct (students (db w) !! sid) as [sd|] eqn:Hsd;
    [|rewrite (cascade_absent sid w Hsd) in Hrun; discriminate].
  destruct (cascade_accounted sid sd w w' r Hsd Hrun)
    as (full & l1 & -> & Hlog & Hfull & Hlen & _ & _).
  exists full, (final_batch sid sd l1), (size (yearsAffected (stats l1))).
  split; [done|]. split; [done|]. split; [done|].
  unfold final_batch. rewrite !length_app, length_fmap. simpl.
  change (length (elements (yearsAffected (stats l1))))
    with (size (yearsAffected (stats l1))). lia.
Qed.

(** X17 — The summary of a cascade that returns: ['roundsDeleted'] is the
    number of deletions of rows of round data in the batches that the call
    committed, and ['yearsAffected'] is the number of distinct years of
    [companyStatus] other than 0 (and [None]). *)
Theorem cascade_counts_rows_and_years (sid : string) (sd : Student) (w w' : World)
    (r : json) :
  students (db w) !! sid = Some sd →
  delete_student_cascade sid w = Returned r w' →
  ∃ new (ys : gset Z),
    commits w' = commits w ++ new
    ∧ (json_field "cascadingUpdates" r ≫= json_field "roundsDeleted")
      = Some (JInt (Z.of_nat (length (filter (λ op, is_round_data_delete op = true)
                                             (concat new)))))
    ∧ (json_field "cascadingUpdates" r ≫= json_field "yearsAffected")
      = Some (JInt (Z.of_nat (size ys)))
    ∧ (∀ y, y ∈ ys ↔ ∃ e, e ∈ st_companyStatus sd ∧ ci_year e.2 = Some y ∧ y ≠ 0).
Proof.
  intros Hsd Hrun.
  destruct (cascade_accounted sid sd w w' r Hsd Hrun)
    as (full & l1 & -> & Hlog & _ & _ & Hrows & (_ & _ & Hys & _)).
  exists (full ++ [final_batch sid sd l1; [OpDelete (students_doc sid)]]),
         (yearsAffected (stats l1)).
  split; [done|]. split; [simpl; by rewrite Hrows|]. split; [done|].
  intros y. rewrite Hys.
  destruct (counts_after_spec (st_companyStatus sd) (stats (initial_locals sd)))
    as (_ & _ & Hspec).
  rewrite Hspec. unfold affected. simpl.
  split; [intros [Hy|Hy]; [exact Hy|by apply not_elem_of_empty in Hy]|by left].
Qed.

(** ** The rows of round data *)

Lemma apply_op_rounds (ts : Z) (op : write_op) (d d' : Db) :
  apply_op ts op d = Some d' → rounds d' = rounds d.
Proof.
  destruct op as [[]| | | |[]]; simpl;
    repeat (case_match; simpl); intros ?; simplify_eq; done.
Qed.

Lemma steps_rounds (d d' : Db) (ops : list write_op) :
  steps d ops d' → rounds d' = rounds d.
Proof.
  induction 1 as [d|ts op d d1 ops d2 Hop _ IH]; [done|].
  rewrite IH. by eapply apply_op_rounds.
Qed.

Lemma steps_settle (d d' : Db) (ops : list write_op) (k : string * string * string) :
  steps d ops d' →
  round_data d !! k = None ∨ OpDelete (round_data_doc k.1.1 k.1.2 k.2) ∈ ops →
  round_data d' !! k = None.
Proof.
  intros Hsteps [Hgone|Hin].
  - by eapply (steps_absent round_data round_data_target apply_op_round_data).
  - eapply (steps_deleted round_data round_data_target apply_op_round_data); [done|].
    eexists. split; [exact Hin|]. by destruct k as [[] ?].
Qed.

Lemma rounds_stream_elem (c r : string) (d : Db) :
  r ∈ rounds_stream c d ↔ is_Some (rounds d !! (c, r)).
Proof.
  unfold rounds_stream. rewrite list_elem_of_omap. split.
  - intros ([[c' r'] x] & Hin & Hsome). simpl in Hsome.
    case_decide; [|discriminate]. simplify_eq.
    apply elem_of_map_to_list in Hin. by eexists.
  - intros [x Hx]. exists ((c, r), x). split; [by apply elem_of_map_to_list|].
    simpl. by case_decide.
Qed.

Lemma data_query_finds (c r sid x : string) (row : RoundData) (d : Db) :
  round_data d !! (c, r, x) = Some row →
  rd_studentId row = Some sid →
  (∀ x' row', round_data d !! (c, r, x') = Some row' →
              rd_studentId row' = Some sid → x' = x) →
  data_query c r sid d = [round_data_doc c r x].
Proof.
  intros Hrow Hsid Hunique. unfold data_query.
  match goal with |- take 1 ?l = _ => set (found := l) end.
  assert (round_data_doc c r x ∈ found) as Hin.
  { apply list_elem_of_omap. exists ((c, r, x), row).
    split; [by apply elem_of_map_to_list|]. cbn [fst snd].
    by rewrite decide_True. }
  assert (∀ ref, ref ∈ found → ref = round_data_doc c r x) as Hall.
  { intros ref Href.
    apply list_elem_of_omap in Href as ([[[c' r'] x'] row'] & Hkv & Hsome).
    simpl in Hsome. case_decide as Hmatch; [|discriminate].
    destruct Hmatch as (-> & -> & Hsid'). injection Hsome as <-.
    apply elem_of_map_to_list in Hkv. by rewrite (Hunique x' row' Hkv Hsid'). }
  destruct found as [|ref refs]; [by apply elem_of_nil in Hin|].
  simpl. f_equal. apply Hall. by left.
Qed.

Section RoundRows.
Variables (d0 : Db) (sid c rd x : string) (row : RoundData).
Hypothesis found : round_data d0 !! (c, rd, x) = Some row.
Hypothesis owner : rd_studentId row = Some sid.
Hypothesis unique : ∀ x' row', round_data d0 !! (c, rd, x') = Some row' →
                               rd_studentId row' = Some sid → x' = x.

Lemma commit_if_full_settled (l l' : Locals) (w w' : World) :
  commit_if_full l w = Returned l' w' →
  settled (c, rd, x) w l → settled (c, rd, x) w' l'.
Proof.
  unfold commit_if_full. intros Hrun Hset.
  destruct (BATCH_LIMIT <=? operation_count l)%nat.
  - apply bind_returned in Hrun as ([] & w1 & Hcommit & Hret).
    injection Hret as <- <-.
    apply do_commit_returned, commit_inv in Hcommit as (Hops%apply_ops_steps & _).
    left. by eapply steps_settle.
  - by injection Hrun as <- <-.
Qed.

Lemma data_loop_settled (docs : list doc_ref) (l l' : Locals) (w w' : World) :
  data_loop docs l w = Returned l' w' →
  settled (c, rd, x) w l ∨ round_data_doc c rd x ∈ docs →
  settled (c, rd, x) w' l'.
Proof.
  revert l w. induction docs as [|ref docs IH]; intros l w Hrun Hpre.
  - injection Hrun as <- <-. destruct Hpre as [Hset|Hin]; [done|].
    by apply elem_of_nil in Hin.
  - cbn [data_loop] in Hrun.
    apply bind_returned in Hrun as (l1 & w1 & Hfull & Hrun).
    assert (settled (c, rd, x) w (with_stats count_round (enqueue (OpDelete ref) l))
            ∨ round_data_doc c rd x ∈ docs) as [Hset|Hin].
    { destruct Hpre as [[Hgone|Hq]|Hin].
      - left. by left.
      - left. right. simpl. apply elem_of_app. by left.
      - apply elem_of_cons in Hin as [<-|Hin]; [|by right].
        left. right. simpl. apply elem_of_app. right. by left. }
    + eapply IH; [exact Hrun|]. left. by eapply commit_if_full_settled.
    + eapply IH; [exact Hrun|]. by right.
Qed.

Lemma rounds_loop_settled (c' : string) (rs : list string) (l l' : Locals)
    (w w' : World) :
  rows_within d0 w →
  rounds_loop sid c' rs l w = Returned l' w' →
  settled (c, rd, x) w l ∨ (c' = c ∧ rd ∈ rs) →
  settled (c, rd, x) w' l'.
Proof.
  revert l w. induction rs as [|r rs IH]; intros l w Hrows Hrun Hpre.
  - injection Hrun as <- <-. destruct Hpre as [Hset|[_ Hin]]; [done|].
    by apply elem_of_nil in Hin.
  - cbn [rounds_loop] in Hrun.
    apply bind_returned in Hrun as (docs & w0 & Hread & Hrun).
    unfold read in Hread. injection Hread as <- <-.
    apply bind_returned in Hrun as (l1 & w1 & Hdata & Hrun).
    pose proof (data_loop_inv _ _ _ _ _ (data_query_refs _ _ _ _) Hdata)
      as (ops & (new & _ & Hsteps & _) & _).
    assert (rows_within d0 w1) as Hrows1 by (by eapply rows_within_steps).
    eapply IH; [exact Hrows1|exact Hrun|].
    destruct Hpre as [Hset|[-> Hin]].
    { left. eapply data_loop_settled; [exact Hdata|by left]. }
    apply elem_of_cons in Hin as [<-|Hin]; [|by right].
    left. eapply data_loop_settled; [exact Hdata|].
    destruct (round_data (db w) !! (c, rd, x)) as [row'|] eqn:Hrow; [|by left; left].
    right. pose proof (Hrows _ _ Hrow) as Hrow0.
    assert (row' = row) as -> by congruence.
    rewrite (data_query_finds c rd sid x row (db w) Hrow owner); [by left|].
    intros x' row2 Hrow2 Hsid2. eapply unique; [|exact Hsid2]. by apply Hrows.
Qed.

Lemma company_step_settled (entry : string * CompanyInfo) (l l' : Locals)
    (w w' : World) :
  rows_within d0 w →
  company_step sid entry l w = Returned l' w' →
  settled (c, rd, x) w l ∨ (entry.1 = c ∧ is_Some (rounds (db w) !! (c, rd))) →
  settled (c, rd, x) w' l'.
Proof.
  unfold company_step. intros Hrows Hrun Hpre.
  apply bind_returned in Hrun as (rs & w0 & Hread & Hrun).
  unfold read in Hread. injection Hread as <- <-.
  apply bind_returned in Hrun as (l1 & w1 & Hrounds & Hfull).
  eapply commit_if_full_settled; [exact Hfull|].
  assert (settled (c, rd, x) w1 l1) as [Hgone|Hq].
  { eapply rounds_loop_settled; [exact Hrows|exact Hrounds|].
    destruct Hpre as [[Hgone|Hq]|[Hc Hround]].
    - left. by left.
    - left. right.
      destruct (ci_finalSelection entry.2), (truthy (ci_year entry.2)); simpl;
        try done; apply elem_of_app; by left.
    - right. split; [done|]. rewrite Hc. by apply rounds_stream_elem. }
  - by left.
  - right. simpl. apply elem_of_app. by left.
Qed.

Lemma company_loop_settled (items : list (string * CompanyInfo)) (l l' : Locals)
    (w w' : World) :
  rows_within d0 w →
  company_loop sid items l w = Returned l' w' →
  settled (c, rd, x) w l ∨ (c ∈ items.*1 ∧ is_Some (rounds (db w) !! (c, rd))) →
  settled (c, rd, x) w' l'.
Proof.
  revert l w. induction items as [|entry items IH]; intros l w Hrows Hrun Hpre.
  - injection Hrun as <- <-. destruct Hpre as [Hset|[Hin _]]; [done|].
    by apply elem_of_nil in Hin.
  - cbn [company_loop] in Hrun.
    apply bind_returned in Hrun as (l1 & w1 & Hstep & Hrun).
    pose proof (company_step_inv _ _ _ _ _ _ Hstep) as (ops & (new & _ & Hsteps & _) & _).
    assert (rows_within d0 w1) as Hrows1 by (by eapply rows_within_steps).
    eapply IH; [exact Hrows1|exact Hrun|].
    destruct Hpre as [Hset|[Hin Hround]].
    { left. eapply company_step_settled; [exact Hrows|exact Hstep|by left]. }
    rewrite fmap_cons in Hin. apply elem_of_cons in Hin as [Hc|Hin].
    + left. eapply company_step_settled; [exact Hrows|exact Hstep|]. by right.
    + right. split; [done|]. by rewrite (steps_rounds _ _ _ Hsteps).
Qed.
End RoundRows.

(** X18 — Round data: when the cascade returns, the row of the student in
    a round of a company of [companyStatus] is gone, provided that the round
    document exists and that the round holds no second row of the student
    (the query has [limit(1)]). *)
Theorem cascade_deletes_round_rows (sid : string) (sd : Student) (w w' : World)
    (r : json) (c rd x : string) (row : RoundData) :
  students (db w) !! sid = Some sd →
  delete_student_cascade sid w = Returned r w' →
  c ∈ (st_companyStatus sd).*1 →
  is_Some (rounds (db w) !! (c, rd)) →
  round_data (db w) !! (c, rd, x) = Some row →
  rd_studentId row = Some sid →
  (∀ x' row', round_data (db w) !! (c, rd, x') = Some row' →
              rd_studentId row' = Some sid → x' = x) →
  round_data (db w') !! (c, rd, x) = None.
Proof.
  intros Hsd Hrun Hc Hround Hrow Hsid Hunique.
  rewrite (cascade_cases sid sd w Hsd) in Hrun.
  destruct (company_loop sid (st_companyStatus sd) (initial_locals sd) w)
    as [l1 w1|e w1] eqn:Hloop; [|discriminate].
  destruct (commit (final_batch sid sd l1) w1) as [w2|] eqn:Hcommit; [|discriminate].
  injection Hrun as <- <-. cbn [db].
  apply commit_inv in Hcommit as (Hops%apply_ops_steps & _).
  assert (settled (c, rd, x) w1 l1) as Hset.
  { eapply (company_loop_settled (db w) sid c rd x row Hrow Hsid Hunique);
      [|exact Hloop|by right]. by intros k row'. }
  assert (round_data (db w2) !! (c, rd, x) = None) as Hgone.
  { eapply steps_settle; [exact Hops|].
    destruct Hset as [Hgone|Hq]; [by left|right].
    unfold final_batch. apply elem_of_app. by left. }
  exact Hgone.
Qed.

(** ** A cascade within the ceiling *)













(** ** The route that calls the cascade *)


(** ** The properties at sample inputs *)

Lemma increment_stat_frame_witness :
  ∃ w', increment_stat "totalPlaced" (-3) 7 zero_stats_world = Returned tt w'
        ∧ stat_call_effect "totalPlaced" 7 zero_stats_world w'.
Proof.
  apply (increment_stat_frame "totalPlaced" (-3) 7 zero_stats_world).
  - split; reflexivity.
  - unfold int64. lia.
  - intros c Hc. vm_compute in Hc. injection Hc as <-. unfold int64. lia.
Defined.

Lemma counter_on_non_number_witness :
  ∃ w', increment_stat "initializedAt" 2 7 stamped_world = Returned tt w'
        ∧ stored "initializedAt" w' = Some (VInt 2)
        ∧ stored "lastUpdated" w' = Some (VTime 7).
Proof.
  apply (counter_on_non_number "initializedAt" (VTime 1) 2 7 stamped_world
           (<["initializedAt"%string := VTime 1]> {[ "totalPlaced"%string := VInt 0 ]}));
    [reflexivity | reflexivity | discriminate | discriminate].
Defined.

Lemma dashboard_steady_state_witness :
  ∃ s, get_dashboard_summary (λ _, []) steady_world = Returned s steady_world
       ∧ ly_companyWise (latestYear s) = yr_companyWise year_2025
       ∧ firestore_reads s = 2%nat.
Proof.
  destruct (dashboard_steady_state (λ _, []) steady_world year_2025)
    as (s & Hrun & Hcw & _ & _ & Hreads & _).
  - reflexivity.
  - intros Hempty.
    assert (yr_companyWise year_2025 !! "acme-2025"%string = None) as Hnone
      by (rewrite Hempty; reflexivity).
    discriminate Hnone.
  - simpl. lia.
  - exists s. split; [exact Hrun|]. split; [exact Hcw|exact Hreads].
Defined.


Lemma cascade_frame_witness :
  ∃ r w', delete_student_cascade "S" acme_world = Returned r w'
          ∧ students (db w') = delete "S"%string (students (db acme_world))
          ∧ company_identity <$> companies (db w') !! "acme-2025"%string
            = Some (Some "acme"%string, Some 2025, Some "running"%string).
Proof.
  assert (∃ r w', delete_student_cascade "S" acme_world = Returned r w') as (r & w' & Hrun)
    by (vm_compute; eauto).
  destruct (cascade_frame "S" student_S acme_world w' r eq_refl Hrun)
    as (Hstudents & _ & Hidentity & _).
  exists r, w'. split; [exact Hrun|]. split; [exact Hstudents|].
  rewrite Hidentity. reflexivity.
Defined.

Lemma cascade_without_companies_witness :
  ∃ r w', delete_student_cascade "N" new_student_world = Returned r w'
          ∧ (json_field "cascadingUpdates" r ≫= json_field "companiesAffected")
            = Some (JInt 0)
          ∧ clock w' = 102.
Proof.
  eexists _, _. split.
  - apply (cascade_without_companies "N" new_student new_student_world);
      reflexivity.
  - split; reflexivity.
Defined.


Lemma cascade_batch_sizes_witness :
  ∃ r w' full final years,
    delete_student_cascade "S" acme_world = Returned r w'
    ∧ commits w' = commits acme_world ++ full
                   ++ [final; [OpDelete (students_doc "S")]]
    ∧ (years + 1 ≤ length final ≤ years + 500)%nat.
Proof.
  assert (∃ r w', delete_student_cascade "S" acme_world = Returned r w') as (r & w' & Hrun)
    by (vm_compute; eauto).
  destruct (cascade_batch_sizes "S" acme_world w' r Hrun)
    as (full & final & years & Hlog & _ & _ & Hlen).
  exists r, w', full, final, years. exact (conj Hrun (conj Hlog Hlen)).
Defined.

Lemma cascade_counts_rows_and_years_witness :
  ∃ r w' new,
    delete_student_cascade "S" acme_world = Returned r w'
    ∧ commits w' = commits acme_world ++ new
    ∧ (json_field "cascadingUpdates" r ≫= json_field "roundsDeleted")
      = Some (JInt (Z.of_nat (length (filter (λ op, is_round_data_delete op = true)
                                             (concat new))))).
Proof.
  assert (∃ r w', delete_student_cascade "S" acme_world = Returned r w') as (r & w' & Hrun)
    by (vm_compute; eauto).
  destruct (cascade_counts_rows_and_years "S" student_S acme_world w' r eq_refl Hrun)
    as (new & ys & Hlog & Hrows & _).
  exists r, w', new. exact (conj Hrun (conj Hlog Hrows)).
Defined.

Lemma cascade_deletes_round_rows_witness :
  ∃ r w', delete_student_cascade "S" acme_world = Returned r w'
          ∧ round_data (db w') !! ("acme-2025", "r1", "d1")%string = None.
Proof.
  assert (∃ r w', delete_student_cascade "S" acme_world = Returned r w') as (r & w' & Hrun)
    by (vm_compute; eauto).
  exists r, w'. split; [exact Hrun|].
  apply (cascade_deletes_round_rows "S" student_S acme_world w' r
           "acme-2025" "r1" "d1" {| rd_studentId := Some "S"%string |} eq_refl Hrun).
  - by left.
  - by eexists.
  - reflexivity.
  - reflexivity.
  - intros x' row' Hrow _.
    destruct (decide (x' = "d1"%string)) as [->|Hne]; [done|].
    assert (round_data (db acme_world) !! ("acme-2025", "r1", x')%string = None) as Hnone.
    { apply lookup_singleton_ne. congruence. }
    congruence.
Defined.
